(** * A shallow embedding of the 6502-Emulator's clocked core

    The development follows the TypeScript sources one class at a time:
    [Memory] (hardware/Memory.ts), [MMU] (hardware/MMU.ts), [Cpu]
    (hardware/Cpu.ts), [InstructionSet] (lib/Instructions.ts),
    [InterruptController] (hardware/InterruptController.ts), [System]
    (System.ts) and [Clock] (hardware/Clock.ts).

    Conventions of the embedding.
    - JavaScript numbers that hold integers are values of [Z]; the counters
      that start at zero and are only incremented are [nat].  The bitwise
      operators [&], [|] and [<<] are [Z.land], [Z.lor] and [Z.shiftl]: they
      work on the 32-bit integer of their operands, which is the operand
      itself for the bytes, addresses and small sums of this machine.
    - A [number] that can be [null] is an [option Z]: the two latches of
      the Cpu, which are initialised with [null], and [MAR], to which the
      Writeback stage copies a latch.  [MDR], which a read past the end of
      the typed array sets to [undefined], is a [jsnum].
    - The objects reference each other (Cpu -> MMU -> Memory -> MMU,
      Cpu -> System -> Clock ...), so every method is a computation on the
      one [Machine] record that holds all of them.
    - A method is a computation in the monad [M]: it returns a value and
      the new machine, or it throws and leaves the machine as it was at
      the throw (JavaScript does not roll back assignments).
    - [Hardware.log] only prints.  Of the printed lines the model keeps the
      ones written by the [catch] blocks.  What matters about the other
      lines is that their template strings call [hexLog], which throws a
      TypeError on [null] and [undefined] whether or not debugging is on;
      those calls are kept, in the order of the source.  [Hardware.tick] is
      only printed and is left out.

    The second part of the definitions covers what surrounds the core: the
    table of lib/Ascii.ts, [Hardware.hexLog] as a string, the custom
    programs of lib/ProgramMenu.ts, the selection of a program and the two
    byte setters of the MMU.  There a string is the list of its UTF-16 code
    units. *)

From Stdlib Require Import ZArith Bool List Lia Ascii.
From stdpp Require Import base list strings pretty.

Local Open Scope Z_scope.

(** ** JavaScript values and errors *)

(** A value that is a number, [null] or [undefined]. *)
Inductive jsnum : Type :=
| Num (z : Z)
| Null
| Undefined.

Inductive JsError : Type :=
| UnknownOpcode (op : Z)       (* new Error(`Unknown Opcode ${...}`) *)
| ExecuteFunctionNotSet        (* new Error("Execute function not set during decode phase") *)
| InvalidByteValue (b : Z)     (* new Error(`Invalid byte value: ${byte}`), Ascii.ts *)
| TypeError.                   (* .toString of null or undefined *)

(** The [catch] block that printed a line. *)
Inductive ErrTag : Type :=
| CPU_Error | Fetch_Error | Load_Error | STA_Error | ADC_Error
| CPX_Error | INC_Error | SYS_Error.

Inductive LogLine : Type :=
| ErrorLine (tag : ErrTag) (e : JsError).

(** ** Enumerations of Cpu.ts and Instructions.ts *)

Module PipelineStep.
Inductive t : Type := None | Fetch | Decode | Execute | Writeback | InterruptCheck.
End PipelineStep.

Module Instruction.
Inductive t : Type :=
| NAN | LDA | STA | TXA | TYA | ADC | LDX | TAX | LDY | TAY
| NOP | BRK | CPX | BNE | INC | SYS.
End Instruction.

(** [executeFunction] holds one of the bound methods [cpu.LDA.bind(cpu)], ... *)
Inductive ExecuteFn : Type :=
| fn_LDA | fn_STA | fn_TXA | fn_TYA | fn_ADC | fn_LDX | fn_TAX | fn_LDY
| fn_TAY | fn_NOP | fn_BRK | fn_CPX | fn_BNE | fn_INC | fn_SYS.

(** ** The objects *)

(** imp/Interrupt.ts *)
Record Interrupt : Type := {
  irqNumber : Z;
  priority : Z;
  deviceName : string;
  data : option Z            (* data?: number *)
}.

(** imp/Program.ts *)
Record Registers : Type := { reg_a : Z; reg_x : Z; reg_y : Z; reg_z : bool; reg_c : bool }.

Record Program : Type := {
  name : string;
  code : list Z;
  expectedRegisters : option Registers
}.

(** Memory.ts.  [MEMORY] is the [Uint8Array]. *)
Record Memory : Type := {
  MEMORY : list Z;
  MAR : option Z;
  MDR : jsnum;
  isReadPending : bool;
  isWritePending : bool
}.

(** MMU.ts *)
Record MMU : Type := {
  _PROGRAM : list Z;
  _LOAD_ADDRESS : Z;
  _isLoading : bool
}.

(** Cpu.ts; [debug] is the field of the base class Hardware. *)
Record Cpu : Type := {
  debug : bool;
  aRegister : Z;
  xRegister : Z;
  yRegister : Z;
  zRegister : bool;
  cRegister : bool;
  pcRegister : Z;
  iRegister : Instruction.t;
  opcode : Z;
  operand : list Z;
  step : PipelineStep.t;
  currentCyclePulseCount : nat;
  fetchCount : nat;
  currentFetch : nat;
  executeFunction : option ExecuteFn;
  writeFlag : bool;
  writeAddress : option Z;
  writeValue : option Z;
  pendingInterrupt : option Interrupt;
  outputBuffer : string;
  useCarry : bool
}.

(** InterruptController.ts *)
Record InterruptController : Type := {
  waitingInterrupts : list Interrupt
}.

(** System.ts *)
Record System : Type := {
  running : bool;
  currentProgram : option Program;
  programOutput : string
}.

(** Clock.ts.  The listeners are fixed by [System.startSystem]: the Cpu,
    the Memory and the InterruptController, in this order. *)
Record Clock : Type := {
  isRunning : bool
}.

Record Machine : Type := {
  cpu : Cpu;
  memory : Memory;
  mmu : MMU;
  system : System;
  interruptController : InterruptController;
  clock : Clock;
  console : list LogLine
}.

(** Assignments to one field. *)
Definition with_MEMORY (v : list Z) (me : Memory) : Memory :=
  {| MEMORY := v; MAR := MAR me; MDR := MDR me; isReadPending := isReadPending me;
     isWritePending := isWritePending me |}.
Definition with_MAR (v : option Z) (me : Memory) : Memory :=
  {| MEMORY := MEMORY me; MAR := v; MDR := MDR me; isReadPending := isReadPending me;
     isWritePending := isWritePending me |}.
Definition with_MDR (v : jsnum) (me : Memory) : Memory :=
  {| MEMORY := MEMORY me; MAR := MAR me; MDR := v; isReadPending := isReadPending me;
     isWritePending := isWritePending me |}.
Definition with_isReadPending (v : bool) (me : Memory) : Memory :=
  {| MEMORY := MEMORY me; MAR := MAR me; MDR := MDR me; isReadPending := v;
     isWritePending := isWritePending me |}.
Definition with_isWritePending (v : bool) (me : Memory) : Memory :=
  {| MEMORY := MEMORY me; MAR := MAR me; MDR := MDR me; isReadPending := isReadPending me;
     isWritePending := v |}.

Definition with__PROGRAM (v : list Z) (u : MMU) : MMU :=
  {| _PROGRAM := v; _LOAD_ADDRESS := _LOAD_ADDRESS u; _isLoading := _isLoading u |}.
Definition with__LOAD_ADDRESS (v : Z) (u : MMU) : MMU :=
  {| _PROGRAM := _PROGRAM u; _LOAD_ADDRESS := v; _isLoading := _isLoading u |}.
Definition with__isLoading (v : bool) (u : MMU) : MMU :=
  {| _PROGRAM := _PROGRAM u; _LOAD_ADDRESS := _LOAD_ADDRESS u; _isLoading := v |}.

Definition with_debug (v : bool) (c : Cpu) : Cpu :=
  {| debug := v; aRegister := aRegister c; xRegister := xRegister c;
     yRegister := yRegister c; zRegister := zRegister c; cRegister := cRegister c;
     pcRegister := pcRegister c; iRegister := iRegister c; opcode := opcode c;
     operand := operand c; step := step c;
     currentCyclePulseCount := currentCyclePulseCount c; fetchCount := fetchCount c;
     currentFetch := currentFetch c; executeFunction := executeFunction c;
     writeFlag := writeFlag c; writeAddress := writeAddress c; writeValue := writeValue c;
     pendingInterrupt := pendingInterrupt c; outputBuffer := outputBuffer c;
     useCarry := useCarry c |}.
Definition with_aRegister (v : Z) (c : Cpu) : Cpu :=
  {| debug := debug c; aRegister := v; xRegister := xRegister c; yRegister := yRegister c;
     zRegister := zRegister c; cRegister := cRegister c; pcRegister := pcRegister c;
     iRegister := iRegister c; opcode := opcode c; operand := operand c; step := step c;
     currentCyclePulseCount := currentCyclePulseCount c; fetchCount := fetchCount c;
     currentFetch := currentFetch c; executeFunction := executeFunction c;
     writeFlag := writeFlag c; writeAddress := writeAddress c; writeValue := writeValue c;
     pendingInterrupt := pendingInterrupt c; outputBuffer := outputBuffer c;
     useCarry := useCarry c |}.
Definition with_xRegister (v : Z) (c : Cpu) : Cpu :=
  {| debug := debug c; aRegister := aRegister c; xRegister := v; yRegister := yRegister c;
     zRegister := zRegister c; cRegister := cRegister c; pcRegister := pcRegister c;
     iRegister := iRegister c; opcode := opcode c; operand := operand c; step := step c;
     currentCyclePulseCount := currentCyclePulseCount c; fetchCount := fetchCount c;
     currentFetch := currentFetch c; executeFunction := executeFunction c;
     writeFlag := writeFlag c; writeAddress := writeAddress c; writeValue := writeValue c;
     pendingInterrupt := pendingInterrupt c; outputBuffer := outputBuffer c;
     useCarry := useCarry c |}.
Definition with_yRegister (v : Z) (c : Cpu) : Cpu :=
  {| debug := debug c; aRegister := aRegister c; xRegister := xRegister c; yRegister := v;
     zRegister := zRegister c; cRegister := cRegister c; pcRegister := pcRegister c;
     iRegister := iRegister c; opcode := opcode c; operand := operand c; step := step c;
     currentCyclePulseCount := currentCyclePulseCount c; fetchCount := fetchCount c;
     currentFetch := currentFetch c; executeFunction := executeFunction c;
     writeFlag := writeFlag c; writeAddress := writeAddress c; writeValue := writeValue c;
     pendingInterrupt := pendingInterrupt c; outputBuffer := outputBuffer c;
     useCarry := useCarry c |}.
Definition with_zRegister (v : bool) (c : Cpu) : Cpu :=
  {| debug := debug c; aRegister := aRegister c; xRegister := xRegister c;
     yRegister := yRegister c; zRegister := v; cRegister := cRegister c;
     pcRegister := pcRegister c; iRegister := iRegister c; opcode := opcode c;
     operand := operand c; step := step c;
     currentCyclePulseCount := currentCyclePulseCount c; fetchCount := fetchCount c;
     currentFetch := currentFetch c; executeFunction := executeFunction c;
     writeFlag := writeFlag c; writeAddress := writeAddress c; writeValue := writeValue c;
     pendingInterrupt := pendingInterrupt c; outputBuffer := outputBuffer c;
     useCarry := useCarry c |}.
Definition with_cRegister (v : bool) (c : Cpu) : Cpu :=
  {| debug := debug c; aRegister := aRegister c; xRegister := xRegister c;
     yRegister := yRegister c; zRegister := zRegister c; cRegister := v;
     pcRegister := pcRegister c; iRegister := iRegister c; opcode := opcode c;
     operand := operand c; step := step c;
     currentCyclePulseCount := currentCyclePulseCount c; fetchCount := fetchCount c;
     currentFetch := currentFetch c; executeFunction := executeFunction c;
     writeFlag := writeFlag c; writeAddress := writeAddress c; writeValue := writeValue c;
     pendingInterrupt := pendingInterrupt c; outputBuffer := outputBuffer c;
     useCarry := useCarry c |}.
Definition with_pcRegister (v : Z) (c : Cpu) : Cpu :=
  {| debug := debug c; aRegister := aRegister c; xRegister := xRegister c;
     yRegister := yRegister c; zRegister := zRegister c; cRegister := cRegister c;
     pcRegister := v; iRegister := iRegister c; opcode := opcode c; operand := operand c;
     step := step c; currentCyclePulseCount := currentCyclePulseCount c;
     fetchCount := fetchCount c; currentFetch := currentFetch c;
     executeFunction := executeFunction c; writeFlag := writeFlag c;
     writeAddress := writeAddress c; writeValue := writeValue c;
     pendingInterrupt := pendingInterrupt c; outputBuffer := outputBuffer c;
     useCarry := useCarry c |}.
Definition with_iRegister (v : Instruction.t) (c : Cpu) : Cpu :=
  {| debug := debug c; aRegister := aRegister c; xRegister := xRegister c;
     yRegister := yRegister c; zRegister := zRegister c; cRegister := cRegister c;
     pcRegister := pcRegister c; iRegister := v; opcode := opcode c; operand := operand c;
     step := step c; currentCyclePulseCount := currentCyclePulseCount c;
     fetchCount := fetchCount c; currentFetch := currentFetch c;
     executeFunction := executeFunction c; writeFlag := writeFlag c;
     writeAddress := writeAddress c; writeValue := writeValue c;
     pendingInterrupt := pendingInterrupt c; outputBuffer := outputBuffer c;
     useCarry := useCarry c |}.
Definition with_opcode (v : Z) (c : Cpu) : Cpu :=
  {| debug := debug c; aRegister := aRegister c; xRegister := xRegister c;
     yRegister := yRegister c; zRegister := zRegister c; cRegister := cRegister c;
     pcRegister := pcRegister c; iRegister := iRegister c; opcode := v;
     operand := operand c; step := step c;
     currentCyclePulseCount := currentCyclePulseCount c; fetchCount := fetchCount c;
     currentFetch := currentFetch c; executeFunction := executeFunction c;
     writeFlag := writeFlag c; writeAddress := writeAddress c; writeValue := writeValue c;
     pendingInterrupt := pendingInterrupt c; outputBuffer := outputBuffer c;
     useCarry := useCarry c |}.
Definition with_operand (v : list Z) (c : Cpu) : Cpu :=
  {| debug := debug c; aRegister := aRegister c; xRegister := xRegister c;
     yRegister := yRegister c; zRegister := zRegister c; cRegister := cRegister c;
     pcRegister := pcRegister c; iRegister := iRegister c; opcode := opcode c;
     operand := v; step := step c; currentCyclePulseCount := currentCyclePulseCount c;
     fetchCount := fetchCount c; currentFetch := currentFetch c;
     executeFunction := executeFunction c; writeFlag := writeFlag c;
     writeAddress := writeAddress c; writeValue := writeValue c;
     pendingInterrupt := pendingInterrupt c; outputBuffer := outputBuffer c;
     useCarry := useCarry c |}.
Definition with_step (v : PipelineStep.t) (c : Cpu) : Cpu :=
  {| debug := debug c; aRegister := aRegister c; xRegister := xRegister c;
     yRegister := yRegister c; zRegister := zRegister c; cRegister := cRegister c;
     pcRegister := pcRegister c; iRegister := iRegister c; opcode := opcode c;
     operand := operand c; step := v; currentCyclePulseCount := currentCyclePulseCount c;
     fetchCount := fetchCount c; currentFetch := currentFetch c;
     executeFunction := executeFunction c; writeFlag := writeFlag c;
     writeAddress := writeAddress c; writeValue := writeValue c;
     pendingInterrupt := pendingInterrupt c; outputBuffer := outputBuffer c;
     useCarry := useCarry c |}.
Definition with_currentCyclePulseCount (v : nat) (c : Cpu) : Cpu :=
  {| debug := debug c; aRegister := aRegister c; xRegister := xRegister c;
     yRegister := yRegister c; zRegister := zRegister c; cRegister := cRegister c;
     pcRegister := pcRegister c; iRegister := iRegister c; opcode := opcode c;
     operand := operand c; step := step c; currentCyclePulseCount := v;
     fetchCount := fetchCount c; currentFetch := currentFetch c;
     executeFunction := executeFunction c; writeFlag := writeFlag c;
     writeAddress := writeAddress c; writeValue := writeValue c;
     pendingInterrupt := pendingInterrupt c; outputBuffer := outputBuffer c;
     useCarry := useCarry c |}.
Definition with_fetchCount (v : nat) (c : Cpu) : Cpu :=
  {| debug := debug c; aRegister := aRegister c; xRegister := xRegister c;
     yRegister := yRegister c; zRegister := zRegister c; cRegister := cRegister c;
     pcRegister := pcRegister c; iRegister := iRegister c; opcode := opcode c;
     operand := operand c; step := step c;
     currentCyclePulseCount := currentCyclePulseCount c; fetchCount := v;
     currentFetch := currentFetch c; executeFunction := executeFunction c;
     writeFlag := writeFlag c; writeAddress := writeAddress c; writeValue := writeValue c;
     pendingInterrupt := pendingInterrupt c; outputBuffer := outputBuffer c;
     useCarry := useCarry c |}.
Definition with_currentFetch (v : nat) (c : Cpu) : Cpu :=
  {| debug := debug c; aRegister := aRegister c; xRegister := xRegister c;
     yRegister := yRegister c; zRegister := zRegister c; cRegister := cRegister c;
     pcRegister := pcRegister c; iRegister := iRegister c; opcode := opcode c;
     operand := operand c; step := step c;
     currentCyclePulseCount := currentCyclePulseCount c; fetchCount := fetchCount c;
     currentFetch := v; executeFunction := executeFunction c; writeFlag := writeFlag c;
     writeAddress := writeAddress c; writeValue := writeValue c;
     pendingInterrupt := pendingInterrupt c; outputBuffer := outputBuffer c;
     useCarry := useCarry c |}.
Definition with_executeFunction (v : option ExecuteFn) (c : Cpu) : Cpu :=
  {| debug := debug c; aRegister := aRegister c; xRegister := xRegister c;
     yRegister := yRegister c; zRegister := zRegister c; cRegister := cRegister c;
     pcRegister := pcRegister c; iRegister := iRegister c; opcode := opcode c;
     operand := operand c; step := step c;
     currentCyclePulseCount := currentCyclePulseCount c; fetchCount := fetchCount c;
     currentFetch := currentFetch c; executeFunction := v; writeFlag := writeFlag c;
     writeAddress := writeAddress c; writeValue := writeValue c;
     pendingInterrupt := pendingInterrupt c; outputBuffer := outputBuffer c;
     useCarry := useCarry c |}.
Definition with_writeFlag (v : bool) (c : Cpu) : Cpu :=
  {| debug := debug c; aRegister := aRegister c; xRegister := xRegister c;
     yRegister := yRegister c; zRegister := zRegister c; cRegister := cRegister c;
     pcRegister := pcRegister c; iRegister := iRegister c; opcode := opcode c;
     operand := operand c; step := step c;
     currentCyclePulseCount := currentCyclePulseCount c; fetchCount := fetchCount c;
     currentFetch := currentFetch c; executeFunction := executeFunction c; writeFlag := v;
     writeAddress := writeAddress c; writeValue := writeValue c;
     pendingInterrupt := pendingInterrupt c; outputBuffer := outputBuffer c;
     useCarry := useCarry c |}.
Definition with_writeAddress (v : option Z) (c : Cpu) : Cpu :=
  {| debug := debug c; aRegister := aRegister c; xRegister := xRegister c;
     yRegister := yRegister c; zRegister := zRegister c; cRegister := cRegister c;
     pcRegister := pcRegister c; iRegister := iRegister c; opcode := opcode c;
     operand := operand c; step := step c;
     currentCyclePulseCount := currentCyclePulseCount c; fetchCount := fetchCount c;
     currentFetch := currentFetch c; executeFunction := executeFunction c;
     writeFlag := writeFlag c; writeAddress := v; writeValue := writeValue c;
     pendingInterrupt := pendingInterrupt c; outputBuffer := outputBuffer c;
     useCarry := useCarry c |}.
Definition with_writeValue (v : option Z) (c : Cpu) : Cpu :=
  {| debug := debug c; aRegister := aRegister c; xRegister := xRegister c;
     yRegister := yRegister c; zRegister := zRegister c; cRegister := cRegister c;
     pcRegister := pcRegister c; iRegister := iRegister c; opcode := opcode c;
     operand := operand c; step := step c;
     currentCyclePulseCount := currentCyclePulseCount c; fetchCount := fetchCount c;
     currentFetch := currentFetch c; executeFunction := executeFunction c;
     writeFlag := writeFlag c; writeAddress := writeAddress c; writeValue := v;
     pendingInterrupt := pendingInterrupt c; outputBuffer := outputBuffer c;
     useCarry := useCarry c |}.
Definition with_pendingInterrupt (v : option Interrupt) (c : Cpu) : Cpu :=
  {| debug := debug c; aRegister := aRegister c; xRegister := xRegister c;
     yRegister := yRegister c; zRegister := zRegister c; cRegister := cRegister c;
     pcRegister := pcRegister c; iRegister := iRegister c; opcode := opcode c;
     operand := operand c; step := step c;
     currentCyclePulseCount := currentCyclePulseCount c; fetchCount := fetchCount c;
     currentFetch := currentFetch c; executeFunction := executeFunction c;
     writeFlag := writeFlag c; writeAddress := writeAddress c; writeValue := writeValue c;
     pendingInterrupt := v; outputBuffer := outputBuffer c; useCarry := useCarry c |}.
Definition with_outputBuffer (v : string) (c : Cpu) : Cpu :=
  {| debug := debug c; aRegister := aRegister c; xRegister := xRegister c;
     yRegister := yRegister c; zRegister := zRegister c; cRegister := cRegister c;
     pcRegister := pcRegister c; iRegister := iRegister c; opcode := opcode c;
     operand := operand c; step := step c;
     currentCyclePulseCount := currentCyclePulseCount c; fetchCount := fetchCount c;
     currentFetch := currentFetch c; executeFunction := executeFunction c;
     writeFlag := writeFlag c; writeAddress := writeAddress c; writeValue := writeValue c;
     pendingInterrupt := pendingInterrupt c; outputBuffer := v; useCarry := useCarry c |}.
Definition with_useCarry (v : bool) (c : Cpu) : Cpu :=
  {| debug := debug c; aRegister := aRegister c; xRegister := xRegister c;
     yRegister := yRegister c; zRegister := zRegister c; cRegister := cRegister c;
     pcRegister := pcRegister c; iRegister := iRegister c; opcode := opcode c;
     operand := operand c; step := step c;
     currentCyclePulseCount := currentCyclePulseCount c; fetchCount := fetchCount c;
     currentFetch := currentFetch c; executeFunction := executeFunction c;
     writeFlag := writeFlag c; writeAddress := writeAddress c; writeValue := writeValue c;
     pendingInterrupt := pendingInterrupt c; outputBuffer := outputBuffer c;
     useCarry := v |}.

Definition with_running (v : bool) (s : System) : System :=
  {| running := v; currentProgram := currentProgram s; programOutput := programOutput s |}.
Definition with_currentProgram (v : option Program) (s : System) : System :=
  {| running := running s; currentProgram := v; programOutput := programOutput s |}.
Definition with_programOutput (v : string) (s : System) : System :=
  {| running := running s; currentProgram := currentProgram s; programOutput := v |}.

Definition with_cpu (v : Cpu) (m : Machine) : Machine :=
  {| cpu := v; memory := memory m; mmu := mmu m; system := system m;
     interruptController := interruptController m; clock := clock m;
     console := console m |}.
Definition with_memory (v : Memory) (m : Machine) : Machine :=
  {| cpu := cpu m; memory := v; mmu := mmu m; system := system m;
     interruptController := interruptController m; clock := clock m;
     console := console m |}.
Definition with_mmu (v : MMU) (m : Machine) : Machine :=
  {| cpu := cpu m; memory := memory m; mmu := v; system := system m;
     interruptController := interruptController m; clock := clock m;
     console := console m |}.
Definition with_system (v : System) (m : Machine) : Machine :=
  {| cpu := cpu m; memory := memory m; mmu := mmu m; system := v;
     interruptController := interruptController m; clock := clock m;
     console := console m |}.
Definition with_interruptController (v : InterruptController) (m : Machine) : Machine :=
  {| cpu := cpu m; memory := memory m; mmu := mmu m; system := system m;
     interruptController := v; clock := clock m; console := console m |}.
Definition with_clock (v : Clock) (m : Machine) : Machine :=
  {| cpu := cpu m; memory := memory m; mmu := mmu m; system := system m;
     interruptController := interruptController m; clock := v; console := console m |}.
Definition with_console (v : list LogLine) (m : Machine) : Machine :=
  {| cpu := cpu m; memory := memory m; mmu := mmu m; system := system m;
     interruptController := interruptController m; clock := clock m; console := v |}.

Definition upd_cpu (f : Cpu -> Cpu) (m : Machine) : Machine :=
  with_cpu (f (cpu m)) m.
Definition upd_memory (f : Memory -> Memory) (m : Machine) : Machine :=
  with_memory (f (memory m)) m.
Definition upd_mmu (f : MMU -> MMU) (m : Machine) : Machine :=
  with_mmu (f (mmu m)) m.
Definition upd_system (f : System -> System) (m : Machine) : Machine :=
  with_system (f (system m)) m.

(** ** The monad of methods *)

Inductive Outcome (A : Type) : Type :=
| Ret (a : A) (m : Machine)
| Threw (e : JsError) (m : Machine).
Arguments Ret {A} a m.
Arguments Threw {A} e m.

Definition machine_of {A : Type} (o : Outcome A) : Machine :=
  match o with Ret _ m => m | Threw _ m => m end.

Definition M (A : Type) : Type := Machine -> Outcome A.

#[global] Instance M_ret : MRet M := fun A a m => Ret a m.
#[global] Instance M_bind : MBind M := fun A B f x m =>
  match x m with
  | Ret a m' => f a m'
  | Threw e m' => Threw e m'
  end.

Definition ret {A : Type} (a : A) : M A := mret a.
Definition skip : M unit := mret tt.
Definition get : M Machine := fun m => Ret m m.
Definition modify (f : Machine -> Machine) : M unit := fun m => Ret tt (f m).
Definition throw {A : Type} (e : JsError) : M A := fun m => Threw e m.

(** [try { body } catch (error) { handler }] *)
Definition try_catch {A : Type} (body : M A) (handler : JsError -> M A) : M A := fun m =>
  match body m with
  | Ret a m' => Ret a m'
  | Threw e m' => handler e m'
  end.

(** Hardware.hexLog: [num.toString(16)] throws on [null] and [undefined].
    The string it builds is only printed; the computation yields the
    number that was formatted, for the code that follows the log line. *)
Definition hexLog (num : jsnum) : M Z :=
  match num with
  | Num z => ret z
  | Null | Undefined => throw TypeError
  end.

Definition hexLog_opt (num : option Z) : M Z :=
  match num with
  | Some z => ret z
  | None => throw TypeError
  end.

(** Hardware.log as used in the catch blocks of the Cpu:
    [this.log(`<tag>: ${error.message}`)]. *)
Definition Cpu_log_error (tag : ErrTag) (e : JsError) : M unit :=
  modify (fun m => if debug (cpu m) then with_console (console m ++ [ErrorLine tag e]) m else m).

(** [try { body } catch (error) { this.log(...); throw error; }] *)
Definition rethrow_logged {A : Type} (tag : ErrTag) (body : M A) : M A :=
  try_catch body (fun e => Cpu_log_error tag e;; throw e).

(** ** Memory.ts *)

(** [MEMORY[mar]]: a typed array yields [undefined] outside its indices
    (and for the key "null"). *)
Definition Memory_at (cells : list Z) (mar : option Z) : jsnum :=
  match mar with
  | Some a =>
      if 0 <=? a then
        match cells !! Z.to_nat a with Some b => Num b | None => Undefined end
      else Undefined
  | None => Undefined
  end.

(** The conversion a [Uint8Array] applies to a stored value. *)
Definition ToUint8 (v : jsnum) : Z :=
  match v with
  | Num z => z mod 256
  | Null | Undefined => 0
  end.

(** [MEMORY[mar] = v]: a store outside the indices is ignored. *)
Definition Memory_store (cells : list Z) (mar : option Z) (v : jsnum) : list Z :=
  match mar with
  | Some a => if 0 <=? a then <[Z.to_nat a := ToUint8 v]> cells else cells
  | None => cells
  end.

Definition Memory_setMAR (mar : option Z) : M unit := modify (upd_memory (with_MAR mar)).
Definition Memory_setMDR (mdr : jsnum) : M unit := modify (upd_memory (with_MDR mdr)).
Definition Memory_getMDR : M jsnum := m ← get; ret (MDR (memory m)).
Definition Memory_read : M unit := modify (upd_memory (with_isReadPending true)).
Definition Memory_write : M unit := modify (upd_memory (with_isWritePending true)).

Definition Memory_executeRead : M unit :=
  modify (upd_memory (fun me => with_MDR (Memory_at (MEMORY me) (MAR me)) me));;
  m ← get;
  let me := memory m in
  (* `Read value ${hexLog(MDR, 2)} from address ${hexLog(MAR, 4)}` *)
  hexLog (MDR me);; hexLog_opt (MAR me);;
  (* `Memory contents at ${hexLog(MAR, 4)}: ${hexLog(MEMORY[MAR], 2)}` *)
  hexLog_opt (MAR me);; hexLog (Memory_at (MEMORY me) (MAR me));;
  (* `Memory state - MAR: ..., MDR: ..., Memory[...]: ...` *)
  hexLog_opt (MAR me);; hexLog (MDR me);; hexLog_opt (MAR me);;
  hexLog (Memory_at (MEMORY me) (MAR me));;
  skip.

Definition Memory_executeWrite : M unit :=
  modify (upd_memory (fun me => with_MEMORY (Memory_store (MEMORY me) (MAR me) (MDR me)) me));;
  m ← get;
  let me := memory m in
  (* `Wrote value ${hexLog(MDR, 2)} to address ${hexLog(MAR, 4)}` *)
  hexLog (MDR me);; hexLog_opt (MAR me);;
  (* const verifyValue = MEMORY[MAR]; `Verify write: Address ... contains ...` *)
  hexLog_opt (MAR me);; hexLog (Memory_at (MEMORY me) (MAR me));;
  skip.

(** [init] writes 0 to every index below [MEMORY.length]. *)
Definition Memory_init : M unit :=
  modify (upd_memory (fun me => with_MEMORY (replicate (length (MEMORY me)) 0) me)).

Definition Memory_reset : M unit := Memory_init.

(** ** MMU.ts *)

Definition MMU_isProgramLoading : M bool := m ← get; ret (_isLoading (mmu m)).

Definition MMU_triggerRead (address : Z) : M unit :=
  Memory_setMAR (Some address);; Memory_read.

Definition MMU_triggerWrite (value : jsnum) : M unit :=
  Memory_setMDR value;; Memory_write.

Definition MMU_writeImmediate (address : option Z) (value : jsnum) : M unit :=
  Memory_setMAR address;; Memory_setMDR value;; Memory_write.

Definition MMU_getMDR : M jsnum := Memory_getMDR.

(** [memoryDump] only prints, and [Memory.displayMemory] catches what its
    own [hexLog] calls throw: the else branch changes [_isLoading] only. *)
Definition MMU_loadProgram : M unit :=
  m ← get;
  match _PROGRAM (mmu m) with
  | byte :: rest =>
      modify (upd_mmu (with__PROGRAM rest));;                       (* shift() *)
      MMU_writeImmediate (Some (_LOAD_ADDRESS (mmu m))) (Num byte);;
      modify (upd_mmu (fun u => with__LOAD_ADDRESS (_LOAD_ADDRESS u + 1) u));;
      modify (upd_mmu (with__isLoading true))
  | [] =>
      modify (upd_mmu (with__isLoading false))
  end.

Definition MMU_reset : M unit :=
  modify (upd_mmu (with__PROGRAM []));;
  modify (upd_mmu (with__LOAD_ADDRESS 0));;
  modify (upd_mmu (with__isLoading false));;
  Memory_reset.

Definition MMU_setProgram (program : list Z) : M unit :=
  MMU_reset;;
  modify (upd_mmu (with__PROGRAM program));;
  modify (upd_mmu (with__LOAD_ADDRESS 0));;
  modify (upd_mmu (with__isLoading true));;
  MMU_loadProgram.

(** Memory.pulse; [this.mmu] is set by the constructor of the MMU. *)
Definition Memory_pulse : M unit :=
  m ← get;
  (if isWritePending (memory m) then
     Memory_executeWrite;;
     modify (upd_memory (with_isWritePending false));;
     loading ← MMU_isProgramLoading;
     if (loading : bool) then MMU_loadProgram else skip
   else skip);;
  m ← get;
  (if isReadPending (memory m) then
     Memory_executeRead;;
     modify (upd_memory (with_isReadPending false))
   else skip);;
  (* `MEM | MAR: ${hexLog(MAR, 4)} | MDR: ${hexLog(MDR, 2)} | ...` *)
  m ← get;
  hexLog_opt (MAR (memory m));; hexLog (MDR (memory m));;
  skip.

(** ** InterruptController.ts, System.ts and Clock.ts: the methods the Cpu calls *)

Definition InterruptController_acceptInterrupt (newInterrupt : Interrupt) : M unit :=
  modify (fun m => with_interruptController
    {| waitingInterrupts := waitingInterrupts (interruptController m) ++ [newInterrupt] |} m).

Definition InterruptController_clearInterrupts : M unit :=
  modify (with_interruptController {| waitingInterrupts := [] |}).

Definition Clock_stopClock : M unit :=
  modify (with_clock {| isRunning := false |}).

Definition System_appendProgramOutput (output : option string) : M unit :=
  (* programOutput += output, and [undefined] is appended as "undefined" *)
  modify (upd_system (fun s =>
    with_programOutput (programOutput s +:+ default "undefined" output) s)).

(** The results are printed; the menu comes back through a timer. *)
Definition System_handleProgramCompletion : M unit :=
  m ← get;
  (match currentProgram (system m) with
   | Some _ => modify (upd_system (with_programOutput ""))
   | None => skip
   end);;
  InterruptController_clearInterrupts;;
  modify (upd_system (with_running false)).

Definition System_stopSystem : M unit :=
  m ← get;
  if running (system m) then
    modify (upd_system (with_running false));;
    Clock_stopClock;;
    match currentProgram (system m) with
    | Some _ =>
        System_handleProgramCompletion;;
        modify (upd_system (with_currentProgram None))
    | None => skip
    end
  else skip.

(** ** lib/Ascii.ts *)

(** The keys of [AsciiMap]: "0x09".."0x0D" and "0x20".."0x7E", each mapped
    to the character with that code. *)
Definition AsciiMap_has (byte : Z) : bool :=
  ((9 <=? byte) && (byte <=? 13)) || ((32 <=? byte) && (byte <=? 126)).

(** A miss in the map yields [undefined], here [None]. *)
Definition encodeAscii (byte : Z) : M (option string) :=
  if (byte <? 0) || (255 <? byte) then throw (InvalidByteValue byte)
  else ret (if AsciiMap_has byte
            then Some (String (ascii_of_nat (Z.to_nat byte)) EmptyString)
            else None).

(** ** Cpu.ts *)

(** [arr[i]] *)
Definition array_get (arr : list Z) (i : nat) : jsnum :=
  match arr !! i with Some z => Num z | None => Undefined end.

(** [arr[i] = v] extends a JavaScript array.  The holes this leaves (here
    0) are at indices from 2 on, which nothing reads. *)
Definition array_set (arr : list Z) (i : nat) (v : Z) : list Z :=
  if (i <? length arr)%nat then <[i := v]> arr
  else arr ++ replicate (i - length arr) 0 ++ [v].

(** The integer a bitwise operator sees: [null] and [undefined] are 0. *)
Definition ToInt (v : jsnum) : Z :=
  match v with Num z => z | Null | Undefined => 0 end.

(** [(this.operand[1] << 8) | this.operand[0]] *)
Definition operand_address (c : Cpu) : Z :=
  Z.lor (Z.shiftl (ToInt (array_get (operand c) 1)) 8) (ToInt (array_get (operand c) 0)).

(** Truthiness of a [number] that may be [null]: 0 and [null] are falsy. *)
Definition truthy (v : option Z) : bool :=
  match v with Some z => negb (z =? 0) | None => false end.

Definition of_null (v : option Z) : jsnum :=
  match v with Some z => Num z | None => Null end.

Definition Cpu_handleAdditionalFetches : M unit :=
  rethrow_logged Fetch_Error (
    modify (upd_cpu (fun c => with_currentCyclePulseCount (S (currentCyclePulseCount c)) c));;
    m ← get;
    if (currentCyclePulseCount (cpu m) =? 1)%nat then
      MMU_triggerRead (pcRegister (cpu m))
    else if (currentCyclePulseCount (cpu m) =? 2)%nat then
      mdr ← MMU_getMDR;
      value ← hexLog mdr;
      modify (upd_cpu (fun c => with_operand (array_set (operand c) (currentFetch c) value) c));;
      modify (upd_cpu (fun c => with_pcRegister (pcRegister c + 1) c));;
      modify (upd_cpu (fun c => with_currentFetch (S (currentFetch c)) c));;
      modify (upd_cpu (with_currentCyclePulseCount 0%nat));;
      m ← get;
      if (fetchCount (cpu m) <=? currentFetch (cpu m))%nat then
        modify (upd_cpu (with_fetchCount 0%nat));;
        modify (upd_cpu (with_currentFetch 0%nat))
      else skip
    else skip).

Definition Cpu_setupDecode (numOperands : nat) (currentInstruction : Instruction.t)
    (nextExecute : ExecuteFn) : M unit :=
  modify (upd_cpu (with_fetchCount numOperands));;
  modify (upd_cpu (with_iRegister currentInstruction));;
  modify (upd_cpu (with_executeFunction (Some nextExecute))).

(** [set] is the callback of LDA, LDX and LDY; [get] is never called. *)
Definition Cpu_loadCaseHelper (immCaseOpcode : Z) (set : Z -> Cpu -> Cpu) : M bool :=
  rethrow_logged Load_Error (
    m ← get;
    if opcode (cpu m) =? immCaseOpcode then
      value ← hexLog (array_get (operand (cpu m)) 0);
      modify (upd_cpu (set value));;
      ret false
    else if (currentCyclePulseCount (cpu m) =? 1)%nat then
      MMU_triggerRead (operand_address (cpu m));;
      ret true
    else if (currentCyclePulseCount (cpu m) =? 2)%nat then
      mdr ← MMU_getMDR;
      value ← hexLog mdr;
      modify (upd_cpu (set value));;
      ret false
    else ret true).

Definition Cpu_setInterrupt (interrupt : option Interrupt) : M unit :=
  match interrupt with
  | Some i => modify (upd_cpu (with_pendingInterrupt (Some i)))
  | None => skip
  end.

Definition Cpu_LDA : M bool :=
  Cpu_loadCaseHelper 0xA9 (fun val => with_aRegister (Z.land val 0xFF)).

Definition Cpu_STA : M bool :=
  rethrow_logged STA_Error (
    m ← get;
    let address := operand_address (cpu m) in
    if (currentCyclePulseCount (cpu m) =? 1)%nat then
      MMU_writeImmediate (Some address) (Num (aRegister (cpu m)));;
      ret true
    else ret false).

Definition Cpu_TXA : M bool :=
  modify (upd_cpu (fun c => with_aRegister (Z.land (xRegister c) 0xFF) c));; ret false.

Definition Cpu_TYA : M bool :=
  modify (upd_cpu (fun c => with_aRegister (Z.land (yRegister c) 0xFF) c));; ret false.

(** A call that reaches the end of the method returns [undefined], which
    the caller negates like [false]. *)
Definition Cpu_ADC : M bool :=
  rethrow_logged ADC_Error (
    m ← get;
    if (currentCyclePulseCount (cpu m) =? 1)%nat then
      MMU_triggerRead (operand_address (cpu m));;
      ret true
    else if (currentCyclePulseCount (cpu m) =? 2)%nat then
      mdr ← MMU_getMDR;
      value ← hexLog mdr;
      let c := cpu m in
      let sum := aRegister c + value + (if useCarry c && cRegister c then 1 else 0) in
      modify (upd_cpu (with_cRegister (0xFF <? sum)));;
      let result := Z.land sum 0xFF in
      modify (upd_cpu (with_aRegister result));;
      ret false
    else ret false).

Definition Cpu_LDX : M bool :=
  Cpu_loadCaseHelper 0xA2 (fun val => with_xRegister (Z.land val 0xFF)).

Definition Cpu_TAX : M bool :=
  modify (upd_cpu (fun c => with_xRegister (Z.land (aRegister c) 0xFF) c));; ret false.

Definition Cpu_LDY : M bool :=
  Cpu_loadCaseHelper 0xA0 (fun val => with_yRegister (Z.land val 0xFF)).

Definition Cpu_TAY : M bool :=
  modify (upd_cpu (fun c => with_yRegister (Z.land (aRegister c) 0xFF) c));; ret false.

Definition Cpu_NOP : M bool := ret false.

Definition Cpu_BRK : M bool := System_stopSystem;; ret false.

Definition Cpu_CPX : M bool :=
  rethrow_logged CPX_Error (
    m ← get;
    if (currentCyclePulseCount (cpu m) =? 1)%nat then
      MMU_triggerRead (operand_address (cpu m));;
      ret true
    else if (currentCyclePulseCount (cpu m) =? 2)%nat then
      mdr ← MMU_getMDR;
      value ← hexLog mdr;
      let result := Z.land (xRegister (cpu m) - value) 0xFF in
      modify (upd_cpu (with_zRegister (result =? 0)));;
      modify (upd_cpu (with_cRegister (value <=? xRegister (cpu m))));;
      ret false
    else ret false).

(** With [operand[0]] undefined the sum is NaN and [NaN & 0xFFFF] is 0. *)
Definition Cpu_BNE : M bool :=
  m ← get;
  (if negb (zRegister (cpu m)) then
     let newPC :=
       match array_get (operand (cpu m)) 0 with
       | Num offset =>
           let signedOffset := if offset <? 0x80 then offset else offset - 0x100 in
           Z.land (pcRegister (cpu m) + signedOffset) 0xFFFF
       | Null | Undefined => 0
       end in
     modify (upd_cpu (with_pcRegister newPC))
   else skip);;
  ret false.

(** [(getMDR() + 1) & 0xFF] *)
Definition inc_byte (mdr : jsnum) : Z :=
  match mdr with
  | Num z => Z.land (z + 1) 0xFF
  | Null => 1          (* null + 1 = 1 *)
  | Undefined => 0     (* NaN & 0xFF = 0 *)
  end.

Definition Cpu_INC : M bool :=
  rethrow_logged INC_Error (
    m ← get;
    let address := operand_address (cpu m) in
    if (currentCyclePulseCount (cpu m) =? 1)%nat then
      MMU_triggerRead address;;
      ret true
    else if (currentCyclePulseCount (cpu m) =? 2)%nat then
      mdr ← MMU_getMDR;
      modify (upd_cpu (with_writeValue (Some (inc_byte mdr))));;
      modify (upd_cpu (with_writeAddress (Some address)));;
      hexLog mdr;;
      ret false
    else ret false).

(** The two string-printing branches of SYS have the same text but for the
    start address, which is the parameter here.  A call with the counter
    at 0 reaches the end of the method. *)
Definition Cpu_SYS_print (start : Z) : M bool :=
  m ← get;
  if (currentCyclePulseCount (cpu m) =? 1)%nat then
    modify (upd_cpu (with_writeAddress (Some start)));;
    MMU_triggerRead start;;
    ret true
  else if (2 <=? currentCyclePulseCount (cpu m))%nat then
    mdr ← MMU_getMDR;
    currentChar ← hexLog mdr;
    cursor ← hexLog_opt (writeAddress (cpu m));
    if negb (currentChar =? 0x00) then
      char ← encodeAscii currentChar;
      System_appendProgramOutput char;;
      modify (upd_cpu (with_writeAddress (Some (cursor + 1))));;
      MMU_triggerRead (cursor + 1);;
      ret true
    else ret false
  else ret false.

Definition Cpu_SYS : M bool :=
  rethrow_logged SYS_Error (
    m ← get;
    if xRegister (cpu m) =? 0x01 then
      (* value.toString() *)
      System_appendProgramOutput (Some (pretty (yRegister (cpu m))));;
      ret false
    else if xRegister (cpu m) =? 0x02 then
      Cpu_SYS_print (Z.lor (Z.shiftl 0x00 8) (yRegister (cpu m)))
    else if xRegister (cpu m) =? 0x03 then
      Cpu_SYS_print (operand_address (cpu m))
    else ret false).

Definition call (f : ExecuteFn) : M bool :=
  match f with
  | fn_LDA => Cpu_LDA | fn_STA => Cpu_STA | fn_TXA => Cpu_TXA | fn_TYA => Cpu_TYA
  | fn_ADC => Cpu_ADC | fn_LDX => Cpu_LDX | fn_TAX => Cpu_TAX | fn_LDY => Cpu_LDY
  | fn_TAY => Cpu_TAY | fn_NOP => Cpu_NOP | fn_BRK => Cpu_BRK | fn_CPX => Cpu_CPX
  | fn_BNE => Cpu_BNE | fn_INC => Cpu_INC | fn_SYS => Cpu_SYS
  end.

(** ** lib/Instructions.ts *)

(** [InstructionSet.decodeMapper(cpu, setupDecode)[opcode]] *)
Definition InstructionSet_decodeMapper (opcode : Z) : option (M unit) :=
  if opcode =? 0xA9 then Some (Cpu_setupDecode 1 Instruction.LDA fn_LDA)
  else if opcode =? 0xAD then Some (Cpu_setupDecode 2 Instruction.LDA fn_LDA)
  else if opcode =? 0x8D then Some (Cpu_setupDecode 2 Instruction.STA fn_STA)
  else if opcode =? 0x8A then Some (Cpu_setupDecode 0 Instruction.TXA fn_TXA)
  else if opcode =? 0x98 then Some (Cpu_setupDecode 0 Instruction.TYA fn_TYA)
  else if opcode =? 0x6D then Some (Cpu_setupDecode 2 Instruction.ADC fn_ADC)
  else if opcode =? 0xA2 then Some (Cpu_setupDecode 1 Instruction.LDX fn_LDX)
  else if opcode =? 0xAE then Some (Cpu_setupDecode 2 Instruction.LDX fn_LDX)
  else if opcode =? 0xAA then Some (Cpu_setupDecode 0 Instruction.TAX fn_TAX)
  else if opcode =? 0xA0 then Some (Cpu_setupDecode 1 Instruction.LDY fn_LDY)
  else if opcode =? 0xAC then Some (Cpu_setupDecode 2 Instruction.LDY fn_LDY)
  else if opcode =? 0xA8 then Some (Cpu_setupDecode 0 Instruction.TAY fn_TAY)
  else if opcode =? 0xEA then Some (Cpu_setupDecode 0 Instruction.NOP fn_NOP)
  else if opcode =? 0x00 then Some (Cpu_setupDecode 0 Instruction.BRK fn_BRK)
  else if opcode =? 0xEC then Some (Cpu_setupDecode 2 Instruction.CPX fn_CPX)
  else if opcode =? 0xD0 then Some (Cpu_setupDecode 1 Instruction.BNE fn_BNE)
  else if opcode =? 0xEE then Some (Cpu_setupDecode 2 Instruction.INC fn_INC)
  else if opcode =? 0xFF then Some (
    m ← get;
    if xRegister (cpu m) =? 0x03
    then Cpu_setupDecode 2 Instruction.SYS fn_SYS
    else Cpu_setupDecode 0 Instruction.SYS fn_SYS)
  else None.

(** ** Cpu.pulse *)

(** [String.fromCharCode(data).toLowerCase() === 'q']: the code unit is
    [data] modulo 65536 (0 for a missing [data]), and only 'q' and 'Q'
    become 'q' in lower case. *)
Definition is_key_q (data : option Z) : bool :=
  match data with
  | Some d => (d mod 65536 =? 113) || (d mod 65536 =? 81)
  | None => false
  end.

Definition Cpu_pulse_Fetch : M unit :=
  m ← get;
  if (currentCyclePulseCount (cpu m) =? 1)%nat then
    MMU_triggerRead (pcRegister (cpu m))
  else if (currentCyclePulseCount (cpu m) =? 2)%nat then
    mdr ← MMU_getMDR;
    value ← hexLog mdr;
    modify (upd_cpu (with_opcode value));;
    modify (upd_cpu (fun c => with_pcRegister (pcRegister c + 1) c));;
    modify (upd_cpu (with_currentCyclePulseCount 0%nat));;
    modify (upd_cpu (with_step PipelineStep.Decode))
  else skip.

Definition Cpu_pulse_Decode : M unit :=
  m ← get;
  match InstructionSet_decodeMapper (opcode (cpu m)) with
  | Some decodeFunction => decodeFunction
  | None => throw (UnknownOpcode (opcode (cpu m)))
  end;;
  modify (upd_cpu (with_currentCyclePulseCount 0%nat));;
  modify (upd_cpu (with_step PipelineStep.Execute)).

Definition Cpu_pulse_Execute : M unit :=
  m ← get;
  match executeFunction (cpu m) with
  | None => throw ExecuteFunctionNotSet
  | Some f =>
      again ← call f;
      if negb again then
        modify (upd_cpu (with_currentCyclePulseCount 0%nat));;
        modify (upd_cpu (fun c =>
          with_step (if truthy (writeAddress c) && truthy (writeValue c)
                     then PipelineStep.Writeback
                     else PipelineStep.InterruptCheck) c))
      else skip
  end.

Definition Cpu_pulse_Writeback : M unit :=
  modify (upd_cpu (with_currentCyclePulseCount 0%nat));;
  m ← get;
  match writeAddress (cpu m), writeValue (cpu m) with
  | None, None => skip
  | wa, wv =>
      MMU_writeImmediate wa (of_null wv);;
      hexLog_opt wv;; hexLog_opt wa;;
      modify (upd_cpu (with_writeAddress None));;
      modify (upd_cpu (with_writeValue None))
  end;;
  modify (upd_cpu (with_step PipelineStep.InterruptCheck)).

Definition Cpu_pulse_InterruptCheck : M unit :=
  m ← get;
  let quit :=
    match pendingInterrupt (cpu m) with
    | Some i => String.eqb (deviceName i) "Keyboard" && is_key_q (data i)
    | None => false
    end in
  if quit then
    System_stopSystem;;
    modify (upd_cpu (with_pendingInterrupt None))
    (* return *)
  else
    modify (upd_cpu (with_pendingInterrupt None));;
    modify (upd_cpu (with_currentCyclePulseCount 0%nat));;
    modify (upd_cpu (with_step PipelineStep.Fetch)).

(** What the [try] block of [pulse] runs.  The closing log line formats
    the program counter, the opcode, the operands and the registers,
    which are numbers. *)
Definition Cpu_pulse_body : M unit :=
  m ← get;
  if negb (running (system m)) then skip
  else if _isLoading (mmu m) then skip
  else if (0 <? fetchCount (cpu m))%nat then Cpu_handleAdditionalFetches
  else
    modify (upd_cpu (fun c => with_currentCyclePulseCount (S (currentCyclePulseCount c)) c));;
    match step (cpu m) with
    | PipelineStep.None => skip
    | PipelineStep.Fetch => Cpu_pulse_Fetch
    | PipelineStep.Decode => Cpu_pulse_Decode
    | PipelineStep.Execute => Cpu_pulse_Execute
    | PipelineStep.Writeback => Cpu_pulse_Writeback
    | PipelineStep.InterruptCheck => Cpu_pulse_InterruptCheck
    end.

Definition Cpu_pulse : M unit :=
  try_catch Cpu_pulse_body (fun e => Cpu_log_error CPU_Error e).

Definition Cpu_reset : M unit :=
  modify (upd_cpu (fun c =>
    {| debug := debug c;
       aRegister := 0x00; xRegister := 0x00; yRegister := 0x00;
       zRegister := false; cRegister := false;
       pcRegister := 0x0000;
       iRegister := Instruction.NAN;
       opcode := 0x00;
       operand := [0x00; 0x00];
       step := PipelineStep.Fetch;
       currentCyclePulseCount := 0; fetchCount := 0; currentFetch := 0;
       executeFunction := None;
       writeFlag := false;
       writeAddress := None;
       writeValue := writeValue c;
       pendingInterrupt := None;
       outputBuffer := "";
       useCarry := useCarry c |})).

Definition Cpu_setUseCarry (useCarry : bool) : M unit :=
  modify (upd_cpu (with_useCarry useCarry)).

(** ** InterruptController.pulse *)

(** The [forEach] loop over [waitingInterrupts], from
    [runningPriority = -1] and [runningInterrupt = null]. *)
Definition InterruptController_scan (waiting : list Interrupt) : Z * option Interrupt :=
  fold_left
    (fun (acc : Z * option Interrupt) (interrupt : Interrupt) =>
       if fst acc <? priority interrupt
       then (priority interrupt, Some interrupt)
       else acc)
    waiting (-1, None).

Definition InterruptController_pulse : M unit :=
  m ← get;
  let runningInterrupt :=
    snd (InterruptController_scan (waitingInterrupts (interruptController m))) in
  Cpu_setInterrupt runningInterrupt;;
  modify (with_interruptController {| waitingInterrupts := [] |}).

(** ** Clock.ts *)

(** Clock.pulse: [listeners.forEach(listener => listener.pulse())].  An
    exception that leaves a listener leaves the loop and the timer
    callback: nothing catches it. *)
Definition Clock_pulse : M unit :=
  Cpu_pulse;; Memory_pulse;; InterruptController_pulse.

(** The callback of [setInterval]. *)
Definition Clock_interval : M unit :=
  m ← get;
  if isRunning (clock m) then Clock_pulse else skip.

Definition Clock_startClock : M unit :=
  modify (with_clock {| isRunning := true |}).

(** [n] expiries of the timer.  After an uncaught exception the host
    process is gone and the remaining expiries do not happen. *)
Fixpoint ticks (n : nat) : M unit :=
  match n with
  | O => skip
  | S k => Clock_interval;; ticks k
  end.

(** ** Construction and program start *)

(** The field initialisers of the classes. *)
Definition new_Cpu (debugMode : bool) : Cpu :=
  {| debug := debugMode;
     aRegister := 0x00; xRegister := 0x00; yRegister := 0x00;
     zRegister := false; cRegister := false;
     pcRegister := 0x0000;
     iRegister := Instruction.NAN;
     opcode := 0x00;
     operand := [0x00; 0x00];
     step := PipelineStep.Fetch;
     currentCyclePulseCount := 0; fetchCount := 0; currentFetch := 0;
     executeFunction := None;
     writeFlag := false;
     writeAddress := None;
     writeValue := None;
     pendingInterrupt := None;
     outputBuffer := "";
     useCarry := false |}.

Definition MEMORY_SIZE : nat := Z.to_nat 0x10000.

Definition new_Memory : Memory :=
  {| MEMORY := replicate MEMORY_SIZE 0; MAR := Some 0x0000; MDR := Num 0x00;
     isReadPending := false; isWritePending := false |}.

Definition new_MMU : MMU :=
  {| _PROGRAM := []; _LOAD_ADDRESS := 0x0000; _isLoading := false |}.

(** The machine when the menu is first shown: [new System(debugMode)]
    followed by [setUseCarry(useCarry)]. *)
Definition new_System (debugMode useCarry : bool) : Machine :=
  {| cpu := with_useCarry useCarry (new_Cpu debugMode);
     memory := new_Memory;
     mmu := new_MMU;
     system := {| running := true; currentProgram := None; programOutput := "" |};
     interruptController := {| waitingInterrupts := [] |};
     clock := {| isRunning := false |};
     console := [] |}.

(** What [runProgramMenu] does when a program of the menu is chosen. *)
Definition System_runProgram (program : Program) : M unit :=
  Cpu_reset;;
  MMU_reset;;
  Memory_reset;;
  (* ProgramMenu.loadProgram *)
  MMU_setProgram (code program);;
  modify (upd_system (with_currentProgram (Some program)));;
  InterruptController_clearInterrupts;;
  modify (upd_system (with_running true));;
  Clock_startClock.

Definition boot (debugMode useCarry : bool) (program : Program) : Machine :=
  machine_of (System_runProgram program (new_System debugMode useCarry)).

Definition anonymous (bytes : list Z) : Program :=
  {| name := ""; code := bytes; expectedRegisters := None |}.

(** ** Programs and predicates used in the statements *)

Definition returned {A : Type} (o : Outcome A) : bool :=
  match o with Ret _ _ => true | Threw _ _ => false end.

(** The machine after [n] timer expiries from the start of a program
    (debugging on, ADC without carry). *)
Definition run (n : nat) (bytes : list Z) : Machine :=
  machine_of (ticks n (boot true false (anonymous bytes))).

(** LDA #$FF, STA $0010, INC $0010, BRK *)
Definition prog_inc_to_zero : list Z :=
  [0xA9; 0xFF; 0x8D; 0x10; 0x00; 0xEE; 0x10; 0x00; 0x00].

(** INC $0000, BRK *)
Definition prog_inc_address_zero : list Z := [0xEE; 0x00; 0x00; 0x00].

(** One byte that is not an opcode. *)
Definition prog_unknown_opcode : list Z := [0x02].

(** BNE -3: the branch goes from 0x0002 to 0xFFFF, which holds BRK. *)
Definition prog_branch_to_top : list Z := [0xD0; 0xFD].

(** [n] times INC [a], then BRK. *)
Definition prog_inc_times (n : nat) (a : Z) : list Z :=
  concat (replicate n [0xEE; Z.land a 0xFF; Z.shiftr a 8]) ++ [0x00].

(** INC $0000, LDX #$02, LDY #$09, SYS, BRK, "H", 0 *)
Definition prog_inc_then_print : list Z :=
  [0xEE; 0x00; 0x00; 0xA2; 0x02; 0xA0; 0x09; 0xFF; 0x00; 0x48; 0x00].

(** INC $0400 256 times, then BRK. *)
Definition prog_inc_256 : list Z := prog_inc_times 256 0x0400.

(** Every outcome of [x] is related to its start by [R]. *)
Definition keeps {A : Type} (R : Machine -> Machine -> Prop) (x : M A) : Prop :=
  forall m, R m (machine_of (x m)).

(** The observation [p] is the same before and after. *)
Definition unchanged {B : Type} (p : Machine -> B) : Machine -> Machine -> Prop :=
  fun m m' => p m' = p m.

(** The next pulse of the Cpu runs the InterruptCheck case. *)
Definition at_InterruptCheck (m : Machine) : bool :=
  running (system m) && negb (_isLoading (mmu m)) && (fetchCount (cpu m) =? 0)%nat &&
  match step (cpu m) with PipelineStep.InterruptCheck => true | _ => false end.

(** The interrupt a machine holds for the Cpu, and the queue of the
    controller. *)
Definition pending (m : Machine) : option Interrupt := pendingInterrupt (cpu m).
Definition waiting (m : Machine) : list Interrupt := waitingInterrupts (interruptController m).

(** What a pulse of the Cpu leaves alone: the MMU, and an empty queue of
    the controller stays empty. *)
Definition cpu_frame (m m' : Machine) : Prop :=
  mmu m' = mmu m /\ (waiting m = [] -> waiting m' = []).

(** What the operand fetch and the stages Fetch, Decode, Execute and
    Writeback leave alone: the pending interrupt as well. *)
Definition stage_frame (m m' : Machine) : Prop :=
  cpu_frame m m' /\ pending m' = pending m.

(** What a micro-operation leaves alone: the pipeline stage as well. *)
Definition micro_frame (m m' : Machine) : Prop :=
  stage_frame m m' /\ step (cpu m') = step (cpu m).

(** What a pulse of the Memory leaves alone: the Cpu, the System, the
    controller, the clock and the console, and an MMU that is not loading. *)
Definition memory_frame (m m' : Machine) : Prop :=
  cpu m' = cpu m /\ system m' = system m /\
  interruptController m' = interruptController m /\ clock m' = clock m /\
  console m' = console m /\
  (_isLoading (mmu m) = false -> mmu m' = mmu m).

(** A key press, as Keyboard.monitorKeys builds it. *)
Definition key_interrupt (code : Z) : Interrupt :=
  {| irqNumber := 1; priority := 1; deviceName := "Keyboard"; data := Some code |}.

(** LDA #$05, TAX, LDA #$03, TXA, BRK: the first program of the menu. *)
Definition prog_basic : list Z := [0xA9; 0x05; 0xAA; 0xA9; 0x03; 0x8A; 0x00].

(** The first program starts while the Cpu holds the key 'x'. *)
Definition machine_with_key : Machine :=
  upd_cpu (with_pendingInterrupt (Some (key_interrupt 120)))
    (boot true false (anonymous prog_basic)).

(** An interrupt of priority -1 from a device other than the keyboard. *)
Definition low_interrupt : Interrupt :=
  {| irqNumber := 2; priority := -1; deviceName := "Timer"; data := None |}.

(** The machine at the menu with [low_interrupt] accepted. *)
Definition machine_with_low_interrupt : Machine :=
  machine_of (InterruptController_acceptInterrupt low_interrupt (new_System true false)).

(** A machine whose Memory has both a write of 0x2A to 0x0010 and a read
    latched. *)
Definition machine_write_and_read : Machine :=
  machine_of ((MMU_writeImmediate (Some 0x0010) (Num 0x2A);; MMU_triggerRead 0x0010)
                (new_System true false)).

(** The interrupt the Cpu holds after [setInterrupt(interrupt)]. *)
Definition latch (interrupt held : option Interrupt) : option Interrupt :=
  match interrupt with Some i => Some i | None => held end.

(** LDA #$FF, STA $0010, LDA #$02, ADC $0010, BRK: the fourth scenario of
    the specification; ADC starts its Execute stage after 42 ticks. *)
Definition prog_adc_carry : list Z :=
  [0xA9; 0xFF; 0x8D; 0x10; 0x00; 0xA9; 0x02; 0x6D; 0x10; 0x00; 0x00].

(** LDX #$03, SYS $0006, BRK and the text Hello! behind it. *)
Definition prog_hello : list Z :=
  [0xA2; 0x03; 0xFF; 0x06; 0x00; 0x00; 0x48; 0x65; 0x6C; 0x6C; 0x6F; 0x21; 0x00].

(** LDA #$FE, STA $0010, LDA #$01, ADC $0010, BRK. *)
Definition prog_adc_no_carry : list Z :=
  [0xA9; 0xFE; 0x8D; 0x10; 0x00; 0xA9; 0x01; 0x6D; 0x10; 0x00; 0x00].

(** LDX #$05, CPX $0020, BNE +2, NOP, NOP, BRK. *)
Definition prog_branch_taken : list Z :=
  [0xA2; 0x05; 0xEC; 0x20; 0x00; 0xD0; 0x02; 0xEA; 0xEA; 0x00].

(** LDA #$2A, STA $0040, LDY $0040, LDX #$01, SYS, BRK. *)
Definition prog_print_integer : list Z :=
  [0xA9; 0x2A; 0x8D; 0x40; 0x00; 0xAC; 0x40; 0x00; 0xA2; 0x01; 0xFF; 0x00].

(** The registers [handleProgramCompletion] compares with the expected ones. *)
Definition actualRegisters (m : Machine) : Z * Z * Z * bool * bool :=
  (aRegister (cpu m), xRegister (cpu m), yRegister (cpu m), zRegister (cpu m), cRegister (cpu m)).

(** What the [catch] of [pulse] does with an error. *)
Definition caught (e : JsError) (mt : Machine) : Machine :=
  if debug (cpu mt) then with_console (console mt ++ [ErrorLine CPU_Error e]) mt else mt.

(** The error an outcome carries. *)
Definition thrown {A : Type} (o : Outcome A) : option JsError :=
  match o with Ret _ _ => None | Threw e _ => Some e end.

(** The Cpu is in the Decode stage at opcode [op], past which the program
    counter is [pc], and the registers of the Memory are an address of the
    array and a number. *)
Definition stuck_at (op pc : Z) (m : Machine) : Prop :=
  running (system m) = true /\
  _isLoading (mmu m) = false /\
  fetchCount (cpu m) = 0%nat /\
  step (cpu m) = PipelineStep.Decode /\
  opcode (cpu m) = op /\
  pcRegister (cpu m) = pc /\
  (exists a v, MAR (memory m) = Some a /\
     0 <= a < Z.of_nat (length (MEMORY (memory m))) /\ MDR (memory m) = Num v).

(** The byte a [Uint8Array] keeps of a number. *)
Definition to_byte (b : Z) : Z := b mod 256.

(** The array after the first [k] bytes of [program] have been committed
    to a zeroed array of [size] cells. *)
Definition loaded_cells (size : nat) (program : list Z) (k : nat) : list Z :=
  (to_byte <$> take k program) ++ replicate (size - k) 0.

(** The load is [k] bytes in: they are in the array, byte [k] is latched
    for writing and the rest is queued. *)
Definition loading_at (size : nat) (program : list Z) (k : nat) (m : Machine) : Prop :=
  _PROGRAM (mmu m) = drop (S k) program /\
  _LOAD_ADDRESS (mmu m) = Z.of_nat (S k) /\
  _isLoading (mmu m) = true /\
  MAR (memory m) = Some (Z.of_nat k) /\
  (exists b, program !! k = Some b /\ MDR (memory m) = Num b) /\
  isWritePending (memory m) = true /\
  isReadPending (memory m) = false /\
  MEMORY (memory m) = loaded_cells size program k /\
  isRunning (clock m) = true.

(** The load is over. *)
Definition load_done (size : nat) (program : list Z) (m : Machine) : Prop :=
  _isLoading (mmu m) = false /\
  MEMORY (memory m) = loaded_cells size program (length program).

(** The machine at the menu with the clock started. *)
Definition machine_clock_started : Machine :=
  machine_of (Clock_startClock (new_System true false)).


(** * The rest of the program *)

(** ** JavaScript strings and the built-in functions the sources call *)

(** A string is the sequence of its UTF-16 code units. *)
Definition jsstring : Type := list Z.

(** A literal of the sources that is written in ASCII. *)
Definition js (s : string) : jsstring :=
  (fun a => Z.of_nat (nat_of_ascii a)) <$> String.list_ascii_of_string s.

(** The digit [d] of [Number.prototype.toString]: 0-9, then a-z. *)
Definition radix_digit (d : Z) : Z := if d <? 10 then 48 + d else 87 + d.

Fixpoint radix_digits (fuel : nat) (radix n : Z) (acc : jsstring) : jsstring :=
  match fuel with
  | O => acc
  | S fuel' =>
      let acc' := radix_digit (n mod radix) :: acc in
      if n / radix =? 0 then acc' else radix_digits fuel' radix (n / radix) acc'
  end.

(** [num.toString(16)] of an integer that a Number holds exactly, which is
    every integer below 2^53 in absolute value; for those the digits are
    the exact ones.  Beyond that range a Number is a rounded value and this
    function does not describe it. *)
Definition Number_toString_16 (num : Z) : jsstring :=
  if num <? 0 then 45 :: radix_digits (S (Z.to_nat (Z.log2 (- num)))) 16 (- num) []
  else radix_digits (S (Z.to_nat (Z.log2 num))) 16 num [].

(** [s.padStart(targetLength, padString)] *)
Definition String_padStart (s : jsstring) (targetLength : nat) (padString : jsstring)
  : jsstring :=
  let fillLen := (targetLength - length s)%nat in
  take fillLen (concat (replicate fillLen padString)) ++ s.

(** [s.toUpperCase()] of a string of code units below 128, which the digits
    of [toString(16)] are. *)
Definition String_toUpperCase (s : jsstring) : jsstring :=
  (fun c => if (97 <=? c) && (c <=? 122) then c - 32 else c) <$> s.

(** White space and line terminators, which [parseInt] and [trim] skip. *)
Definition is_white_space (c : Z) : bool :=
  (c =? 0x09) || (c =? 0x0A) || (c =? 0x0B) || (c =? 0x0C) || (c =? 0x0D) ||
  (c =? 0x20) || (c =? 0xA0) || (c =? 0x1680) ||
  ((0x2000 <=? c) && (c <=? 0x200A)) ||
  (c =? 0x2028) || (c =? 0x2029) || (c =? 0x202F) || (c =? 0x205F) ||
  (c =? 0x3000) || (c =? 0xFEFF).

Fixpoint trim_start (s : jsstring) : jsstring :=
  match s with
  | c :: rest => if is_white_space c then trim_start rest else s
  | [] => []
  end.

(** [s.trim()] *)
Definition String_trim (s : jsstring) : jsstring :=
  reverse (trim_start (reverse (trim_start s))).

(** [s.split(sep)] for a separator of one code unit. *)
Fixpoint String_split (sep : Z) (s : jsstring) : list jsstring :=
  match s with
  | [] => [[]]
  | c :: rest =>
      if c =? sep then [] :: String_split sep rest
      else match String_split sep rest with
           | first :: others => (c :: first) :: others
           | [] => [[c]]
           end
  end.

(** The value of a digit of [parseInt]: 0-9, a-z and A-Z. *)
Definition digit_value (c : Z) : option Z :=
  if (48 <=? c) && (c <=? 57) then Some (c - 48)
  else if (97 <=? c) && (c <=? 122) then Some (c - 87)
  else if (65 <=? c) && (c <=? 90) then Some (c - 55)
  else None.

(** The longest prefix of digits below [radix], read as a number; [None]
    when there is no digit. *)
Fixpoint parse_digits (radix : Z) (s : jsstring) (acc : option Z) : option Z :=
  match s with
  | [] => acc
  | c :: rest =>
      match digit_value c with
      | Some d =>
          if d <? radix then parse_digits radix rest (Some (default 0 acc * radix + d))
          else acc
      | None => acc
      end
  end.

(** [parseInt(string, radix)]; a [radix] of 0 stands for the call with one
    argument, and [None] for NaN.  The result is exact below 2^53. *)
Definition parseInt (string : jsstring) (radix : Z) : option Z :=
  let s := trim_start string in
  let sign := match s with 45 :: _ => -1 | _ => 1 end in
  let s := match s with 45 :: rest | 43 :: rest => rest | _ => s end in
  if negb (radix =? 0) && ((radix <? 2) || (36 <? radix)) then None
  else
    let stripPrefix := (radix =? 0) || (radix =? 16) in
    let r := if radix =? 0 then 10 else radix in
    let '(r, s) :=
      match s with
      | 48 :: x :: rest =>
          if stripPrefix && ((x =? 120) || (x =? 88)) then (16, rest) else (r, s)
      | _ => (r, s)
      end in
    (fun v => sign * v) <$> parse_digits r s None.

(** An object whose keys are strings: the properties in the order of their
    creation. *)
Definition JsObject : Type := list (jsstring * jsstring).

(** [o[k]], [undefined] being [None]. *)
Fixpoint obj_get (o : JsObject) (k : jsstring) : option jsstring :=
  match o with
  | [] => None
  | (k', v) :: o' => if decide (k' = k) then Some v else obj_get o' k
  end.

(** [o[k] = v] *)
Fixpoint obj_set (o : JsObject) (k v : jsstring) : JsObject :=
  match o with
  | [] => [(k, v)]
  | (k', v') :: o' => if decide (k' = k) then (k', v) :: o' else (k', v') :: obj_set o' k v
  end.

(** An object literal, and the spread of objects into a new one. *)
Definition object_literal (entries : list (jsstring * jsstring)) : JsObject :=
  fold_left (fun o '(k, v) => obj_set o k v) entries [].

(** ** lib/Ascii.ts: the table *)

(** createAsciiMap; the Proxy it returns reads the merged object. *)
Definition createAsciiMap (map : JsObject) : JsObject :=
  let forward := map in
  let reverse := fold_left (fun reverse '(hex, char) => obj_set reverse char hex) map [] in
  object_literal (forward ++ reverse).

Definition AsciiMap : JsObject :=
  createAsciiMap (object_literal
  [(js "0x09", [9]); (js "0x0A", [10]); (js "0x0B", [11]); (js "0x0C", [12]);
   (js "0x0D", [13]); (js "0x20", js " "); (js "0x21", js "!"); (js "0x22", [34]);
   (js "0x23", js "#"); (js "0x24", js "$"); (js "0x25", js "%"); (js "0x26", js "&");
   (js "0x27", js "'"); (js "0x28", js "("); (js "0x29", js ")"); (js "0x2A", js "*");
   (js "0x2B", js "+"); (js "0x2C", js ","); (js "0x2D", js "-"); (js "0x2E", js ".");
   (js "0x2F", js "/"); (js "0x30", js "0"); (js "0x31", js "1"); (js "0x32", js "2");
   (js "0x33", js "3"); (js "0x34", js "4"); (js "0x35", js "5"); (js "0x36", js "6");
   (js "0x37", js "7"); (js "0x38", js "8"); (js "0x39", js "9"); (js "0x3A", js ":");
   (js "0x3B", js ";"); (js "0x3C", js "<"); (js "0x3D", js "="); (js "0x3E", js ">");
   (js "0x3F", js "?"); (js "0x40", js "@"); (js "0x41", js "A"); (js "0x42", js "B");
   (js "0x43", js "C"); (js "0x44", js "D"); (js "0x45", js "E"); (js "0x46", js "F");
   (js "0x47", js "G"); (js "0x48", js "H"); (js "0x49", js "I"); (js "0x4A", js "J");
   (js "0x4B", js "K"); (js "0x4C", js "L"); (js "0x4D", js "M"); (js "0x4E", js "N");
   (js "0x4F", js "O"); (js "0x50", js "P"); (js "0x51", js "Q"); (js "0x52", js "R");
   (js "0x53", js "S"); (js "0x54", js "T"); (js "0x55", js "U"); (js "0x56", js "V");
   (js "0x57", js "W"); (js "0x58", js "X"); (js "0x59", js "Y"); (js "0x5A", js "Z");
   (js "0x5B", js "["); (js "0x5C", js "\"); (js "0x5D", js "]"); (js "0x5E", js "^");
   (js "0x5F", js "_"); (js "0x60", js "`"); (js "0x61", js "a"); (js "0x62", js "b");
   (js "0x63", js "c"); (js "0x64", js "d"); (js "0x65", js "e"); (js "0x66", js "f");
   (js "0x67", js "g"); (js "0x68", js "h"); (js "0x69", js "i"); (js "0x6A", js "j");
   (js "0x6B", js "k"); (js "0x6C", js "l"); (js "0x6D", js "m"); (js "0x6E", js "n");
   (js "0x6F", js "o"); (js "0x70", js "p"); (js "0x71", js "q"); (js "0x72", js "r");
   (js "0x73", js "s"); (js "0x74", js "t"); (js "0x75", js "u"); (js "0x76", js "v");
   (js "0x77", js "w"); (js "0x78", js "x"); (js "0x79", js "y"); (js "0x7A", js "z");
   (js "0x7B", js "{"); (js "0x7C", js "|"); (js "0x7D", js "}"); (js "0x7E", js "~")]
  ).

(** The key [encodeAscii] looks up. *)
Definition AsciiMap_key (byte : Z) : jsstring :=
  js "0x" ++ String_toUpperCase (String_padStart (Number_toString_16 byte) 2 (js "0")).

(** The string of the model's output for a string of code units below 256. *)
Definition string_of_units (s : jsstring) : string :=
  String.string_of_list_ascii ((fun c => ascii_of_nat (Z.to_nat c)) <$> s).

(** What decodeAscii throws. *)
Inductive AsciiError : Type :=
| ExpectedSingleCharacter (char : jsstring).

(** decodeAscii: [parseInt] of a missing entry is NaN, here [None]; it does
    not throw, so the [catch] is never entered. *)
Definition decodeAscii (char : jsstring) : AsciiError + option Z :=
  if negb (length char =? 1)%nat then inl (ExpectedSingleCharacter char)
  else inr match obj_get AsciiMap char with
           | Some hex => parseInt hex 0
           | None => None
           end.

(** Hardware.hexLog, the string, for a number in the range of
    [Number_toString_16]. *)
Definition Hardware_hexLog (num : Z) (length : nat) : jsstring :=
  js "0x" ++ String_toUpperCase (String_padStart (Number_toString_16 num) length (js "0")).

(** ** Hexadecimal digits *)

(** The number a string of digits in base 16 stands for, after [acc]. *)
Definition hex_value (s : jsstring) (acc : Z) : Z :=
  fold_left (fun a c => a * 16 + default 0 (digit_value c)) s acc.

Definition is_hex_digit (c : Z) : Prop := exists d, digit_value c = Some d /\ 0 <= d < 16.

(** ** lib/ProgramMenu.ts: the line of bytes of a custom program *)

(** A character of the class [0-9A-Fa-f]. *)
Definition is_hex_char (c : Z) : bool :=
  ((48 <=? c) && (c <=? 57)) || ((65 <=? c) && (c <=? 70)) || ((97 <=? c) && (c <=? 102)).

(** [/^[0-9A-Fa-f]{1,2}$/.test(str)] *)
Definition isValidHexByte (str : jsstring) : bool :=
  match str with
  | [a] => is_hex_char a
  | [a; b] => is_hex_char a && is_hex_char b
  | _ => false
  end.

(** What Enter does in the state BYTES: the line is asked again, or its
    bytes become the code and the state becomes REGISTERS_QUESTION. *)
Inductive BytesLine : Type :=
| InvalidBytes (invalidBytes : list jsstring)
| Code (code : list (option Z)).

Definition ProgramMenu_enterBytes (inputBuffer : jsstring) : BytesLine :=
  let bytes := String_split 32 (String_trim inputBuffer) in
  let invalidBytes := List.filter (fun byte => negb (isValidHexByte byte)) bytes in
  if (0 <? length invalidBytes)%nat then InvalidBytes invalidBytes
  else Code ((fun byte => parseInt byte 16) <$> bytes).

(** [tokens.join(" ")] *)
Fixpoint Array_join (sep : Z) (tokens : list jsstring) : jsstring :=
  match tokens with
  | [] => []
  | [t] => t
  | t :: rest => t ++ sep :: Array_join sep rest
  end.

(** A byte as two hexadecimal digits in upper case, as the prompt of the
    menu writes them. *)
Definition hex_byte (b : Z) : jsstring :=
  String_toUpperCase (String_padStart (Number_toString_16 b) 2 (js "0")).

Definition hex_chars : list Z := List.filter is_hex_char (seqZ 0 128).

Definition parses_to_byte (t : jsstring) : bool :=
  match parseInt t 16 with Some v => (0 <=? v) && (v <=? 255) | None => false end.

(** A token of two hexadecimal digits. *)
Definition two_hex_digits (t : jsstring) : Prop :=
  exists a c, t = [a; c] /\ is_hex_char a = true /\ is_hex_char c = true.

(** ** lib/ProgramMenu.ts and System.ts: the selection of a program *)

(** ProgramMenu.loadProgram: [null] for an index outside the menu. *)
Definition ProgramMenu_loadProgram (programs : list Program) (index : Z)
  : M (option Program) :=
  let programIndex := index - 1 in
  if (programIndex <? 0) || (Z.of_nat (length programs) <=? programIndex) then ret None
  else
    match programs !! Z.to_nat programIndex with
    | Some program => MMU_setProgram (code program);; ret (Some program)
    | None => ret None
    end.

(** The key handler of [runProgramMenu] for a key that [parseInt] reads as
    the number [selection], other than 0. *)
Definition System_selectProgram (programs : list Program) (selection : Z) : M unit :=
  Cpu_reset;;
  MMU_reset;;
  Memory_reset;;
  program ← ProgramMenu_loadProgram programs selection;
  modify (upd_system (with_currentProgram program));;
  match program with
  | Some _ =>
      InterruptController_clearInterrupts;;
      modify (upd_system (with_running true));;
      Clock_startClock
  | None => skip
  end.

(** The listener that [Keyboard.monitorKeys] puts on stdin, for a key
    other than ctrl-c whose first code unit is [code]: the interrupt goes
    to the controller unless the keyboard is silent, then the handler of
    the keyboard is called if it has one. *)
Definition Keyboard_onData (silentMode : bool) (keyPressHandler : option (M unit)) (code : Z)
  : M unit :=
  (if silentMode then skip else InterruptController_acceptInterrupt (key_interrupt code));;
  match keyPressHandler with
  | Some handler => handler
  | None => skip
  end.

(** A key at the menu that selects [program].  stdin has two listeners,
    called in the order of their registration: the Keyboard of the System,
    silent or not, whose handler is the one of [runProgramMenu], and the
    Keyboard of the ProgramMenu, which is not silent at the menu and has
    no handler. *)
Definition stdin_data_selects (silentMode : bool) (code : Z) (program : Program) : M unit :=
  Keyboard_onData silentMode (Some (System_runProgram program)) code;;
  Keyboard_onData false None code.

(** ** MMU.ts: the two halves of MAR *)

(** The 32-bit integer the bitwise operators of JavaScript work on. *)
Definition ToInt32 (z : Z) : Z := (z + 2 ^ 31) mod 2 ^ 32 - 2 ^ 31.

(** [getMAR()] as an operand of a bitwise operator: [null] is 0. *)
Definition MAR_int32 (m : Machine) : Z :=
  match MAR (memory m) with Some a => ToInt32 a | None => 0 end.

(** [setMAR((getMAR() & 0xFF00) | low_byte)] *)
Definition MMU_setLowOrderByte (low_byte : Z) : M unit :=
  m ← get;
  Memory_setMAR (Some (Z.lor (Z.land (MAR_int32 m) 0xFF00) (ToInt32 low_byte))).

(** [setMAR((getMAR() & 0x00FF) | (high_byte << 8))] *)
Definition MMU_setHighOrderByte (high_byte : Z) : M unit :=
  m ← get;
  Memory_setMAR
    (Some (Z.lor (Z.land (MAR_int32 m) 0x00FF) (ToInt32 (Z.shiftl (ToInt32 high_byte) 8)))).

(** ** lib/ProgramMenu.ts: adding a custom program *)
Module InputState.

Inductive t : Type :=
| NAME | BYTES | REGISTERS_QUESTION | A_REGISTER | X_REGISTER | Y_REGISTER
| Z_FLAG | C_FLAG | COMPLETE.

End InputState.

(** The expected registers of an entry of the menu; a number that
    [parseInt] could not read is NaN, here [None]. *)
Record MenuRegisters : Type := {
  expected_a : option Z;
  expected_x : option Z;
  expected_y : option Z;
  expected_z : bool;
  expected_c : bool
}.

Record MenuProgram : Type := {
  menu_name : jsstring;
  menu_code : list (option Z);
  menu_expectedRegisters : option MenuRegisters
}.

(** The variables of [addCustomProgram] and the list of the menu. *)
Record AddProgram : Type := {
  add_state : InputState.t;
  add_name : jsstring;
  add_inputBuffer : jsstring;
  add_code : list (option Z);
  add_registers : MenuRegisters;
  add_programs : list MenuProgram
}.

(** The state when [addCustomProgram] is called. *)
Definition addCustomProgram (programs : list MenuProgram) : AddProgram :=
  {| add_state := InputState.NAME;
     add_name := [];
     add_inputBuffer := [];
     add_code := [];
     add_registers := {| expected_a := Some 0x00; expected_x := Some 0x00;
                         expected_y := Some 0x00; expected_z := false; expected_c := false |};
     add_programs := programs |}.

Definition with_add_state (st : InputState.t) (s : AddProgram) : AddProgram :=
  {| add_state := st; add_name := add_name s; add_inputBuffer := add_inputBuffer s;
     add_code := add_code s; add_registers := add_registers s;
     add_programs := add_programs s |}.

Definition with_add_inputBuffer (b : jsstring) (s : AddProgram) : AddProgram :=
  {| add_state := add_state s; add_name := add_name s; add_inputBuffer := b;
     add_code := add_code s; add_registers := add_registers s;
     add_programs := add_programs s |}.

Definition with_add_registers (r : MenuRegisters) (s : AddProgram) : AddProgram :=
  {| add_state := add_state s; add_name := add_name s; add_inputBuffer := add_inputBuffer s;
     add_code := add_code s; add_registers := r;
     add_programs := add_programs s |}.

(** [key === '\r' || key === '\n'] and [key === '\x7f' || key === '\b'] *)
Definition is_enter (key : jsstring) : bool :=
  bool_decide (key = [13]) || bool_decide (key = [10]).

Definition is_backspace (key : jsstring) : bool :=
  bool_decide (key = [127]) || bool_decide (key = [8]).

(** [s.toLowerCase()] of a string of code units below 128; no code unit
    from 128 on becomes f, t or y. *)
Definition String_toLowerCase (s : jsstring) : jsstring :=
  (fun c => if (65 <=? c) && (c <=? 90) then c + 32 else c) <$> s.

(** The two branches every state has for a key other than Enter. *)
Definition edit_inputBuffer (key : jsstring) (s : AddProgram) : AddProgram :=
  if is_backspace key then
    if (0 <? length (add_inputBuffer s))%nat
    then with_add_inputBuffer (take (length (add_inputBuffer s) - 1) (add_inputBuffer s)) s
    else s
  else with_add_inputBuffer (add_inputBuffer s ++ key) s.

(** [this.programs.push({ name, code, expectedRegisters: registers })] *)
Definition push_program (s : AddProgram) : AddProgram :=
  {| add_state := InputState.COMPLETE; add_name := add_name s;
     add_inputBuffer := add_inputBuffer s; add_code := add_code s;
     add_registers := add_registers s;
     add_programs := add_programs s ++
       [{| menu_name := add_name s; menu_code := add_code s;
           menu_expectedRegisters := Some (add_registers s) |}] |}.

(** A register line: a valid byte is stored by [store] and the state
    becomes [next]; otherwise the line is asked again. *)
Definition enter_register (store : option Z -> MenuRegisters -> MenuRegisters)
    (next : InputState.t) (s : AddProgram) : AddProgram :=
  let value := String_trim (add_inputBuffer s) in
  if negb (isValidHexByte value) then with_add_inputBuffer [] s
  else with_add_state next
         (with_add_inputBuffer []
            (with_add_registers (store (parseInt value 16) (add_registers s)) s)).

Definition flag_value (s : AddProgram) : jsstring :=
  String_toLowerCase (String_trim (add_inputBuffer s)).

Definition is_flag (value : jsstring) : bool :=
  bool_decide (value = js "t") || bool_decide (value = js "f").

Definition handleInput (key : jsstring) (s : AddProgram) : AddProgram :=
  match add_state s with
  | InputState.NAME =>
      if is_enter key then
        {| add_state := InputState.BYTES; add_name := String_trim (add_inputBuffer s);
           add_inputBuffer := []; add_code := add_code s;
           add_registers := add_registers s; add_programs := add_programs s |}
      else edit_inputBuffer key s
  | InputState.BYTES =>
      if is_enter key then
        match ProgramMenu_enterBytes (add_inputBuffer s) with
        | InvalidBytes _ => with_add_inputBuffer [] s
        | Code code =>
            {| add_state := InputState.REGISTERS_QUESTION; add_name := add_name s;
               add_inputBuffer := []; add_code := code;
               add_registers := add_registers s; add_programs := add_programs s |}
        end
      else edit_inputBuffer key s
  | InputState.REGISTERS_QUESTION =>
      if is_enter key then
        let addRegs :=
          bool_decide (String_toLowerCase (String_trim (add_inputBuffer s)) = js "y") in
        if addRegs then with_add_state InputState.A_REGISTER (with_add_inputBuffer [] s)
        else push_program (with_add_inputBuffer [] s)
      else edit_inputBuffer key s
  | InputState.A_REGISTER =>
      if is_enter key then
        enter_register (fun v r =>
          {| expected_a := v; expected_x := expected_x r; expected_y := expected_y r;
             expected_z := expected_z r; expected_c := expected_c r |})
          InputState.X_REGISTER s
      else edit_inputBuffer key s
  | InputState.X_REGISTER =>
      if is_enter key then
        enter_register (fun v r =>
          {| expected_a := expected_a r; expected_x := v; expected_y := expected_y r;
             expected_z := expected_z r; expected_c := expected_c r |})
          InputState.Y_REGISTER s
      else edit_inputBuffer key s
  | InputState.Y_REGISTER =>
      if is_enter key then
        enter_register (fun v r =>
          {| expected_a := expected_a r; expected_x := expected_x r; expected_y := v;
             expected_z := expected_z r; expected_c := expected_c r |})
          InputState.Z_FLAG s
      else edit_inputBuffer key s
  | InputState.Z_FLAG =>
      if is_enter key then
        if negb (is_flag (flag_value s)) then with_add_inputBuffer [] s
        else
          let r := add_registers s in
          with_add_state InputState.C_FLAG
            (with_add_inputBuffer []
               (with_add_registers
                  {| expected_a := expected_a r; expected_x := expected_x r;
                     expected_y := expected_y r;
                     expected_z := bool_decide (flag_value s = js "t");
                     expected_c := expected_c r |} s))
      else edit_inputBuffer key s
  | InputState.C_FLAG =>
      if is_enter key then
        if negb (is_flag (flag_value s)) then with_add_inputBuffer [] s
        else
          let r := add_registers s in
          push_program
            (with_add_registers
               {| expected_a := expected_a r; expected_x := expected_x r;
                  expected_y := expected_y r; expected_z := expected_z r;
                  expected_c := bool_decide (flag_value s = js "t") |} s)
      else edit_inputBuffer key s
  | InputState.COMPLETE => s
  end.

(** The keys of a session, in their order. *)
Definition handleInputs (keys : list jsstring) (s : AddProgram) : AddProgram :=
  fold_left (fun s key => handleInput key s) keys s.

(** A line typed one code unit at a time. *)
Definition typed (line : jsstring) : list jsstring := (fun c => [c]) <$> line.

(** A code unit that is neither Enter nor backspace. *)
Definition is_text (c : Z) : bool :=
  negb ((c =? 13) || (c =? 10) || (c =? 127) || (c =? 8)).

(** [===] on numbers: NaN equals nothing. *)
Definition number_eq (actual : Z) (expected : option Z) : bool :=
  match expected with Some e => actual =? e | None => false end.

(** ProgramMenu.validateProgramResults *)
Definition validateProgramResults (program : MenuProgram) (actualRegisters : Registers)
  : bool :=
  match menu_expectedRegisters program with
  | None => true
  | Some expected =>
      number_eq (reg_a actualRegisters) (expected_a expected) &&
      number_eq (reg_x actualRegisters) (expected_x expected) &&
      number_eq (reg_y actualRegisters) (expected_y expected) &&
      eqb (reg_z actualRegisters) (expected_z expected) &&
      eqb (reg_c actualRegisters) (expected_c expected)
  end.

(** A number that is a byte. *)
Definition byte_number (x : option Z) : Prop := exists b, x = Some b /\ 0 <= b <= 255.

Definition registers_ok (r : MenuRegisters) : Prop :=
  byte_number (expected_a r) /\ byte_number (expected_x r) /\ byte_number (expected_y r).

Definition entry_ok (e : MenuProgram) : Prop :=
  menu_code e <> [] /\ Forall byte_number (menu_code e) /\
  match menu_expectedRegisters e with Some r => registers_ok r | None => True end.

(** What the session has done to the menu [programs] so far. *)
Definition session_ok (programs : list MenuProgram) (s : AddProgram) : Prop :=
  registers_ok (add_registers s) /\
  match add_state s with
  | InputState.NAME | InputState.BYTES => add_programs s = programs
  | InputState.COMPLETE => exists e, add_programs s = programs ++ [e] /\ entry_ok e
  | _ => add_programs s = programs /\ add_code s <> [] /\ Forall byte_number (add_code s)
  end.

(** * Predicates of the further statements *)

(** ** Instruction boundaries and ticks *)

(** The machine between two instructions: it runs, the load is over, the
    Cpu is about to fetch an opcode, the Memory has nothing latched, no
    write-back is due and no interrupt is pending or waiting. *)
Definition between_instructions (m : Machine) : bool :=
  running (system m) && isRunning (clock m) && negb (_isLoading (mmu m)) &&
  match step (cpu m) with PipelineStep.Fetch => true | _ => false end &&
  (currentCyclePulseCount (cpu m) =? 0)%nat &&
  (fetchCount (cpu m) =? 0)%nat && (currentFetch (cpu m) =? 0)%nat &&
  negb (isReadPending (memory m)) && negb (isWritePending (memory m)) &&
  negb (truthy (writeAddress (cpu m)) && truthy (writeValue (cpu m))) &&
  match pending m with None => true | Some _ => false end &&
  match waiting m with [] => true | _ => false end.

(** The machine after a tick in which the Cpu changed its own state to [c]
    and latched nothing. *)
Definition cpu_tick (c : Cpu) (m : Machine) : Machine := with_cpu c m.

(** The machine after a tick in which the Cpu changed its own state to [c]
    and latched a read of [a], which the Memory served. *)
Definition read_tick (c : Cpu) (a : Z) (m : Machine) : Machine :=
  with_memory
    {| MEMORY := MEMORY (memory m);
       MAR := Some a;
       MDR := Memory_at (MEMORY (memory m)) (Some a);
       isReadPending := false;
       isWritePending := false |} (with_cpu c m).

(** The same for a write of [v] to [a]. *)
Definition write_tick (c : Cpu) (a v : Z) (m : Machine) : Machine :=
  with_memory
    {| MEMORY := <[Z.to_nat a := v mod 256]> (MEMORY (memory m));
       MAR := Some a;
       MDR := Num v;
       isReadPending := false;
       isWritePending := false |} (with_cpu c m).

(** The decode function of [op], called while X holds [x], is
    [setupDecode(n, i, f)]. *)
Definition decodes_to (op x : Z) (n : nat) (i : Instruction.t) (f : ExecuteFn) : Prop :=
  exists d, InstructionSet_decodeMapper op = Some d /\
    forall m, xRegister (cpu m) = x -> d m = Cpu_setupDecode n i f m.

(** The operand array after [bytes] have been stored from index [j] on. *)
Fixpoint store_operands (arr : list Z) (j : nat) (bytes : list Z) : list Z :=
  match bytes with
  | [] => arr
  | b :: rest => store_operands (array_set arr j b) (S j) rest
  end.

(** [bytes] are the cells from address [a] on. *)
Definition cells_at (cells : list Z) (a : Z) (bytes : list Z) : Prop :=
  forall (k : nat) (b : Z), bytes !! k = Some b -> Memory_at cells (Some (a + Z.of_nat k)) = Num b.

(** The Cpu when the Execute stage of the instruction [op] with operand
    [bytes] begins, [c] being the Cpu before the opcode was fetched. *)
Definition Cpu_at_Execute (c : Cpu) (op : Z) (i : Instruction.t) (f : ExecuteFn)
    (bytes : list Z) : Cpu :=
  with_currentFetch 0%nat
    (with_fetchCount 0%nat
       (with_currentCyclePulseCount 0%nat
          (with_step PipelineStep.Execute
             (with_executeFunction (Some f)
                (with_iRegister i
                   (with_operand (store_operands (operand c) 0 bytes)
                      (with_pcRegister (pcRegister c + 1 + Z.of_nat (length bytes))
                         (with_opcode op c)))))))).

(** ** What the instructions do *)

(** The register a load instruction writes. *)
Definition load_setter (f : ExecuteFn) (val : Z) (c : Cpu) : Cpu :=
  match f with
  | fn_LDA => with_aRegister (Z.land val 0xFF) c
  | fn_LDX => with_xRegister (Z.land val 0xFF) c
  | fn_LDY => with_yRegister (Z.land val 0xFF) c
  | _ => c
  end.

Definition immediate_opcode (f : ExecuteFn) : Z :=
  match f with fn_LDA => 0xA9 | fn_LDX => 0xA2 | fn_LDY => 0xA0 | _ => -1 end.

Definition is_load (f : ExecuteFn) : bool :=
  match f with fn_LDA | fn_LDX | fn_LDY => true | _ => false end.

(** What the instructions without operand and without a memory access do
    to the Cpu. *)
Definition register_effect (f : ExecuteFn) (c : Cpu) : Cpu :=
  match f with
  | fn_TXA => with_aRegister (Z.land (xRegister c) 0xFF) c
  | fn_TYA => with_aRegister (Z.land (yRegister c) 0xFF) c
  | fn_TAX => with_xRegister (Z.land (aRegister c) 0xFF) c
  | fn_TAY => with_yRegister (Z.land (aRegister c) 0xFF) c
  | _ => c
  end.

Definition is_register_only (f : ExecuteFn) : bool :=
  match f with fn_TXA | fn_TYA | fn_TAX | fn_TAY | fn_NOP => true | _ => false end.

(** What [stopSystem] leaves of a running System. *)
Definition stopped_System (s : System) : System :=
  {| running := false;
     currentProgram := None;
     programOutput := match currentProgram s with Some _ => "" | None => programOutput s end |}.

(** [stopSystem] empties the queue of the controller when a program is
    current, through [handleProgramCompletion], and not otherwise. *)
Definition queue_after_stop (s : System) (queue : list Interrupt) : list Interrupt :=
  match currentProgram s with Some _ => [] | None => queue end.

(** What a string print appends for the byte [b]: the character of the
    table, or the text of [undefined] for a byte the table lacks. *)
Definition printed_char (b : Z) : string :=
  if AsciiMap_has b then String (ascii_of_nat (Z.to_nat b)) EmptyString else "undefined".

Fixpoint printed (bytes : list Z) : string :=
  match bytes with
  | [] => ""
  | b :: rest => printed_char b +:+ printed rest
  end.

(** The bytes a string print goes through before the terminator. *)
Definition printable (b : Z) : Prop := b <> 0 /\ 0 <= b <= 255.

(** ** Bytes *)

Definition is_byte (z : Z) : Prop := 0 <= z < 256.

Definition registers_are_bytes (m : Machine) : Prop :=
  is_byte (aRegister (cpu m)) /\ is_byte (xRegister (cpu m)) /\ is_byte (yRegister (cpu m)).

Definition cells_are_bytes (m : Machine) : Prop := Forall is_byte (MEMORY (memory m)).

(** Bytes stay bytes from [m] to [m']. *)
Definition bytes_kept (m m' : Machine) : Prop :=
  (registers_are_bytes m -> registers_are_bytes m') /\
  (cells_are_bytes m -> cells_are_bytes m').

(** ** Two more programs *)

(** SYS, BRK: the call is made with X = 0. *)
Definition prog_sys_idle : list Z := [0xFF; 0x00].

(** LDX #$02, LDY #$07, SYS, BRK, a spare byte and the text OK. *)
Definition prog_print_at_Y : list Z :=
  [0xA2; 0x02; 0xA0; 0x07; 0xFF; 0x00; 0x00; 0x4F; 0x4B; 0x00].

(** The test of the InterruptCheck step: a key of the keyboard that is q in
    lower case. *)
Definition is_quit (i : Interrupt) : bool :=
  String.eqb (deviceName i) "Keyboard" && is_key_q (data i).

(** The first program at its first InterruptCheck stage, with the key q
    pending in the Cpu and the key x waiting in the controller. *)
Definition machine_two_keys : Machine :=
  with_interruptController {| waitingInterrupts := [key_interrupt 120] |}
    (upd_cpu (with_pendingInterrupt (Some (key_interrupt 113))) (run 13 prog_basic)).

(** * Properties *)

(** Unfolding of the monad's operations. *)
Ltac mred :=
  cbv beta iota zeta delta
    [mbind M_bind mret M_ret ret skip get modify throw try_catch machine_of returned].
Ltac mred_in H :=
  cbv beta iota zeta delta
    [mbind M_bind mret M_ret ret skip get modify throw try_catch machine_of returned] in H.

(** ** The timer *)

Lemma ticks_add (a b : nat) (m : Machine) :
  ticks (a + b) m =
  match ticks a m with
  | Ret _ m' => ticks b m'
  | Threw e m' => Threw e m'
  end.
Proof.
  revert m. induction a as [|a IH]; intros m; [reflexivity|].
  cbn [Nat.add ticks]. mred. destruct (Clock_interval m) as [[] m1|e m1]; [|reflexivity].
  apply IH.
Qed.

(** A stopped clock does not pulse. *)
Lemma ticks_stopped (n : nat) (m : Machine) :
  isRunning (clock m) = false -> ticks n m = Ret tt m.
Proof.
  intros Hstop. induction n as [|n IH]; [reflexivity|].
  cbn [ticks]. unfold Clock_interval. mred. rewrite Hstop. exact IH.
Qed.

(** Once a run has stopped the clock, the machine stays as it is. *)
Lemma run_stopped (k n : nat) (bytes : list Z) :
  returned (ticks k (boot true false (anonymous bytes))) = true ->
  isRunning (clock (run k bytes)) = false ->
  (k <= n)%nat ->
  run n bytes = run k bytes.
Proof.
  intros Hret Hstop Hle. unfold run in *.
  replace n with (k + (n - k))%nat by lia. rewrite ticks_add.
  destruct (ticks k (boot true false (anonymous bytes))) as [[] m1|e m1]; [|discriminate].
  cbn [machine_of] in *. rewrite (ticks_stopped _ _ Hstop). reflexivity.
Qed.

Lemma ticks_S (n : nat) (m : Machine) :
  ticks (S n) m =
  if isRunning (clock m)
  then match Clock_pulse m with
       | Ret _ m' => ticks n m'
       | Threw e m' => Threw e m'
       end
  else ticks n m.
Proof.
  cbn [ticks]. unfold Clock_interval. mred. destruct (isRunning (clock m)); reflexivity.
Qed.

(** ** The programs of the menu, run on the model *)

(** LDA #$05, TAX, LDA #$03, TXA, BRK stops after 35 ticks with A = X = 5. *)
Example run_prog_basic :
  running (system (run 34 prog_basic)) = true /\
  running (system (run 35 prog_basic)) = false /\
  actualRegisters (run 35 prog_basic) = (0x05, 0x05, 0x00, false, false).
Proof. repeat apply conj; vm_compute; reflexivity. Qed.

(** The string print has appended Hello! when BRK is about to execute, and
    the program stops on the next tick with X = 3. *)
Example run_prog_hello :
  programOutput (system (run 39 prog_hello)) = "Hello!"%string /\
  running (system (run 39 prog_hello)) = true /\
  running (system (run 40 prog_hello)) = false /\
  xRegister (cpu (run 40 prog_hello)) = 0x03.
Proof. repeat apply conj; vm_compute; reflexivity. Qed.

(** 0xFE + 0x01 with the carry option off: A = 0xFF and no carry. *)
Example run_prog_adc_no_carry :
  running (system (run 49 prog_adc_no_carry)) = false /\
  aRegister (cpu (run 49 prog_adc_no_carry)) = 0xFF /\
  cRegister (cpu (run 49 prog_adc_no_carry)) = false.
Proof. repeat apply conj; vm_compute; reflexivity. Qed.

(** 0xFF + 0x02 with the carry option off: A = 0x01 and the carry is set. *)
Example run_prog_adc_carry :
  running (system (run 49 prog_adc_carry)) = false /\
  aRegister (cpu (run 49 prog_adc_carry)) = 0x01 /\
  cRegister (cpu (run 49 prog_adc_carry)) = true.
Proof. repeat apply conj; vm_compute; reflexivity. Qed.

(** CPX against the zero at 0x0020 clears Z and sets C, and BNE jumps over
    the two NOPs: the program stops with the counter just past BRK. *)
Example run_prog_branch_taken :
  running (system (run 38 prog_branch_taken)) = false /\
  actualRegisters (run 38 prog_branch_taken) = (0x00, 0x05, 0x00, false, true) /\
  pcRegister (cpu (run 38 prog_branch_taken)) = 10.
Proof. repeat apply conj; vm_compute; reflexivity. Qed.

(** The integer print appends 42, the value of Y. *)
Example run_prog_print_integer :
  programOutput (system (run 54 prog_print_integer)) = "42"%string /\
  running (system (run 55 prog_print_integer)) = false /\
  yRegister (cpu (run 55 prog_print_integer)) = 0x2A /\
  xRegister (cpu (run 55 prog_print_integer)) = 0x01.
Proof. repeat apply conj; vm_compute; reflexivity. Qed.

(** ** Frame rules *)

Section Keeps.
Context (R : Machine -> Machine -> Prop) `{!PreOrder R}.

Lemma keeps_ret {A : Type} (a : A) : keeps R (ret a).
Proof. intros m. cbn. reflexivity. Qed.

Lemma keeps_mret {A : Type} (a : A) : keeps R (mret a : M A).
Proof. intros m. cbn. reflexivity. Qed.

Lemma keeps_skip : keeps R skip.
Proof. intros m. cbn. reflexivity. Qed.

Lemma keeps_get : keeps R get.
Proof. intros m. cbn. reflexivity. Qed.

Lemma keeps_throw {A : Type} (e : JsError) : keeps R (throw e : M A).
Proof. intros m. cbn. reflexivity. Qed.

Lemma keeps_modify (f : Machine -> Machine) :
  (forall m, R m (f m)) -> keeps R (modify f).
Proof. intros Hf m. cbn. apply Hf. Qed.

Lemma keeps_bind {A B : Type} (x : M A) (f : A -> M B) :
  keeps R x -> (forall a, keeps R (f a)) -> keeps R (x ≫= f).
Proof.
  intros Hx Hf m. specialize (Hx m). mred.
  destruct (x m) as [a m1|e m1]; cbn in *; [|exact Hx].
  etransitivity; [exact Hx|]. apply Hf.
Qed.

Lemma keeps_try_catch {A : Type} (body : M A) (handler : JsError -> M A) :
  keeps R body -> (forall e, keeps R (handler e)) -> keeps R (try_catch body handler).
Proof.
  intros Hx Hh m. specialize (Hx m). unfold try_catch.
  destruct (body m) as [a m1|e m1]; cbn in *; [exact Hx|].
  etransitivity; [exact Hx|]. apply Hh.
Qed.

Lemma keeps_hexLog (v : jsnum) : keeps R (hexLog v).
Proof. destruct v; [apply keeps_ret|apply keeps_throw..]. Qed.

Lemma keeps_hexLog_opt (v : option Z) : keeps R (hexLog_opt v).
Proof. destruct v; [apply keeps_ret|apply keeps_throw]. Qed.

End Keeps.

#[global] Instance unchanged_preorder {B : Type} (p : Machine -> B) : PreOrder (unchanged p).
Proof.
  split.
  - intros m. reflexivity.
  - intros m1 m2 m3 H12 H23. unfold unchanged in *. congruence.
Qed.

#[global] Instance cpu_frame_preorder : PreOrder cpu_frame.
Proof.
  split.
  - intros m. split; [reflexivity|tauto].
  - intros m1 m2 m3 [H1 H2] [H3 H4]. split; [congruence|tauto].
Qed.

#[global] Instance stage_frame_preorder : PreOrder stage_frame.
Proof.
  split.
  - intros m. split; reflexivity.
  - intros m1 m2 m3 [H1 H2] [H3 H4]. split; [etransitivity; eassumption|congruence].
Qed.

#[global] Instance micro_frame_preorder : PreOrder micro_frame.
Proof.
  split.
  - intros m. split; reflexivity.
  - intros m1 m2 m3 [H1 H2] [H3 H4]. split; [etransitivity; eassumption|congruence].
Qed.

#[global] Instance memory_frame_preorder : PreOrder memory_frame.
Proof.
  split.
  - intros m. unfold memory_frame. tauto.
  - intros m1 m2 m3 (A1 & A2 & A3 & A4 & A5 & A6) (B1 & B2 & B3 & B4 & B5 & B6).
    unfold memory_frame. repeat apply conj; try congruence.
    intros H. rewrite B6; [auto|]. rewrite A6; auto.
Qed.

Lemma keeps_weaken {A : Type} (R R' : Machine -> Machine -> Prop) (x : M A) :
  (forall m m', R m m' -> R' m m') -> keeps R x -> keeps R' x.
Proof. intros HR Hx m. apply HR, Hx. Qed.

(** The methods, unfolded down to the operations of the monad. *)
Ltac unfold_methods :=
  unfold call, Cpu_LDA, Cpu_STA, Cpu_TXA, Cpu_TYA, Cpu_ADC, Cpu_LDX, Cpu_TAX,
    Cpu_LDY, Cpu_TAY, Cpu_NOP, Cpu_BRK, Cpu_CPX, Cpu_BNE, Cpu_INC, Cpu_SYS,
    Cpu_SYS_print, Cpu_loadCaseHelper, Cpu_handleAdditionalFetches,
    Cpu_setupDecode, Cpu_setInterrupt, rethrow_logged, Cpu_log_error, encodeAscii,
    Cpu_pulse_Fetch, Cpu_pulse_Decode, Cpu_pulse_Execute, Cpu_pulse_Writeback,
    Cpu_pulse_InterruptCheck, InstructionSet_decodeMapper,
    System_stopSystem, System_handleProgramCompletion, System_appendProgramOutput,
    Clock_stopClock, InterruptController_clearInterrupts,
    Memory_pulse, Memory_executeRead, Memory_executeWrite,
    MMU_loadProgram, MMU_isProgramLoading, MMU_getMDR, MMU_triggerRead,
    MMU_triggerWrite, MMU_writeImmediate,
    Memory_setMAR, Memory_setMDR, Memory_getMDR, Memory_read, Memory_write.

(** A field assignment respects the relation. *)
Ltac frame_assign :=
  unfold micro_frame, stage_frame, cpu_frame, memory_frame, unchanged, pending, waiting;
  repeat case_match; cbn;
  repeat apply conj; first [reflexivity | congruence | intros ?; first [assumption | reflexivity]].

(** One step of a frame proof: split a sequence, discharge a primitive, or
    take a [match] apart. *)
Ltac keeps_step :=
  first
    [ match goal with |- PreOrder _ => apply _ end
    | apply keeps_bind; [idtac..|intros ?]
    | apply keeps_try_catch; [idtac..|intros ?]
    | apply keeps_ret
    | apply keeps_mret
    | apply keeps_skip
    | apply keeps_get
    | apply keeps_throw
    | apply keeps_hexLog
    | apply keeps_hexLog_opt
    | apply keeps_modify; intros ?; frame_assign
    | progress cbv zeta
    | match goal with
      | |- keeps _ (if ?b then _ else _) => destruct b
      | |- keeps _ (match ?x with _ => _ end) => destruct x
      end ].

Ltac keeps_auto := repeat keeps_step.

Ltac kbind :=
  apply keeps_bind; try (match goal with |- PreOrder _ => apply _ end).

(** *** What the methods leave alone *)

Lemma call_frame (f : ExecuteFn) : keeps micro_frame (call f).
Proof. destruct f; unfold_methods; keeps_auto. Qed.

Lemma Cpu_handleAdditionalFetches_frame : keeps micro_frame Cpu_handleAdditionalFetches.
Proof. unfold_methods. keeps_auto. Qed.

Lemma InstructionSet_decodeMapper_frame (op : Z) (decodeFunction : M unit) :
  InstructionSet_decodeMapper op = Some decodeFunction ->
  keeps micro_frame decodeFunction.
Proof.
  unfold InstructionSet_decodeMapper. intros H.
  repeat case_match; simplify_eq; unfold_methods; keeps_auto.
Qed.

Lemma micro_stage_frame (m m' : Machine) : micro_frame m m' -> stage_frame m m'.
Proof. intros [H _]. exact H. Qed.

Lemma stage_cpu_frame (m m' : Machine) : stage_frame m m' -> cpu_frame m m'.
Proof. intros [H _]. exact H. Qed.

Lemma Cpu_pulse_Fetch_frame : keeps stage_frame Cpu_pulse_Fetch.
Proof. unfold_methods. keeps_auto. Qed.

Lemma Cpu_pulse_Decode_frame : keeps stage_frame Cpu_pulse_Decode.
Proof.
  unfold Cpu_pulse_Decode. kbind; [keeps_auto|intros m].
  kbind; [|intros ?; keeps_auto].
  destruct (InstructionSet_decodeMapper (opcode (cpu m))) eqn:E.
  - eapply keeps_weaken; [apply micro_stage_frame|].
    eapply InstructionSet_decodeMapper_frame, E.
  - keeps_auto.
Qed.

Lemma Cpu_pulse_Execute_frame : keeps stage_frame Cpu_pulse_Execute.
Proof.
  unfold Cpu_pulse_Execute. kbind; [keeps_auto|intros m].
  destruct (executeFunction (cpu m)); [|keeps_auto].
  kbind; [|intros again; keeps_auto].
  eapply keeps_weaken; [apply micro_stage_frame|apply call_frame].
Qed.

Lemma Cpu_pulse_Writeback_frame : keeps stage_frame Cpu_pulse_Writeback.
Proof. unfold_methods. keeps_auto. Qed.

Lemma Cpu_pulse_InterruptCheck_frame : keeps cpu_frame Cpu_pulse_InterruptCheck.
Proof. unfold_methods. keeps_auto. Qed.

Lemma Cpu_pulse_frame : keeps cpu_frame Cpu_pulse.
Proof.
  unfold Cpu_pulse, Cpu_pulse_body.
  apply keeps_try_catch; [apply _| |intros e; unfold_methods; keeps_auto].
  kbind; [keeps_auto|intros m].
  destruct (negb (running (system m))); [keeps_auto|].
  destruct (_isLoading (mmu m)); [keeps_auto|].
  destruct (0 <? fetchCount (cpu m))%nat.
  { eapply keeps_weaken; [|apply Cpu_handleAdditionalFetches_frame].
    intros ? ? H. apply stage_cpu_frame, micro_stage_frame, H. }
  kbind; [keeps_auto|intros _].
  destruct (step (cpu m)); [keeps_auto|..|apply Cpu_pulse_InterruptCheck_frame];
    (eapply keeps_weaken; [apply stage_cpu_frame|]).
  - apply Cpu_pulse_Fetch_frame.
  - apply Cpu_pulse_Decode_frame.
  - apply Cpu_pulse_Execute_frame.
  - apply Cpu_pulse_Writeback_frame.
Qed.

Lemma Memory_pulse_frame : keeps memory_frame Memory_pulse.
Proof.
  unfold Memory_pulse. kbind; [keeps_auto|intros m].
  kbind; [|intros _; unfold_methods; keeps_auto].
  destruct (isWritePending (memory m)); [|keeps_auto].
  kbind; [unfold_methods; keeps_auto|intros _].
  kbind; [unfold_methods; keeps_auto|intros _].
  intros m1. unfold MMU_isProgramLoading. mred.
  destruct (_isLoading (mmu m1)) eqn:E.
  - unfold MMU_loadProgram. mred. unfold memory_frame.
    destruct (_PROGRAM (mmu m1)); cbn; rewrite E; repeat apply conj; try reflexivity;
      intros; discriminate.
  - cbn. reflexivity.
Qed.

(** The debug switch of the Cpu is set at construction only. *)
Lemma call_debug (f : ExecuteFn) : keeps (unchanged (fun m => debug (cpu m))) (call f).
Proof. destruct f; unfold_methods; keeps_auto. Qed.

Lemma InstructionSet_decodeMapper_debug (op : Z) (decodeFunction : M unit) :
  InstructionSet_decodeMapper op = Some decodeFunction ->
  keeps (unchanged (fun m => debug (cpu m))) decodeFunction.
Proof.
  unfold InstructionSet_decodeMapper. intros H.
  repeat case_match; simplify_eq; unfold_methods; keeps_auto.
Qed.

Lemma Cpu_pulse_body_debug : keeps (unchanged (fun m => debug (cpu m))) Cpu_pulse_body.
Proof.
  unfold Cpu_pulse_body. kbind; [keeps_auto|intros m].
  destruct (negb (running (system m))); [keeps_auto|].
  destruct (_isLoading (mmu m)); [keeps_auto|].
  destruct (0 <? fetchCount (cpu m))%nat; [unfold_methods; keeps_auto|].
  kbind; [keeps_auto|intros _].
  destruct (step (cpu m)); try (unfold_methods; keeps_auto; fail).
  - unfold Cpu_pulse_Decode. kbind; [keeps_auto|intros m1].
    kbind; [|intros ?; keeps_auto].
    destruct (InstructionSet_decodeMapper (opcode (cpu m1))) eqn:E; [|keeps_auto].
    eapply InstructionSet_decodeMapper_debug, E.
  - unfold Cpu_pulse_Execute. kbind; [keeps_auto|intros m1].
    destruct (executeFunction (cpu m1)); [|keeps_auto].
    kbind; [apply call_debug|intros again; keeps_auto].
Qed.

(** ** The pulses as equations *)

Lemma Cpu_pulse_body_eq (m : Machine) :
  Cpu_pulse_body m =
  if negb (running (system m)) then Ret tt m
  else if _isLoading (mmu m) then Ret tt m
  else if (0 <? fetchCount (cpu m))%nat then Cpu_handleAdditionalFetches m
  else
    (modify (upd_cpu (fun c => with_currentCyclePulseCount (S (currentCyclePulseCount c)) c));;
     match step (cpu m) with
     | PipelineStep.None => skip
     | PipelineStep.Fetch => Cpu_pulse_Fetch
     | PipelineStep.Decode => Cpu_pulse_Decode
     | PipelineStep.Execute => Cpu_pulse_Execute
     | PipelineStep.Writeback => Cpu_pulse_Writeback
     | PipelineStep.InterruptCheck => Cpu_pulse_InterruptCheck
     end) m.
Proof.
  unfold Cpu_pulse_body. mred.
  destruct (negb (running (system m))); [reflexivity|].
  destruct (_isLoading (mmu m)); [reflexivity|].
  destruct (0 <? fetchCount (cpu m))%nat; reflexivity.
Qed.

(** The [catch] of [pulse] returns. *)
Lemma Cpu_pulse_returns (m : Machine) : exists m', Cpu_pulse m = Ret tt m'.
Proof.
  unfold Cpu_pulse, try_catch.
  destruct (Cpu_pulse_body m) as [[] m1|e m1]; [eauto|].
  unfold Cpu_log_error. mred. eauto.
Qed.

Lemma Memory_at_insert (cells : list Z) (a b : Z) :
  0 <= a < Z.of_nat (length cells) ->
  Memory_at (<[Z.to_nat a := b]> cells) (Some a) = Num b.
Proof.
  intros Ha. unfold Memory_at.
  destruct (0 <=? a) eqn:E; [|lia].
  rewrite list_lookup_insert_eq by lia. reflexivity.
Qed.

Lemma Memory_at_in_range (cells : list Z) (a : Z) :
  0 <= a < Z.of_nat (length cells) ->
  exists b, cells !! Z.to_nat a = Some b /\ Memory_at cells (Some a) = Num b.
Proof.
  intros Ha. unfold Memory_at.
  destruct (0 <=? a) eqn:E; [|lia].
  destruct (lookup_lt_is_Some_2 cells (Z.to_nat a)) as [b Hb]; [lia|].
  exists b. rewrite Hb. auto.
Qed.

Lemma Memory_store_in_range (cells : list Z) (a : Z) (v : jsnum) :
  0 <= a -> Memory_store cells (Some a) v = <[Z.to_nat a := ToUint8 v]> cells.
Proof. intros Ha. unfold Memory_store. destruct (0 <=? a) eqn:E; [reflexivity|lia]. Qed.

(** A write to an address of the array with a number in MDR. *)
Lemma Memory_executeWrite_eq (m : Machine) (a v : Z) :
  MAR (memory m) = Some a ->
  0 <= a < Z.of_nat (length (MEMORY (memory m))) ->
  MDR (memory m) = Num v ->
  Memory_executeWrite m =
  Ret tt (upd_memory (with_MEMORY (<[Z.to_nat a := v mod 256]> (MEMORY (memory m)))) m).
Proof.
  intros Hmar Hrange Hmdr.
  unfold Memory_executeWrite. mred. unfold upd_memory. cbn -[Memory_at Memory_store].
  rewrite Hmar, Hmdr, Memory_store_in_range by lia. cbn -[Memory_at].
  rewrite Memory_at_insert by exact Hrange. reflexivity.
Qed.

(** A read of an address of the array. *)
Lemma Memory_executeRead_eq (m : Machine) (a : Z) :
  MAR (memory m) = Some a ->
  0 <= a < Z.of_nat (length (MEMORY (memory m))) ->
  Memory_executeRead m =
  Ret tt (upd_memory (with_MDR (Memory_at (MEMORY (memory m)) (Some a))) m).
Proof.
  intros Hmar Hrange.
  destruct (Memory_at_in_range _ _ Hrange) as (b & _ & Hat).
  unfold Memory_executeRead. mred. unfold upd_memory. cbn -[Memory_at].
  rewrite Hmar, Hat. reflexivity.
Qed.

(** A pulse of the Memory while no program is loading. *)
Lemma Memory_pulse_idle (m : Machine) (a v : Z) :
  MAR (memory m) = Some a ->
  0 <= a < Z.of_nat (length (MEMORY (memory m))) ->
  MDR (memory m) = Num v ->
  _isLoading (mmu m) = false ->
  let cells' :=
    if isWritePending (memory m)
    then <[Z.to_nat a := v mod 256]> (MEMORY (memory m))
    else MEMORY (memory m) in
  Memory_pulse m =
  Ret tt (with_memory
    {| MEMORY := cells';
       MAR := Some a;
       MDR := if isReadPending (memory m) then Memory_at cells' (Some a) else Num v;
       isReadPending := false;
       isWritePending := false |} m).
Proof.
  intros Hmar Hrange Hmdr Hidle cells'. subst cells'.
  destruct (Memory_at_in_range _ _ Hrange) as (b & _ & Hat).
  destruct m as [c [cells mar mdr rp wp] u s ic ck lg].
  cbn -[Memory_at] in Hmar, Hrange, Hmdr, Hidle, Hat.
  subst mar mdr. cbn [memory isWritePending isReadPending MEMORY].
  unfold Memory_pulse. mred. cbn [memory isWritePending isReadPending].
  destruct wp.
  - rewrite (Memory_executeWrite_eq _ a v) by (cbn; assumption || reflexivity).
    unfold MMU_isProgramLoading. mred. cbn -[Memory_at Memory_executeRead]. rewrite Hidle.
    cbn -[Memory_at Memory_executeRead].
    destruct rp.
    + rewrite (Memory_executeRead_eq _ a);
        [|reflexivity|cbn; rewrite length_insert; assumption].
      cbn -[Memory_at]. rewrite Memory_at_insert by assumption. reflexivity.
    + reflexivity.
  - cbn -[Memory_at Memory_executeRead]. destruct rp.
    + rewrite (Memory_executeRead_eq _ a) by (cbn; assumption || reflexivity).
      cbn -[Memory_at]. rewrite Hat. reflexivity.
    + reflexivity.
Qed.

(** A pulse of the Memory with only a read latched: what MDR held does
    not matter. *)
Lemma Memory_pulse_read (m : Machine) (a : Z) :
  MAR (memory m) = Some a ->
  0 <= a < Z.of_nat (length (MEMORY (memory m))) ->
  isWritePending (memory m) = false ->
  isReadPending (memory m) = true ->
  Memory_pulse m =
  Ret tt (with_memory
    {| MEMORY := MEMORY (memory m);
       MAR := Some a;
       MDR := Memory_at (MEMORY (memory m)) (Some a);
       isReadPending := false;
       isWritePending := false |} m).
Proof.
  intros Hmar Hrange Hw Hr.
  destruct (Memory_at_in_range _ _ Hrange) as (b & _ & Hat).
  destruct m as [c [cells mar mdr rp wp] u s ic ck lg].
  cbn -[Memory_at] in Hmar, Hrange, Hw, Hr, Hat. subst mar rp wp.
  unfold Memory_pulse. mred. cbn -[Memory_at Memory_executeRead].
  rewrite (Memory_executeRead_eq _ a) by (cbn; assumption || reflexivity).
  cbn -[Memory_at]. rewrite Hat. reflexivity.
Qed.

Lemma InterruptController_pulse_eq (m : Machine) :
  InterruptController_pulse m =
  Ret tt (with_interruptController {| waitingInterrupts := [] |}
    (upd_cpu (with_pendingInterrupt
       (latch (snd (InterruptController_scan (waiting m))) (pending m))) m)).
Proof.
  unfold InterruptController_pulse, waiting, pending. mred.
  destruct (snd (InterruptController_scan (waitingInterrupts (interruptController m)))); cbn.
  - reflexivity.
  - destruct m as [[] me u s ic ck lg]. reflexivity.
Qed.

(** A sequence that returns has returned at each step. *)
Lemma bind_Ret_inv {A B : Type} (x : M A) (f : A -> M B) (m : Machine) (b : B) (m' : Machine) :
  (x ≫= f) m = Ret b m' ->
  exists a m1, x m = Ret a m1 /\ f a m1 = Ret b m'.
Proof.
  mred. destruct (x m) as [a m1|e m1]; [|discriminate]. eauto.
Qed.

Lemma get_Ret_inv (m m0 m1 : Machine) : get m = Ret m0 m1 -> m0 = m /\ m1 = m.
Proof. unfold get. intros H. simplify_eq. auto. Qed.

(** The log lines of the Memory change nothing. *)
Lemma Memory_executeRead_post (m m' : Machine) :
  Memory_executeRead m = Ret tt m' ->
  m' = upd_memory (fun me => with_MDR (Memory_at (MEMORY me) (MAR me)) me) m.
Proof.
  unfold Memory_executeRead. intros H.
  apply bind_Ret_inv in H as ([] & m1 & H1 & H). unfold modify in H1. simplify_eq.
  match type of H with ?x _ = _ =>
    assert (K : keeps (unchanged (fun m => m)) x) by keeps_auto end.
  match type of H with ?x ?s = _ => specialize (K s) end.
  rewrite H in K. exact K.
Qed.

Lemma Memory_executeWrite_post (m m' : Machine) :
  Memory_executeWrite m = Ret tt m' ->
  m' = upd_memory (fun me => with_MEMORY (Memory_store (MEMORY me) (MAR me) (MDR me)) me) m.
Proof.
  unfold Memory_executeWrite. intros H.
  apply bind_Ret_inv in H as ([] & m1 & H1 & H). unfold modify in H1. simplify_eq.
  match type of H with ?x _ = _ =>
    assert (K : keeps (unchanged (fun m => m)) x) by keeps_auto end.
  match type of H with ?x ?s = _ => specialize (K s) end.
  rewrite H in K. exact K.
Qed.

(** Whenever a pulse of the Memory returns, a latched write has stored MDR
    at MAR before anything else, and a latched read has run last, on the
    array as the write left it. *)
Lemma Memory_pulse_post (m m' : Machine) :
  Memory_pulse m = Ret tt m' ->
  MEMORY (memory m') =
    (if isWritePending (memory m)
     then Memory_store (MEMORY (memory m)) (MAR (memory m)) (MDR (memory m))
     else MEMORY (memory m)) /\
  (isReadPending (memory m) = true ->
   MDR (memory m') = Memory_at (MEMORY (memory m')) (MAR (memory m'))).
Proof.
  unfold Memory_pulse. intros H.
  apply bind_Ret_inv in H as (m0 & ? & Hg & H). apply get_Ret_inv in Hg as [-> ->].
  apply bind_Ret_inv in H as ([] & m1 & Hw & H).
  apply bind_Ret_inv in H as (m0 & ? & Hg & H). apply get_Ret_inv in Hg as [-> ->].
  apply bind_Ret_inv in H as ([] & m2 & Hr & H).
  (* the closing log line *)
  assert (m' = m2) as ->.
  { match type of H with ?x _ = _ =>
      assert (K : keeps (unchanged (fun m => m)) x) by keeps_auto end.
    specialize (K m2). rewrite H in K. exact K. }
  (* the write, and the load it may advance *)
  assert (Hcells : MEMORY (memory m1) =
            (if isWritePending (memory m)
             then Memory_store (MEMORY (memory m)) (MAR (memory m)) (MDR (memory m))
             else MEMORY (memory m)) /\
          isReadPending (memory m1) = isReadPending (memory m)).
  { destruct (isWritePending (memory m)).
    - apply bind_Ret_inv in Hw as ([] & mw & Hw1 & Hw).
      apply Memory_executeWrite_post in Hw1. subst mw.
      match type of Hw with ?x _ = _ =>
        assert (K : keeps (unchanged (fun m => (MEMORY (memory m), isReadPending (memory m)))) x)
          by (unfold_methods; keeps_auto) end.
      match type of Hw with ?x ?s = _ => specialize (K s) end.
      rewrite Hw in K. unfold unchanged in K. cbn in K. injection K as K1 K2. split; assumption.
    - unfold skip, mret, M_ret in Hw. simplify_eq. auto. }
  destruct Hcells as [Hcells Hrp]. rewrite Hrp in Hr.
  destruct (isReadPending (memory m)).
  - apply bind_Ret_inv in Hr as ([] & mr & Hr1 & Hr).
    apply Memory_executeRead_post in Hr1. subst mr.
    unfold modify in Hr. simplify_eq. cbn -[Memory_at]. auto.
  - unfold skip, mret, M_ret in Hr. simplify_eq. split; [exact Hcells|discriminate].
Qed.

(** ** C1: the gate between Execute and Writeback *)

(** The Execute case decides the next stage by the truthiness of the two
    latches. *)
Lemma Cpu_pulse_Execute_done (m m' : Machine) (f : ExecuteFn) :
  executeFunction (cpu m) = Some f ->
  call f m = Ret false m' ->
  exists m'', Cpu_pulse_Execute m = Ret tt m'' /\
    step (cpu m'') =
      (if truthy (writeAddress (cpu m')) && truthy (writeValue (cpu m'))
       then PipelineStep.Writeback else PipelineStep.InterruptCheck) /\
    writeAddress (cpu m'') = writeAddress (cpu m') /\
    writeValue (cpu m'') = writeValue (cpu m').
Proof.
  intros Hf Hcall. unfold Cpu_pulse_Execute.
  mred. rewrite Hf, Hcall. cbn.
  eexists; split; [reflexivity|]. cbn. auto.
Qed.

(** The second pulse of INC in the Execute stage latches the write-back
    and chooses the next stage. *)
Lemma Cpu_pulse_INC_second (m : Machine) (v : Z) :
  running (system m) = true ->
  _isLoading (mmu m) = false ->
  fetchCount (cpu m) = 0%nat ->
  step (cpu m) = PipelineStep.Execute ->
  currentCyclePulseCount (cpu m) = 1%nat ->
  executeFunction (cpu m) = Some fn_INC ->
  MDR (memory m) = Num v ->
  let address := operand_address (cpu m) in
  let value := Z.land (v + 1) 0xFF in
  Cpu_pulse m =
  Ret tt (upd_cpu (fun c =>
            with_step (if negb (address =? 0) && negb (value =? 0)
                       then PipelineStep.Writeback else PipelineStep.InterruptCheck)
              (with_currentCyclePulseCount 0%nat
                 (with_writeAddress (Some address)
                    (with_writeValue (Some value) c)))) m).
Proof.
  intros Hrun Hload Hfetch Hstep Hcount Hfn Hmdr.
  destruct m as [c me u s ic ck lg]. destruct c, s, u, me. cbn in *. subst.
  reflexivity.
Qed.

(** Hence no cell goes from 0xFF to 0x00, and the cell at address 0 is
    never incremented: in both cases INC ends without a Writeback. *)
Lemma Cpu_pulse_INC_no_writeback (m : Machine) (v : Z) :
  running (system m) = true ->
  _isLoading (mmu m) = false ->
  fetchCount (cpu m) = 0%nat ->
  step (cpu m) = PipelineStep.Execute ->
  currentCyclePulseCount (cpu m) = 1%nat ->
  executeFunction (cpu m) = Some fn_INC ->
  MDR (memory m) = Num v ->
  v = 0xFF \/ operand_address (cpu m) = 0 ->
  step (cpu (machine_of (Cpu_pulse m))) = PipelineStep.InterruptCheck /\
  memory (machine_of (Cpu_pulse m)) = memory m.
Proof.
  intros Hrun Hload Hfetch Hstep Hcount Hfn Hmdr Hz.
  rewrite (Cpu_pulse_INC_second m v) by assumption. cbn.
  split; [|reflexivity].
  destruct Hz as [->| ->]; [|reflexivity].
  cbn. rewrite andb_false_r. reflexivity.
Qed.

(** C1 (the code departs from the claim).  After LDA #$FF, STA $0010 the
    instruction INC $0010 finishes its Execute stage at the 35th tick with
    both latches set, [write_address = 0x0010] and [write_value = 0]; the
    next stage is InterruptCheck, not Writeback, and the cell keeps 0xFF.
    The same happens to INC $0000, whose latched address is 0. *)
Theorem C1_gate_skips_zero_latches :
  (let m := run 34 prog_inc_to_zero in
   let m' := machine_of (Cpu_pulse m) in
   step (cpu m) = PipelineStep.Execute /\
   executeFunction (cpu m) = Some fn_INC /\
   returned (Cpu_pulse m) = true /\
   writeAddress (cpu m') = Some 0x0010 /\
   writeValue (cpu m') = Some 0 /\
   step (cpu m') = PipelineStep.InterruptCheck /\
   MEMORY (memory (run 100 prog_inc_to_zero)) !! 16%nat = Some 0xFF) /\
  (let m := run 12 prog_inc_address_zero in
   let m' := machine_of (Cpu_pulse m) in
   step (cpu m) = PipelineStep.Execute /\
   executeFunction (cpu m) = Some fn_INC /\
   returned (Cpu_pulse m) = true /\
   writeAddress (cpu m') = Some 0 /\
   writeValue (cpu m') = Some 0xEF /\
   step (cpu m') = PipelineStep.InterruptCheck).
Proof.
  cbv zeta. repeat apply conj; vm_compute; reflexivity.
Qed.

(** ** C2: errors inside a pulse of the Cpu *)

Lemma Cpu_pulse_catches (m : Machine) (e : JsError) (mt : Machine) :
  Cpu_pulse_body m = Threw e mt -> Cpu_pulse m = Ret tt (caught e mt).
Proof.
  intros H. unfold Cpu_pulse, try_catch. rewrite H. reflexivity.
Qed.

(** The stages assign [step] last: a throw leaves it as it was. *)
Lemma Cpu_pulse_Fetch_throw (m : Machine) (e : JsError) (mt : Machine) :
  Cpu_pulse_Fetch m = Threw e mt -> step (cpu mt) = step (cpu m).
Proof.
  unfold Cpu_pulse_Fetch, MMU_triggerRead, MMU_getMDR, Memory_getMDR, Memory_setMAR,
    Memory_read, hexLog. mred.
  repeat case_match; intros ?; simplify_eq; reflexivity.
Qed.

Lemma InstructionSet_decodeMapper_nothrow (op : Z) (decodeFunction : M unit) (m : Machine) :
  InstructionSet_decodeMapper op = Some decodeFunction ->
  returned (decodeFunction m) = true.
Proof.
  unfold InstructionSet_decodeMapper. intros H.
  repeat case_match; simplify_eq; try reflexivity.
  unfold Cpu_setupDecode. mred. destruct (xRegister (cpu m) =? 3); reflexivity.
Qed.

Lemma Cpu_pulse_Decode_throw (m : Machine) (e : JsError) (mt : Machine) :
  Cpu_pulse_Decode m = Threw e mt -> step (cpu mt) = step (cpu m).
Proof.
  unfold Cpu_pulse_Decode. mred.
  destruct (InstructionSet_decodeMapper (opcode (cpu m))) as [d|] eqn:E.
  - pose proof (InstructionSet_decodeMapper_nothrow _ _ m E) as Hd.
    destruct (d m); [discriminate|discriminate].
  - intros H. simplify_eq. reflexivity.
Qed.

Lemma Cpu_pulse_Execute_throw (m : Machine) (e : JsError) (mt : Machine) :
  Cpu_pulse_Execute m = Threw e mt -> step (cpu mt) = step (cpu m).
Proof.
  unfold Cpu_pulse_Execute. mred.
  destruct (executeFunction (cpu m)) as [f|].
  - pose proof (call_frame f m) as [_ Hstep].
    destruct (call f m) as [again m1|e1 m1]; cbn in Hstep.
    + destruct again; discriminate.
    + intros H. simplify_eq. exact Hstep.
  - intros H. simplify_eq. reflexivity.
Qed.

Lemma Cpu_pulse_Writeback_throw (m : Machine) (e : JsError) (mt : Machine) :
  Cpu_pulse_Writeback m = Threw e mt -> step (cpu mt) = step (cpu m).
Proof.
  unfold Cpu_pulse_Writeback, MMU_writeImmediate, Memory_setMAR, Memory_setMDR,
    Memory_write, hexLog_opt. mred. cbn.
  repeat case_match; intros ?; simplify_eq; reflexivity.
Qed.

Lemma Cpu_pulse_InterruptCheck_nothrow (m : Machine) :
  returned (Cpu_pulse_InterruptCheck m) = true.
Proof.
  unfold Cpu_pulse_InterruptCheck, System_stopSystem, System_handleProgramCompletion,
    Clock_stopClock, InterruptController_clearInterrupts. mred.
  repeat case_match; simplify_eq; reflexivity.
Qed.

Lemma Cpu_pulse_body_throw (m : Machine) (e : JsError) (mt : Machine) :
  Cpu_pulse_body m = Threw e mt -> step (cpu mt) = step (cpu m).
Proof.
  rewrite Cpu_pulse_body_eq.
  destruct (negb (running (system m))); [discriminate|].
  destruct (_isLoading (mmu m)); [discriminate|].
  destruct (0 <? fetchCount (cpu m))%nat.
  { pose proof (Cpu_handleAdditionalFetches_frame m) as [_ Hstep].
    intros H. rewrite H in Hstep. exact Hstep. }
  mred.
  set (m1 := upd_cpu (fun c => with_currentCyclePulseCount (S (currentCyclePulseCount c)) c) m).
  change (step (cpu m)) with (step (cpu m1)).
  destruct (step (cpu m1)) eqn:Hs; intros H; rewrite <- Hs; revert H.
  - discriminate.
  - apply Cpu_pulse_Fetch_throw.
  - apply Cpu_pulse_Decode_throw.
  - apply Cpu_pulse_Execute_throw.
  - apply Cpu_pulse_Writeback_throw.
  - pose proof (Cpu_pulse_InterruptCheck_nothrow m1) as Hr.
    destruct (Cpu_pulse_InterruptCheck m1); discriminate.
Qed.

(** An opcode outside the table, in the Decode stage: the pulse reports
    the error and leaves the Cpu where it was, but for the pulse counter. *)
Lemma Cpu_pulse_unknown_opcode (m : Machine) :
  running (system m) = true ->
  _isLoading (mmu m) = false ->
  fetchCount (cpu m) = 0%nat ->
  step (cpu m) = PipelineStep.Decode ->
  InstructionSet_decodeMapper (opcode (cpu m)) = None ->
  Cpu_pulse_body m =
    Threw (UnknownOpcode (opcode (cpu m)))
      (upd_cpu (fun c => with_currentCyclePulseCount (S (currentCyclePulseCount c)) c) m).
Proof.
  intros Hrun Hload Hfetch Hstep Hop.
  rewrite Cpu_pulse_body_eq, Hrun, Hload, Hfetch, Hstep. cbn [negb Nat.ltb Nat.leb].
  mred. unfold Cpu_pulse_Decode. mred.
  cbn [cpu upd_cpu with_cpu opcode with_currentCyclePulseCount].
  rewrite Hop. reflexivity.
Qed.

Lemma Clock_pulse_stuck (op pc : Z) (m : Machine) :
  InstructionSet_decodeMapper op = None ->
  stuck_at op pc m ->
  exists m', Clock_pulse m = Ret tt m' /\ stuck_at op pc m' /\
    console m' = console (caught (UnknownOpcode op) m).
Proof.
  intros Hop (Hrun & Hload & Hfetch & Hstep & Hopc & Hpc & a & v & Hmar & Hrange & Hmdr).
  subst op pc.
  unfold Clock_pulse. mred.
  rewrite (Cpu_pulse_catches m _ _ (Cpu_pulse_unknown_opcode m Hrun Hload Hfetch Hstep Hop)).
  set (m1 := caught _ _).
  assert (Hm1 : memory m1 = memory m /\ mmu m1 = mmu m /\ system m1 = system m /\
                step (cpu m1) = step (cpu m) /\ fetchCount (cpu m1) = fetchCount (cpu m) /\
                opcode (cpu m1) = opcode (cpu m) /\ pcRegister (cpu m1) = pcRegister (cpu m)).
  { subst m1. unfold caught. cbn. destruct (debug (cpu m)); cbn; repeat apply conj; reflexivity. }
  destruct Hm1 as (E1 & E2 & E3 & E4 & E5 & E6 & E7).
  rewrite (Memory_pulse_idle m1 a v) by (rewrite ?E1, ?E2; assumption).
  rewrite InterruptController_pulse_eq.
  eexists. split; [reflexivity|]. split.
  - unfold stuck_at. cbn -[Memory_at]. rewrite E2, E3, E4, E5, E6, E7.
    repeat apply conj; try assumption; try reflexivity.
    match goal with |- context [Memory_at ?c (Some a)] => set (cells' := c) end.
    assert (Hrange' : 0 <= a < Z.of_nat (length cells')).
    { subst cells'. destruct (isWritePending (memory m1)); [rewrite length_insert|];
        rewrite E1; exact Hrange. }
    destruct (isReadPending (memory m1)).
    + destruct (Memory_at_in_range cells' a Hrange') as (b & _ & Hb).
      exists a, b. rewrite Hb. auto.
    + exists a, v. auto.
  - cbn. subst m1. unfold caught. cbn. destruct (debug (cpu m)); reflexivity.
Qed.

Lemma ticks_stuck (op pc : Z) (n : nat) (m : Machine) :
  InstructionSet_decodeMapper op = None ->
  stuck_at op pc m ->
  exists m', ticks n m = Ret tt m' /\ stuck_at op pc m'.
Proof.
  intros Hop. revert m. induction n as [|n IH]; intros m Hm.
  { eexists. split; [reflexivity|exact Hm]. }
  cbn [ticks]. unfold Clock_interval. mred.
  destruct (isRunning (clock m)).
  - destruct (Clock_pulse_stuck op pc m Hop Hm) as (m1 & E & Hm1 & _). rewrite E.
    apply IH, Hm1.
  - apply IH, Hm.
Qed.

(** C2, the claim as it stands fails.  The program is the single byte
    0x02.  Once it is fetched the Decode stage raises "Unknown Opcode";
    the pulse catches and logs it, and the stage after the pulse is
    Decode, not Fetch.  The run stays there: no later instruction starts. *)
Lemma C2_unknown_opcode_is_not_skipped :
  step (cpu (run 3 prog_unknown_opcode)) = PipelineStep.Decode /\
  thrown (Cpu_pulse_body (run 3 prog_unknown_opcode)) = Some (UnknownOpcode 0x02) /\
  returned (Cpu_pulse (run 3 prog_unknown_opcode)) = true /\
  step (cpu (machine_of (Cpu_pulse (run 3 prog_unknown_opcode)))) <> PipelineStep.Fetch /\
  console (run 4 prog_unknown_opcode) = [ErrorLine CPU_Error (UnknownOpcode 0x02)] /\
  step (cpu (run 4 prog_unknown_opcode)) = PipelineStep.Decode /\
  step (cpu (run 1000 prog_unknown_opcode)) = PipelineStep.Decode /\
  pcRegister (cpu (run 1000 prog_unknown_opcode)) = 1.
Proof.
  repeat apply conj; try (vm_compute; reflexivity).
  vm_compute. discriminate.
Qed.

(** C2, amended.  A pulse of the Cpu returns: no error leaves it.  An
    error raised inside is caught at the end of the pulse and, when
    debugging is on, reported with its message; the pipeline is not reset,
    the stage after the pulse is the stage in which the error was raised.
    For an opcode outside the table this means that the Cpu stays in
    Decode at that opcode: every later tick raises the error again. *)
Theorem C2_errors_are_caught_and_stage_is_kept (m : Machine) :
  (exists m', Cpu_pulse m = Ret tt m') /\
  (forall e mt, Cpu_pulse_body m = Threw e mt ->
     Cpu_pulse m = Ret tt (caught e mt) /\
     (debug (cpu m) = true -> console (caught e mt) = console mt ++ [ErrorLine CPU_Error e]) /\
     step (cpu (caught e mt)) = step (cpu m)) /\
  (forall op pc, InstructionSet_decodeMapper op = None -> stuck_at op pc m ->
     thrown (Cpu_pulse_body m) = Some (UnknownOpcode op) /\
     forall n, exists m', ticks n m = Ret tt m' /\ stuck_at op pc m').
Proof.
  split; [apply Cpu_pulse_returns|]. split.
  - intros e mt H. split; [apply Cpu_pulse_catches, H|].
    pose proof (Cpu_pulse_body_throw m e mt H) as Hstep.
    assert (Hdebug : debug (cpu mt) = debug (cpu m)).
    { pose proof (Cpu_pulse_body_debug m) as Hd. rewrite H in Hd. exact Hd. }
    unfold caught. rewrite Hdebug. split.
    + intros ->. reflexivity.
    + destruct (debug (cpu m)); exact Hstep.
  - intros op pc Hop Hm. split.
    + destruct Hm as (Hrun & Hload & Hfetch & Hstep & Hopc & _). subst op.
      rewrite Cpu_pulse_unknown_opcode by assumption. reflexivity.
    + intros n. apply ticks_stuck; assumption.
Qed.

Lemma C2_errors_are_caught_and_stage_is_kept_witness :
  exists m', ticks 10 (run 3 prog_unknown_opcode) = Ret tt m' /\ stuck_at 0x02 1 m'.
Proof.
  refine (proj2 (proj2 (proj2 (C2_errors_are_caught_and_stage_is_kept
            (run 3 prog_unknown_opcode))) 0x02 1 _ _) 10%nat).
  - reflexivity.
  - unfold stuck_at. repeat apply conj; try (vm_compute; reflexivity).
    exists 0, 0x02. repeat apply conj; try (vm_compute; reflexivity). lia.
Defined.

(** ** C3: the range of the program counter *)

(** C3 (the code departs from the claim).  The increments of the program
    counter are not reduced modulo 65536.  BNE -3 at address 0 branches to
    0xFFFF (its own addition is masked); the opcode fetch there, of the BRK
    that an empty cell holds, increments the counter to 65536, where it
    stays when the system stops. *)
Theorem C3_pc_increment_leaves_word_range :
  pcRegister (cpu (run 8 prog_branch_to_top)) = 0xFFFF /\
  step (cpu (run 10 prog_branch_to_top)) = PipelineStep.Fetch /\
  pcRegister (cpu (run 11 prog_branch_to_top)) = 65536 /\
  opcode (cpu (run 11 prog_branch_to_top)) = 0x00 /\
  (forall n, (13 <= n)%nat ->
     pcRegister (cpu (run n prog_branch_to_top)) = 65536 /\
     running (system (run n prog_branch_to_top)) = false).
Proof.
  split; [vm_compute; reflexivity|].
  split; [vm_compute; reflexivity|].
  split; [vm_compute; reflexivity|].
  split; [vm_compute; reflexivity|].
  intros n Hn. rewrite (run_stopped 13 n) by (try lia; vm_compute; reflexivity).
  split; vm_compute; reflexivity.
Qed.

(** ** C4: INC applied 256 times *)

(** C4 (the code departs from the claim).  The program is INC $0400
    repeated 256 times and BRK; the cell 0x0400 holds 0 when the load is
    over.  The run reaches BRK with the cell at 0xFF, not at 0: the 256th
    INC latches the value 0, which the gate of the Execute stage takes for
    "no write-back". *)
Theorem C4_inc_256_times_stops_at_FF :
  _isLoading (mmu (run 769 prog_inc_256)) = false /\
  MEMORY (memory (run 769 prog_inc_256)) !! 1024%nat = Some 0 /\
  (forall n, (3600 <= n)%nat ->
     running (system (run n prog_inc_256)) = false /\
     pcRegister (cpu (run n prog_inc_256)) = 769 /\
     writeAddress (cpu (run n prog_inc_256)) = Some 0x0400 /\
     writeValue (cpu (run n prog_inc_256)) = Some 0 /\
     MEMORY (memory (run n prog_inc_256)) !! 1024%nat = Some 0xFF).
Proof.
  split; [vm_compute; reflexivity|].
  split; [vm_compute; reflexivity|].
  intros n Hn. rewrite (run_stopped 3600 n) by (try lia; vm_compute; reflexivity).
  repeat apply conj; vm_compute; reflexivity.
Qed.

(** ** C5: the program load *)

(** While a program loads the Cpu waits. *)
Lemma Cpu_pulse_loading (m : Machine) :
  _isLoading (mmu m) = true -> Cpu_pulse m = Ret tt m.
Proof.
  intros H. unfold Cpu_pulse, try_catch. rewrite Cpu_pulse_body_eq, H.
  destruct (negb (running (system m))); reflexivity.
Qed.

(** A pulse of the Memory during the load: the latched byte is committed
    and the next one, if any, is latched. *)
Lemma Memory_pulse_loading (m : Machine) (a b : Z) :
  MAR (memory m) = Some a ->
  0 <= a < Z.of_nat (length (MEMORY (memory m))) ->
  MDR (memory m) = Num b ->
  isWritePending (memory m) = true ->
  isReadPending (memory m) = false ->
  _isLoading (mmu m) = true ->
  let cells' := <[Z.to_nat a := to_byte b]> (MEMORY (memory m)) in
  Memory_pulse m =
  Ret tt
    match _PROGRAM (mmu m) with
    | byte :: rest =>
        with_mmu {| _PROGRAM := rest;
                    _LOAD_ADDRESS := _LOAD_ADDRESS (mmu m) + 1;
                    _isLoading := true |}
          (with_memory {| MEMORY := cells';
                          MAR := Some (_LOAD_ADDRESS (mmu m));
                          MDR := Num byte;
                          isReadPending := false;
                          isWritePending := true |} m)
    | [] =>
        with_mmu {| _PROGRAM := [];
                    _LOAD_ADDRESS := _LOAD_ADDRESS (mmu m);
                    _isLoading := false |}
          (with_memory {| MEMORY := cells';
                          MAR := Some a;
                          MDR := Num b;
                          isReadPending := false;
                          isWritePending := false |} m)
    end.
Proof.
  intros Hmar Hrange Hmdr Hw Hr Hload cells'. subst cells'.
  destruct m as [c [cells mar mdr rp wp] [queue la loading] s ic ck lg].
  cbn in Hmar, Hrange, Hmdr, Hw, Hr, Hload. subst mar mdr rp wp loading.
  unfold Memory_pulse. mred. cbn [memory isWritePending].
  rewrite (Memory_executeWrite_eq _ a b) by (cbn; assumption || reflexivity).
  unfold MMU_isProgramLoading, MMU_loadProgram, MMU_writeImmediate, Memory_setMAR,
    Memory_setMDR, Memory_write. mred. cbn.
  destruct queue; reflexivity.
Qed.

Lemma loaded_cells_length (size : nat) (program : list Z) (k : nat) :
  (k <= length program)%nat -> (k <= size)%nat ->
  length (loaded_cells size program k) = size.
Proof.
  intros Hk Hs. unfold loaded_cells.
  rewrite length_app, length_fmap, length_take, length_replicate. lia.
Qed.

Lemma loaded_cells_insert (size : nat) (program : list Z) (k : nat) (b : Z) :
  program !! k = Some b -> (k < size)%nat ->
  <[k := to_byte b]> (loaded_cells size program k) = loaded_cells size program (S k).
Proof.
  intros Hb Hs. unfold loaded_cells.
  pose proof (lookup_lt_Some _ _ _ Hb) as Hlt.
  rewrite (take_S_r _ _ _ Hb), fmap_app, <- app_assoc. cbn [fmap list_fmap app].
  replace (size - k)%nat with (S (size - S k)) by lia. cbn [replicate].
  rewrite insert_app_r_alt by (rewrite length_fmap, length_take; lia).
  rewrite length_fmap, length_take.
  replace (k - k `min` length program)%nat with 0%nat by lia. reflexivity.
Qed.

(** One tick of the load. *)
Lemma Clock_pulse_loading (size : nat) (program : list Z) (k : nat) (m : Machine) :
  (k < size)%nat ->
  loading_at size program k m ->
  exists m', Clock_pulse m = Ret tt m' /\
    if (S k <? length program)%nat
    then loading_at size program (S k) m'
    else load_done size program m' /\ S k = length program.
Proof.
  intros Hs (Hq & Hla & Hload & Hmar & (b & Hb & Hmdr) & Hw & Hr & Hcells & Hclk).
  pose proof (lookup_lt_Some _ _ _ Hb) as Hlt.
  unfold Clock_pulse. mred.
  rewrite (Cpu_pulse_loading m Hload).
  rewrite (Memory_pulse_loading m (Z.of_nat k) b); try assumption;
    [|rewrite Hcells, loaded_cells_length by lia; lia].
  rewrite Nat2Z.id, Hcells, loaded_cells_insert, Hq by assumption.
  destruct (S k <? length program)%nat eqn:Hnext.
  - apply Nat.ltb_lt in Hnext.
    destruct (lookup_lt_is_Some_2 program (S k) Hnext) as [b' Hb'].
    erewrite drop_S by exact Hb'.
    rewrite InterruptController_pulse_eq. eexists. split; [reflexivity|].
    unfold loading_at. cbn. rewrite Hla.
    repeat apply conj; try reflexivity; try assumption; [lia|]. exists b'. auto.
  - apply Nat.ltb_ge in Hnext.
    rewrite drop_ge by lia.
    rewrite InterruptController_pulse_eq. eexists. split; [reflexivity|].
    assert (Hlen : length program = S k) by lia.
    unfold load_done. cbn. rewrite Hlen. auto.
Qed.












(** ** C6: one pulse of the Memory *)

(** C6.  [m] is a machine whose MAR holds an address of the array and
    whose MDR holds a byte.  [executeWrite] returns and leaves the cell at
    MAR equal to MDR; [executeRead] returns and leaves MDR equal to the
    cell at MAR.  With a write and a read both latched, a pulse of the
    Memory that returns has stored MDR at MAR first and has then set MDR
    from the array as the write left it.  Outside a program load (a load
    latches the next address and byte between the two) the pulse does
    return, and clears both flags: after a write the cell at MAR equals
    MDR, after a read MDR equals the cell at MAR, and with both latched the
    read yields the value just written. *)
Theorem C6_write_completes_before_read (m : Machine) (a v : Z)
    (Hmar : MAR (memory m) = Some a)
    (Hrange : 0 <= a < Z.of_nat (length (MEMORY (memory m))))
    (Hmdr : MDR (memory m) = Num v)
    (Hbyte : 0 <= v < 256) :
  (exists m', Memory_executeWrite m = Ret tt m' /\
     Memory_at (MEMORY (memory m')) (MAR (memory m')) = MDR (memory m')) /\
  (exists m', Memory_executeRead m = Ret tt m' /\
     MDR (memory m') = Memory_at (MEMORY (memory m')) (MAR (memory m'))) /\
  (forall m', Memory_pulse m = Ret tt m' ->
     isWritePending (memory m) = true -> isReadPending (memory m) = true ->
     MEMORY (memory m') = <[Z.to_nat a := v]> (MEMORY (memory m)) /\
     MDR (memory m') = Memory_at (MEMORY (memory m')) (MAR (memory m'))) /\
  (_isLoading (mmu m) = false ->
   exists m', Memory_pulse m = Ret tt m' /\
     isWritePending (memory m') = false /\
     isReadPending (memory m') = false /\
     MAR (memory m') = Some a /\
     MEMORY (memory m') =
       (if isWritePending (memory m)
        then <[Z.to_nat a := v]> (MEMORY (memory m))
        else MEMORY (memory m)) /\
     MDR (memory m') =
       (if isReadPending (memory m)
        then Memory_at (MEMORY (memory m')) (MAR (memory m'))
        else MDR (memory m)) /\
     (isWritePending (memory m) = true \/ isReadPending (memory m) = true ->
      Memory_at (MEMORY (memory m')) (MAR (memory m')) = MDR (memory m')) /\
     (isWritePending (memory m) = true -> isReadPending (memory m) = true ->
      MDR (memory m') = Num v)).
Proof.
  assert (Hmod : v mod 256 = v) by (apply Z.mod_small; lia).
  split; [|split; [|split]].
  - eexists. split; [apply (Memory_executeWrite_eq m a v); assumption|].
    unfold upd_memory. cbn -[Memory_at].
    rewrite Hmar, Hmdr, Hmod. apply Memory_at_insert. assumption.
  - eexists. split; [apply (Memory_executeRead_eq m a); assumption|].
    unfold upd_memory. cbn -[Memory_at]. rewrite Hmar. reflexivity.
  - intros m' Hret Hw Hr.
    destruct (Memory_pulse_post m m' Hret) as [Hcells Hread].
    rewrite Hw, Hmar, Hmdr, Memory_store_in_range in Hcells by lia.
    cbn [ToUint8] in Hcells. rewrite Hmod in Hcells. auto.
  - intros Hidle.
    eexists. split; [apply (Memory_pulse_idle m a v); assumption|].
    rewrite Hmod. cbn -[Memory_at].
    split; [reflexivity|]. split; [reflexivity|]. split; [reflexivity|].
    split; [reflexivity|]. split; [rewrite Hmdr; reflexivity|].
    split.
    + intros [Hw|Hr].
      * rewrite Hw, Memory_at_insert by assumption.
        destruct (isReadPending (memory m)); reflexivity.
      * rewrite Hr. reflexivity.
    + intros Hw Hr. rewrite Hw, Hr. apply Memory_at_insert. assumption.
Qed.

Lemma C6_write_completes_before_read_witness :
  exists m', Memory_pulse machine_write_and_read = Ret tt m' /\
    MEMORY (memory m') !! 16%nat = Some 0x2A /\ MDR (memory m') = Num 0x2A.
Proof.
  assert (Hrange : 0 <= 0x0010 <
            Z.of_nat (length (MEMORY (memory machine_write_and_read)))).
  { split; [lia|]. vm_compute. reflexivity. }
  destruct (C6_write_completes_before_read machine_write_and_read 0x0010 0x2A
              eq_refl Hrange eq_refl ltac:(lia)) as (_ & _ & _ & H).
  destruct (H eq_refl) as (m' & E & _ & _ & _ & Hcells & _ & _ & Hboth).
  exists m'. split; [exact E|]. split.
  - rewrite Hcells. vm_compute. reflexivity.
  - apply Hboth; reflexivity.
Defined.

(** ** C7: ADC *)

(** The first pulse of ADC in the Execute stage latches the read. *)
Lemma Cpu_pulse_ADC_first (m : Machine) :
  running (system m) = true ->
  _isLoading (mmu m) = false ->
  fetchCount (cpu m) = 0%nat ->
  step (cpu m) = PipelineStep.Execute ->
  currentCyclePulseCount (cpu m) = 0%nat ->
  executeFunction (cpu m) = Some fn_ADC ->
  Cpu_pulse m =
  Ret tt (upd_memory (with_isReadPending true)
           (upd_memory (with_MAR (Some (operand_address (cpu m))))
             (upd_cpu (with_currentCyclePulseCount 1%nat) m))).
Proof.
  intros Hrun Hload Hfetch Hstep Hcount Hfn.
  destruct m as [c me u s ic ck lg]. destruct c, s, u. cbn in *. subst.
  reflexivity.
Qed.

(** The second pulse adds. *)
Lemma Cpu_pulse_ADC_second (m : Machine) (v : Z) :
  running (system m) = true ->
  _isLoading (mmu m) = false ->
  fetchCount (cpu m) = 0%nat ->
  step (cpu m) = PipelineStep.Execute ->
  currentCyclePulseCount (cpu m) = 1%nat ->
  executeFunction (cpu m) = Some fn_ADC ->
  MDR (memory m) = Num v ->
  let c := cpu m in
  let sum := aRegister c + v + (if useCarry c && cRegister c then 1 else 0) in
  Cpu_pulse m =
  Ret tt (upd_cpu (fun c =>
            with_step (if truthy (writeAddress c) && truthy (writeValue c)
                       then PipelineStep.Writeback else PipelineStep.InterruptCheck)
              (with_currentCyclePulseCount 0%nat
                 (with_aRegister (Z.land sum 0xFF)
                    (with_cRegister (0xFF <? sum) c)))) m).
Proof.
  intros Hrun Hload Hfetch Hstep Hcount Hfn Hmdr.
  destruct m as [c me u s ic ck lg]. destruct c, s, u, me. cbn in *. subst.
  reflexivity.
Qed.

Lemma Memory_at_Num (cells : list Z) (a v : Z) :
  Memory_at cells (Some a) = Num v -> 0 <= a < Z.of_nat (length cells).
Proof.
  unfold Memory_at. destruct (0 <=? a) eqn:E; [|discriminate].
  destruct (cells !! Z.to_nat a) eqn:L; [|discriminate].
  intros _. apply lookup_lt_Some in L. lia.
Qed.

(** The table of Instructions.ts sends 0x6D to ADC with two operand bytes. *)
Lemma InstructionSet_decodeMapper_ADC :
  InstructionSet_decodeMapper 0x6D = Some (Cpu_setupDecode 2 Instruction.ADC fn_ADC).
Proof. reflexivity. Qed.

(** C7.  [m] is a machine about to start the Execute stage of ADC, with
    no write latched in the Memory; [v] is the cell at the operand
    address.  Two ticks later A holds [(A + v + carry) & 0xFF], where
    [carry] is 1 when both [use_carry] and C are set and 0 otherwise, C
    tells whether the sum exceeds 0xFF, and Z, X and Y are as before. *)
Theorem C7_ADC_adds_memory_and_carry (m : Machine) (v : Z)
    (Hrun : running (system m) = true)
    (Hload : _isLoading (mmu m) = false)
    (Hfetch : fetchCount (cpu m) = 0%nat)
    (Hstep : step (cpu m) = PipelineStep.Execute)
    (Hcount : currentCyclePulseCount (cpu m) = 0%nat)
    (Hfn : executeFunction (cpu m) = Some fn_ADC)
    (Hwrite : isWritePending (memory m) = false)
    (Hcell : Memory_at (MEMORY (memory m)) (Some (operand_address (cpu m))) = Num v) :
  let sum := aRegister (cpu m) + v +
             (if useCarry (cpu m) && cRegister (cpu m) then 1 else 0) in
  exists m', (Clock_pulse;; Clock_pulse) m = Ret tt m' /\
    aRegister (cpu m') = Z.land sum 0xFF /\
    (cRegister (cpu m') = true <-> sum > 0xFF) /\
    zRegister (cpu m') = zRegister (cpu m) /\
    xRegister (cpu m') = xRegister (cpu m) /\
    yRegister (cpu m') = yRegister (cpu m) /\
    MEMORY (memory m') = MEMORY (memory m).
Proof.
  intros sum. pose proof (Memory_at_Num _ _ _ Hcell) as Hrange.
  unfold Clock_pulse. mred.
  rewrite Cpu_pulse_ADC_first by assumption.
  rewrite (Memory_pulse_read _ (operand_address (cpu m)))
    by (cbn; assumption || reflexivity).
  rewrite InterruptController_pulse_eq.
  cbn [cpu memory upd_cpu upd_memory with_cpu with_memory with_interruptController
       MEMORY with_MAR with_isReadPending].
  rewrite Hcell.
  rewrite (Cpu_pulse_ADC_second _ v) by (cbn; assumption || reflexivity).
  rewrite (Memory_pulse_idle _ (operand_address (cpu m)) v)
    by (cbn; assumption || reflexivity).
  rewrite InterruptController_pulse_eq.
  eexists. split; [reflexivity|]. cbn.
  fold sum. repeat apply conj; try reflexivity.
  - intros H. apply Z.ltb_lt in H. lia.
  - intros H. apply Z.ltb_lt. lia.
Qed.

Lemma C7_ADC_adds_memory_and_carry_witness :
  exists m', (Clock_pulse;; Clock_pulse) (run 42 prog_adc_carry) = Ret tt m' /\
    aRegister (cpu m') = 0x01 /\ cRegister (cpu m') = true.
Proof.
  destruct (C7_ADC_adds_memory_and_carry (run 42 prog_adc_carry) 0xFF)
    as (m' & E & Ha & Hc & _).
  - vm_compute. reflexivity.
  - vm_compute. reflexivity.
  - vm_compute. reflexivity.
  - vm_compute. reflexivity.
  - vm_compute. reflexivity.
  - vm_compute. reflexivity.
  - vm_compute. reflexivity.
  - vm_compute. reflexivity.
  - exists m'. split; [exact E|]. split.
    + rewrite Ha. vm_compute. reflexivity.
    + apply Hc. vm_compute. reflexivity.
Defined.

(** ** C8: the interrupt the controller hands to the Cpu *)

(** The loop, from any running pair: either no interrupt of the list beats
    the running priority, or the result is the first interrupt of the
    greatest priority. *)
Lemma InterruptController_scan_from (ws : list Interrupt) (rp : Z) (ri : option Interrupt) :
  let acc := fold_left
    (fun (acc : Z * option Interrupt) (interrupt : Interrupt) =>
       if fst acc <? priority interrupt
       then (priority interrupt, Some interrupt)
       else acc) ws (rp, ri) in
  (acc = (rp, ri) /\ Forall (fun j => priority j <= rp) ws) \/
  (exists i l1 l2,
     acc = (priority i, Some i) /\ ws = l1 ++ i :: l2 /\ rp < priority i /\
     Forall (fun j => priority j < priority i) l1 /\
     Forall (fun j => priority j <= priority i) l2).
Proof.
  revert rp ri. induction ws as [|w ws IH]; intros rp ri; cbn.
  - left. split; [reflexivity|constructor].
  - destruct (rp <? priority w) eqn:Hlt.
    + apply Z.ltb_lt in Hlt.
      destruct (IH (priority w) (Some w)) as [[E F]|(i & l1 & l2 & E & -> & Hi & F1 & F2)].
      * right. exists w, [], ws. cbn. rewrite E.
        split; [reflexivity|]. split; [reflexivity|]. split; [exact Hlt|].
        split; [constructor|exact F].
      * right. exists i, (w :: l1), l2. rewrite E. cbn.
        split; [reflexivity|]. split; [reflexivity|]. split; [lia|].
        split; [constructor; [lia|exact F1]|exact F2].
    + apply Z.ltb_ge in Hlt.
      destruct (IH rp ri) as [[E F]|(i & l1 & l2 & E & -> & Hi & F1 & F2)].
      * left. rewrite E. split; [reflexivity|]. constructor; [lia|exact F].
      * right. exists i, (w :: l1), l2. rewrite E. cbn.
        split; [reflexivity|]. split; [reflexivity|]. split; [exact Hi|].
        split; [constructor; [lia|exact F1]|exact F2].
Qed.

Lemma InterruptController_scan_spec (ws : list Interrupt) :
  match snd (InterruptController_scan ws) with
  | Some i =>
      -1 < priority i /\
      exists l1 l2, ws = l1 ++ i :: l2 /\
        Forall (fun j => priority j < priority i) l1 /\
        Forall (fun j => priority j <= priority i) l2
  | None => Forall (fun j => priority j <= -1) ws
  end.
Proof.
  unfold InterruptController_scan.
  destruct (InterruptController_scan_from ws (-1) None)
    as [[E F]|(i & l1 & l2 & E & Hws & Hi & F1 & F2)]; cbv zeta in E; rewrite E; cbn.
  - exact F.
  - split; [exact Hi|]. exists l1, l2. auto.
Qed.

(** C8, the claim as it stands fails: a waiting interrupt of priority -1
    is the one of greatest priority in its queue, and the pulse hands
    [null] to the Cpu and drops it. *)
Lemma C8_priority_minus_one_is_dropped :
  waiting machine_with_low_interrupt = [low_interrupt] /\
  snd (InterruptController_scan (waiting machine_with_low_interrupt)) = None /\
  pending (machine_of (InterruptController_pulse machine_with_low_interrupt)) = None /\
  waiting (machine_of (InterruptController_pulse machine_with_low_interrupt)) = [].
Proof. repeat apply conj; vm_compute; reflexivity. Qed.

(** C8, amended.  A pulse of the controller returns with the queue empty.
    Among the waiting interrupts it selects the first one of the greatest
    priority, provided that priority is above -1, and latches it in the
    Cpu; when no waiting interrupt has a priority above -1, in particular
    when none waits, it hands over [null] and the slot of the Cpu is as
    before. *)
Theorem C8_highest_priority_above_minus_one (m : Machine) :
  exists m', InterruptController_pulse m = Ret tt m' /\
    waiting m' = [] /\
    match snd (InterruptController_scan (waiting m)) with
    | Some i =>
        Cpu_setInterrupt (Some i) m = Ret tt (upd_cpu (with_pendingInterrupt (Some i)) m) /\
        pending m' = Some i /\
        -1 < priority i /\
        exists l1 l2, waiting m = l1 ++ i :: l2 /\
          Forall (fun j => priority j < priority i) l1 /\
          Forall (fun j => priority j <= priority i) l2
    | None =>
        Cpu_setInterrupt None m = Ret tt m /\
        pending m' = pending m /\
        Forall (fun j => priority j <= -1) (waiting m)
    end.
Proof.
  pose proof (InterruptController_scan_spec (waiting m)) as Hscan.
  unfold InterruptController_pulse. mred. fold (waiting m).
  destruct (snd (InterruptController_scan (waiting m))) as [i|]; cbn.
  - eexists. split; [reflexivity|]. split; [reflexivity|].
    split; [reflexivity|]. split; [reflexivity|]. exact Hscan.
  - eexists. split; [reflexivity|]. split; [reflexivity|].
    split; [reflexivity|]. split; [reflexivity|]. exact Hscan.
Qed.

(** ** C9: the latches after a string print *)

(** The pulse of SYS 2 or SYS 3 that reads the terminator: the cursor stays
    in [writeAddress], and the next stage is chosen by the two latches. *)
Lemma Cpu_pulse_SYS_print_done (m : Machine) (n : nat) (cursor : Z) :
  running (system m) = true ->
  _isLoading (mmu m) = false ->
  fetchCount (cpu m) = 0%nat ->
  step (cpu m) = PipelineStep.Execute ->
  currentCyclePulseCount (cpu m) = S n ->
  executeFunction (cpu m) = Some fn_SYS ->
  xRegister (cpu m) = 0x02 \/ xRegister (cpu m) = 0x03 ->
  writeAddress (cpu m) = Some cursor ->
  MDR (memory m) = Num 0x00 ->
  Cpu_pulse m =
  Ret tt (upd_cpu (fun c =>
            with_step (if truthy (Some cursor) && truthy (writeValue c)
                       then PipelineStep.Writeback else PipelineStep.InterruptCheck)
              (with_currentCyclePulseCount 0%nat c)) m).
Proof.
  intros Hrun Hload Hfetch Hstep Hcount Hfn Hx Hwa Hmdr.
  destruct m as [c me u s ic ck lg]. destruct c, s, u, me. cbn in *. subst.
  destruct Hx as [-> | ->]; reflexivity.
Qed.

(** With [write_value] null at that pulse, as it is unless a write-back
    was skipped earlier, no Writeback follows the print and the cursor
    stays latched. *)
Lemma Cpu_pulse_SYS_print_done_null (m : Machine) (n : nat) (cursor : Z) :
  running (system m) = true ->
  _isLoading (mmu m) = false ->
  fetchCount (cpu m) = 0%nat ->
  step (cpu m) = PipelineStep.Execute ->
  currentCyclePulseCount (cpu m) = S n ->
  executeFunction (cpu m) = Some fn_SYS ->
  xRegister (cpu m) = 0x02 \/ xRegister (cpu m) = 0x03 ->
  writeAddress (cpu m) = Some cursor ->
  MDR (memory m) = Num 0x00 ->
  writeValue (cpu m) = None ->
  let m' := machine_of (Cpu_pulse m) in
  step (cpu m') = PipelineStep.InterruptCheck /\
  writeAddress (cpu m') = Some cursor /\
  writeValue (cpu m') = None.
Proof.
  intros Hrun Hload Hfetch Hstep Hcount Hfn Hx Hwa Hmdr Hwv.
  rewrite (Cpu_pulse_SYS_print_done m n cursor) by assumption. cbn.
  rewrite Hwv, Hwa. cbn. rewrite andb_false_r. auto.
Qed.

(** C9 (the code departs from the claim).  INC $0000 latches address 0
    and value 0xEF and, its write-back being skipped, leaves them latched.
    The SYS call that follows (X = 2, Y = 9) prints "H" and ends with the
    cursor on the terminator at 0x000A and with [write_value] still 0xEF:
    the next stage is Writeback, which overwrites the terminator. *)
Theorem C9_stale_write_value_is_written_back :
  executeFunction (cpu (run 40 prog_inc_then_print)) = Some fn_SYS /\
  step (cpu (run 40 prog_inc_then_print)) = PipelineStep.Execute /\
  MEMORY (memory (run 40 prog_inc_then_print)) !! 10%nat = Some 0 /\
  step (cpu (run 41 prog_inc_then_print)) = PipelineStep.Writeback /\
  writeAddress (cpu (run 41 prog_inc_then_print)) = Some 0x000A /\
  writeValue (cpu (run 41 prog_inc_then_print)) = Some 0xEF /\
  MEMORY (memory (run 43 prog_inc_then_print)) !! 10%nat = Some 0xEF.
Proof.
  repeat apply conj; vm_compute; reflexivity.
Qed.

(** ** C10: a pending interrupt and the empty queue *)

Lemma Cpu_pulse_pending (m : Machine) :
  at_InterruptCheck m = false ->
  pending (machine_of (Cpu_pulse m)) = pending m.
Proof.
  intros Hic.
  assert (Hcatch : forall x : M unit, keeps stage_frame x ->
            pending (machine_of (try_catch x (Cpu_log_error CPU_Error) m)) = pending m).
  { intros x Hx.
    assert (K : keeps stage_frame (try_catch x (Cpu_log_error CPU_Error))).
    { apply keeps_try_catch; [apply _|exact Hx|intros e; unfold_methods; keeps_auto]. }
    apply (K m). }
  unfold Cpu_pulse, try_catch. rewrite Cpu_pulse_body_eq.
  unfold at_InterruptCheck in Hic.
  destruct (running (system m)); cbn [negb]; [|reflexivity].
  destruct (_isLoading (mmu m)); cbn [negb]; [reflexivity|].
  destruct (0 <? fetchCount (cpu m))%nat eqn:Hf.
  { apply (Hcatch Cpu_handleAdditionalFetches).
    eapply keeps_weaken; [apply micro_stage_frame|apply Cpu_handleAdditionalFetches_frame]. }
  apply Nat.ltb_ge in Hf. assert (fetchCount (cpu m) = 0%nat) as Hz by lia.
  rewrite Hz in Hic. cbn in Hic.
  destruct (step (cpu m)); try discriminate;
    match goal with
    | |- pending (machine_of match ?x m with _ => _ end) = _ => apply (Hcatch x)
    end; (kbind; [keeps_auto|intros _]).
  - keeps_auto.
  - apply Cpu_pulse_Fetch_frame.
  - apply Cpu_pulse_Decode_frame.
  - apply Cpu_pulse_Execute_frame.
  - apply Cpu_pulse_Writeback_frame.
Qed.

(** The InterruptCheck stage empties the slot, whether or not it stops
    the system. *)
Lemma Cpu_pulse_clears_pending (m : Machine) :
  at_InterruptCheck m = true ->
  pending (machine_of (Cpu_pulse m)) = None.
Proof.
  unfold at_InterruptCheck. intros Hic.
  destruct m as [c me u [r cp po] ic ck lg]. cbn in Hic.
  destruct r; [|discriminate].
  destruct (_isLoading u) eqn:Hload; [discriminate|].
  destruct (fetchCount c) eqn:Hfetch; [|discriminate].
  destruct (step c) eqn:Hstep; try discriminate.
  unfold Cpu_pulse, try_catch. rewrite Cpu_pulse_body_eq. cbn.
  rewrite Hload, Hfetch, Hstep. cbn.
  unfold Cpu_pulse_InterruptCheck. mred. cbn.
  match goal with |- context [if ?b then _ else _] => destruct b end.
  - unfold System_stopSystem. mred. cbn.
    unfold System_handleProgramCompletion. mred. cbn.
    destruct cp; reflexivity.
  - reflexivity.
Qed.

Lemma InterruptController_pulse_empty (m : Machine) :
  waiting m = [] ->
  exists m', InterruptController_pulse m = Ret tt m' /\
    pending m' = pending m /\ waiting m' = [].
Proof.
  unfold waiting. intros Hw. unfold InterruptController_pulse. mred. rewrite Hw. cbn.
  eexists. split; [reflexivity|]. split; reflexivity.
Qed.

Lemma Clock_pulse_pending (m : Machine) :
  waiting m = [] ->
  at_InterruptCheck m = false ->
  pending (machine_of (Clock_pulse m)) = pending m /\
  (returned (Clock_pulse m) = true -> waiting (machine_of (Clock_pulse m)) = []).
Proof.
  intros Hw Hic. unfold Clock_pulse. mred.
  destruct (Cpu_pulse_returns m) as [m1 E1].
  pose proof (Cpu_pulse_pending m Hic) as P1.
  pose proof (Cpu_pulse_frame m) as [_ W1].
  rewrite E1 in *. cbn in P1, W1. specialize (W1 Hw).
  pose proof (Memory_pulse_frame m1) as (C2 & _ & I2 & _).
  destruct (Memory_pulse m1) as [[] m2|e m2]; cbn in C2, I2.
  - destruct (InterruptController_pulse_empty m2) as (m3 & E3 & P3 & W3).
    { unfold waiting. rewrite I2. exact W1. }
    rewrite E3. cbn. split; [|intros _; exact W3].
    rewrite P3. unfold pending. rewrite C2. exact P1.
  - cbn. split; [|discriminate]. unfold pending. rewrite C2. exact P1.
Qed.

(** C10.  [setInterrupt(null)] changes nothing.  Hence, from a machine
    whose controller has nothing waiting and to which no interrupt is
    handed, the interrupt latched in the Cpu is the same after [n] ticks,
    as long as none of these ticks is spent in the InterruptCheck stage;
    a tick spent there empties the slot. *)
Theorem C10_pending_interrupt_persists (n : nat) (m : Machine)
    (Hwaiting : waiting m = [])
    (Hstage : forall k, (k < n)%nat ->
                at_InterruptCheck (machine_of (ticks k m)) = false) :
  Cpu_setInterrupt None m = Ret tt m /\
  pending (machine_of (ticks n m)) = pending m /\
  (at_InterruptCheck (machine_of (ticks n m)) = true ->
   pending (machine_of (Cpu_pulse (machine_of (ticks n m)))) = None).
Proof.
  split; [reflexivity|]. split; [|apply Cpu_pulse_clears_pending].
  revert m Hwaiting Hstage. induction n as [|n IH]; intros m Hw Hs; [reflexivity|].
  assert (H0 : at_InterruptCheck m = false) by (apply (Hs 0%nat); lia).
  assert (Hk : forall k, (k < n)%nat ->
            at_InterruptCheck (machine_of (ticks (S k) m)) = false)
    by (intros k Hk; apply Hs; lia).
  cbn [ticks] in *. unfold Clock_interval in *. mred. mred_in Hk.
  destruct (isRunning (clock m)).
  - destruct (Clock_pulse_pending m Hw H0) as [P W].
    destruct (Clock_pulse m) as [[] m1|e m1]; cbn in P, W; [|exact P].
    rewrite <- P. apply IH; [apply W; reflexivity|exact Hk].
  - apply IH; assumption.
Qed.

Lemma C10_pending_interrupt_persists_witness :
  pending (machine_of (ticks 12 machine_with_key)) = Some (key_interrupt 120).
Proof.
  refine (eq_trans (proj1 (proj2 (C10_pending_interrupt_persists 12 machine_with_key _ _))) _).
  - vm_compute. reflexivity.
  - intros k Hk.
    do 12 (destruct k as [|k]; [vm_compute; reflexivity|]). lia.
  - vm_compute. reflexivity.
Defined.

(** * More properties of the code *)

(** ** From one instruction to the next *)

(** *** The three kinds of tick *)

Lemma between_instructions_spec (m : Machine) :
  between_instructions m = true <->
  running (system m) = true /\ isRunning (clock m) = true /\ _isLoading (mmu m) = false /\
  step (cpu m) = PipelineStep.Fetch /\ currentCyclePulseCount (cpu m) = 0%nat /\
  fetchCount (cpu m) = 0%nat /\ currentFetch (cpu m) = 0%nat /\
  isReadPending (memory m) = false /\ isWritePending (memory m) = false /\
  truthy (writeAddress (cpu m)) && truthy (writeValue (cpu m)) = false /\
  pending m = None /\ waiting m = [].
Proof.
  unfold between_instructions.
  rewrite !andb_true_iff, !negb_true_iff, !Nat.eqb_eq.
  destruct (step (cpu m)), (pending m), (waiting m); intuition congruence.
Qed.

(** The three kinds of tick. *)
Lemma Clock_pulse_quiet (m m1 : Machine) (a v : Z) :
  Cpu_pulse m = Ret tt m1 ->
  isWritePending (memory m1) = false ->
  isReadPending (memory m1) = false ->
  MAR (memory m1) = Some a ->
  MDR (memory m1) = Num v ->
  waiting m1 = [] ->
  Clock_pulse m = Ret tt m1.
Proof.
  intros E Hw Hr Hmar Hmdr Hq. unfold Clock_pulse. mred. rewrite E.
  destruct m1 as [c [cells mar mdr rp wp] u s [q] ck lg]. cbn in *. subst.
  unfold Memory_pulse. mred. cbn. rewrite InterruptController_pulse_eq. cbn.
  destruct c; reflexivity.
Qed.

Lemma Clock_pulse_read (m m1 : Machine) (a : Z) :
  Cpu_pulse m = Ret tt m1 ->
  isWritePending (memory m1) = false ->
  isReadPending (memory m1) = true ->
  MAR (memory m1) = Some a ->
  0 <= a < Z.of_nat (length (MEMORY (memory m1))) ->
  waiting m1 = [] ->
  Clock_pulse m =
  Ret tt (with_memory
    {| MEMORY := MEMORY (memory m1);
       MAR := Some a;
       MDR := Memory_at (MEMORY (memory m1)) (Some a);
       isReadPending := false;
       isWritePending := false |} m1).
Proof.
  intros E Hw Hr Hmar Hrange Hq. unfold Clock_pulse. mred. rewrite E.
  rewrite (Memory_pulse_read m1 a) by assumption.
  rewrite InterruptController_pulse_eq.
  destruct m1 as [c me u s [q] ck lg]. cbn in *. subst.
  destruct c; reflexivity.
Qed.

Lemma Clock_pulse_write (m m1 : Machine) (a v : Z) :
  Cpu_pulse m = Ret tt m1 ->
  isWritePending (memory m1) = true ->
  isReadPending (memory m1) = false ->
  MAR (memory m1) = Some a ->
  0 <= a < Z.of_nat (length (MEMORY (memory m1))) ->
  MDR (memory m1) = Num v ->
  _isLoading (mmu m1) = false ->
  waiting m1 = [] ->
  Clock_pulse m =
  Ret tt (with_memory
    {| MEMORY := <[Z.to_nat a := v mod 256]> (MEMORY (memory m1));
       MAR := Some a;
       MDR := Num v;
       isReadPending := false;
       isWritePending := false |} m1).
Proof.
  intros E Hw Hr Hmar Hrange Hmdr Hload Hq. unfold Clock_pulse. mred. rewrite E.
  rewrite (Memory_pulse_idle m1 a v) by assumption.
  rewrite InterruptController_pulse_eq. rewrite Hw, Hr.
  destruct m1 as [c me u s [q] ck lg]. cbn in *. subst.
  destruct c; reflexivity.
Qed.

(** *** The pulses of the stages as equations *)

Ltac pulse_eq :=
  match goal with |- context [Cpu_pulse ?m] =>
    destruct m as [c me u s ic ck lg]; destruct c, s, u, me; cbn in *; subst; reflexivity
  end.

Lemma Cpu_pulse_Fetch_first (m : Machine) :
  running (system m) = true ->
  _isLoading (mmu m) = false ->
  fetchCount (cpu m) = 0%nat ->
  step (cpu m) = PipelineStep.Fetch ->
  currentCyclePulseCount (cpu m) = 0%nat ->
  Cpu_pulse m =
  Ret tt (upd_memory (with_isReadPending true)
           (upd_memory (with_MAR (Some (pcRegister (cpu m))))
             (upd_cpu (with_currentCyclePulseCount 1%nat) m))).
Proof. intros. pulse_eq. Qed.

Lemma Cpu_pulse_Fetch_second (m : Machine) (v : Z) :
  running (system m) = true ->
  _isLoading (mmu m) = false ->
  fetchCount (cpu m) = 0%nat ->
  step (cpu m) = PipelineStep.Fetch ->
  currentCyclePulseCount (cpu m) = 1%nat ->
  MDR (memory m) = Num v ->
  Cpu_pulse m =
  Ret tt (upd_cpu (fun c =>
            with_step PipelineStep.Decode
              (with_currentCyclePulseCount 0%nat
                 (with_pcRegister (pcRegister c + 1) (with_opcode v c)))) m).
Proof. intros. pulse_eq. Qed.

Lemma Cpu_pulse_Decode_eq (m : Machine) (n : nat) (i : Instruction.t) (f : ExecuteFn) :
  running (system m) = true ->
  _isLoading (mmu m) = false ->
  fetchCount (cpu m) = 0%nat ->
  step (cpu m) = PipelineStep.Decode ->
  InstructionSet_decodeMapper (opcode (cpu m)) = Some (Cpu_setupDecode n i f) ->
  Cpu_pulse m =
  Ret tt (upd_cpu (fun c =>
            with_step PipelineStep.Execute
              (with_currentCyclePulseCount 0%nat
                 (with_executeFunction (Some f)
                    (with_iRegister i (with_fetchCount n c))))) m).
Proof.
  intros Hrun Hload Hfetch Hstep Hdec.
  unfold Cpu_pulse, try_catch. rewrite Cpu_pulse_body_eq, Hrun, Hload, Hfetch, Hstep.
  cbn [negb Nat.ltb Nat.leb]. unfold Cpu_pulse_Decode. mred.
  cbn [cpu upd_cpu with_cpu opcode with_currentCyclePulseCount].
  rewrite Hdec. destruct m as [c me u s ic ck lg]; destruct c. reflexivity.
Qed.

Lemma Cpu_pulse_Decode_SYS (m : Machine) :
  running (system m) = true ->
  _isLoading (mmu m) = false ->
  fetchCount (cpu m) = 0%nat ->
  step (cpu m) = PipelineStep.Decode ->
  opcode (cpu m) = 0xFF ->
  Cpu_pulse m =
  Ret tt (upd_cpu (fun c =>
            with_step PipelineStep.Execute
              (with_currentCyclePulseCount 0%nat
                 (with_executeFunction (Some fn_SYS)
                    (with_iRegister Instruction.SYS
                       (with_fetchCount (if xRegister c =? 0x03 then 2%nat else 0%nat) c))))) m).
Proof.
  intros Hrun Hload Hfetch Hstep Hop.
  destruct m as [c me u s ic ck lg]; destruct c, s, u, me; cbn in *; subst.
  unfold Cpu_pulse, try_catch, Cpu_pulse_body, Cpu_pulse_Decode, upd_cpu. mred. cbn.
  unfold Cpu_setupDecode, upd_cpu. mred. cbn.
  match goal with |- context [?x =? 3] => destruct (x =? 3) end; reflexivity.
Qed.

Lemma Cpu_pulse_operand_first (m : Machine) :
  running (system m) = true ->
  _isLoading (mmu m) = false ->
  (0 < fetchCount (cpu m))%nat ->
  currentCyclePulseCount (cpu m) = 0%nat ->
  Cpu_pulse m =
  Ret tt (upd_memory (with_isReadPending true)
           (upd_memory (with_MAR (Some (pcRegister (cpu m))))
             (upd_cpu (with_currentCyclePulseCount 1%nat) m))).
Proof.
  intros Hrun Hload Hfetch Hcount.
  destruct m as [c me u s ic ck lg]; destruct c, s, u, me; cbn in *; subst.
  match goal with H : (_ < ?n)%nat |- _ => is_var n; destruct n; [lia|] end. reflexivity.
Qed.

(** The second pulse of an operand fetch that is not the last. *)
Lemma Cpu_pulse_operand_second (m : Machine) (v : Z) :
  running (system m) = true ->
  _isLoading (mmu m) = false ->
  (S (currentFetch (cpu m)) < fetchCount (cpu m))%nat ->
  currentCyclePulseCount (cpu m) = 1%nat ->
  MDR (memory m) = Num v ->
  Cpu_pulse m =
  Ret tt (upd_cpu (fun c =>
            with_currentCyclePulseCount 0%nat
              (with_currentFetch (S (currentFetch c))
                 (with_pcRegister (pcRegister c + 1)
                    (with_operand (array_set (operand c) (currentFetch c) v) c)))) m).
Proof.
  intros Hrun Hload Hfetch Hcount Hmdr.
  destruct m as [c me u s ic ck lg]; destruct c, s, u, me; cbn in *; subst.
  match goal with H : (_ < ?n)%nat |- _ => is_var n; destruct n; [lia|] end.
  unfold Cpu_pulse, Cpu_pulse_body, Cpu_handleAdditionalFetches, rethrow_logged, try_catch,
    MMU_getMDR, Memory_getMDR, hexLog, upd_cpu.
  mred. cbn.
  match goal with |- context [(?a <=? ?b)%nat] => destruct (Nat.leb_spec a b) end; [lia|].
  reflexivity.
Qed.

(** The second pulse of the last operand fetch. *)
Lemma Cpu_pulse_operand_last (m : Machine) (v : Z) :
  running (system m) = true ->
  _isLoading (mmu m) = false ->
  (0 < fetchCount (cpu m))%nat ->
  (fetchCount (cpu m) <= S (currentFetch (cpu m)))%nat ->
  currentCyclePulseCount (cpu m) = 1%nat ->
  MDR (memory m) = Num v ->
  Cpu_pulse m =
  Ret tt (upd_cpu (fun c =>
            with_currentFetch 0%nat
              (with_fetchCount 0%nat
                 (with_currentCyclePulseCount 0%nat
                    (with_pcRegister (pcRegister c + 1)
                       (with_operand (array_set (operand c) (currentFetch c) v) c))))) m).
Proof.
  intros Hrun Hload Hfetch Hlast Hcount Hmdr.
  destruct m as [c me u s ic ck lg]; destruct c, s, u, me; cbn in *; subst.
  match goal with H : (_ < ?n)%nat |- _ => is_var n; destruct n; [lia|] end.
  unfold Cpu_pulse, Cpu_pulse_body, Cpu_handleAdditionalFetches, rethrow_logged, try_catch,
    MMU_getMDR, Memory_getMDR, hexLog, upd_cpu.
  mred. cbn.
  match goal with |- context [(?a <=? ?b)%nat] => destruct (Nat.leb_spec a b) end; [|lia].
  reflexivity.
Qed.

Lemma Cpu_pulse_InterruptCheck_none (m : Machine) :
  running (system m) = true ->
  _isLoading (mmu m) = false ->
  fetchCount (cpu m) = 0%nat ->
  step (cpu m) = PipelineStep.InterruptCheck ->
  pending m = None ->
  Cpu_pulse m =
  Ret tt (upd_cpu (fun c =>
            with_step PipelineStep.Fetch (with_currentCyclePulseCount 0%nat c)) m).
Proof.
  unfold pending. intros.
  destruct m as [c me u s ic ck lg]; destruct c, s, u, me; cbn in *; subst. reflexivity.
Qed.

Lemma Cpu_pulse_Writeback_eq (m : Machine) (a v : Z) :
  running (system m) = true ->
  _isLoading (mmu m) = false ->
  fetchCount (cpu m) = 0%nat ->
  step (cpu m) = PipelineStep.Writeback ->
  writeAddress (cpu m) = Some a ->
  writeValue (cpu m) = Some v ->
  Cpu_pulse m =
  Ret tt (upd_cpu (fun c =>
            with_step PipelineStep.InterruptCheck
              (with_writeValue None
                 (with_writeAddress None (with_currentCyclePulseCount 0%nat c))))
           (upd_memory (fun me =>
              with_isWritePending true (with_MDR (Num v) (with_MAR (Some a) me))) m)).
Proof. intros. pulse_eq. Qed.

Lemma tick_cpu (m : Machine) (c : Cpu) (a v : Z) :
  Cpu_pulse m = Ret tt (with_cpu c m) ->
  isWritePending (memory m) = false ->
  isReadPending (memory m) = false ->
  MAR (memory m) = Some a ->
  MDR (memory m) = Num v ->
  waiting m = [] ->
  Clock_pulse m = Ret tt (cpu_tick c m).
Proof.
  intros E Hw Hr Hmar Hmdr Hq.
  apply (Clock_pulse_quiet m _ a v E); assumption.
Qed.

Lemma tick_read (m : Machine) (c : Cpu) (a : Z) :
  Cpu_pulse m =
    Ret tt (upd_memory (with_isReadPending true)
             (upd_memory (with_MAR (Some a)) (with_cpu c m))) ->
  isWritePending (memory m) = false ->
  0 <= a < Z.of_nat (length (MEMORY (memory m))) ->
  waiting m = [] ->
  Clock_pulse m = Ret tt (read_tick c a m).
Proof.
  intros E Hw Hrange Hq.
  rewrite (Clock_pulse_read m _ a E); try assumption; reflexivity.
Qed.

Lemma tick_write (m : Machine) (c : Cpu) (a v : Z) :
  Cpu_pulse m =
    Ret tt (with_cpu c
             (upd_memory (fun me =>
                with_isWritePending true (with_MDR (Num v) (with_MAR (Some a) me))) m)) ->
  isReadPending (memory m) = false ->
  0 <= a < Z.of_nat (length (MEMORY (memory m))) ->
  _isLoading (mmu m) = false ->
  waiting m = [] ->
  Clock_pulse m = Ret tt (write_tick c a v m).
Proof.
  intros E Hr Hrange Hload Hq.
  rewrite (Clock_pulse_write m _ a v E); try assumption; reflexivity.
Qed.

(** *** Fetch, Decode and the operand bytes *)

Lemma Cpu_pulse_Decode_to (m : Machine) (n : nat) (i : Instruction.t) (f : ExecuteFn) :
  running (system m) = true ->
  _isLoading (mmu m) = false ->
  fetchCount (cpu m) = 0%nat ->
  step (cpu m) = PipelineStep.Decode ->
  decodes_to (opcode (cpu m)) (xRegister (cpu m)) n i f ->
  Cpu_pulse m =
  Ret tt (upd_cpu (fun c =>
            with_step PipelineStep.Execute
              (with_currentCyclePulseCount 0%nat
                 (with_executeFunction (Some f)
                    (with_iRegister i (with_fetchCount n c))))) m).
Proof.
  intros Hrun Hload Hfetch Hstep (d & Hd & Hdm).
  unfold Cpu_pulse, try_catch. rewrite Cpu_pulse_body_eq, Hrun, Hload, Hfetch, Hstep.
  cbn [negb Nat.ltb Nat.leb]. unfold Cpu_pulse_Decode. mred.
  cbn [cpu upd_cpu with_cpu opcode with_currentCyclePulseCount].
  rewrite Hd. rewrite Hdm by (destruct m as [[] ?]; reflexivity).
  destruct m as [c me u s ic ck lg]; destruct c. reflexivity.
Qed.

Ltac side :=
  cbn; first [assumption | reflexivity | lia | eassumption | (split; lia)].

Ltac next_tick Hclk :=
  rewrite ticks_S;
  cbn [clock cpu_tick read_tick write_tick with_memory with_cpu];
  rewrite Hclk.

(** The three ticks of Fetch and Decode. *)
Lemma ticks_decode (m : Machine) (op : Z) (n : nat) (i : Instruction.t) (f : ExecuteFn) :
  running (system m) = true ->
  isRunning (clock m) = true ->
  _isLoading (mmu m) = false ->
  step (cpu m) = PipelineStep.Fetch ->
  currentCyclePulseCount (cpu m) = 0%nat ->
  fetchCount (cpu m) = 0%nat ->
  isWritePending (memory m) = false ->
  waiting m = [] ->
  Memory_at (MEMORY (memory m)) (Some (pcRegister (cpu m))) = Num op ->
  decodes_to op (xRegister (cpu m)) n i f ->
  ticks 3 m =
  Ret tt (with_memory
    {| MEMORY := MEMORY (memory m); MAR := Some (pcRegister (cpu m)); MDR := Num op;
       isReadPending := false; isWritePending := false |}
    (upd_cpu (fun c =>
       with_step PipelineStep.Execute
         (with_executeFunction (Some f)
            (with_iRegister i
               (with_fetchCount n
                  (with_pcRegister (pcRegister c + 1) (with_opcode op c)))))) m)).
Proof.
  intros Hrun Hclk Hload Hstep Hcount Hfetch Hw Hq Hop Hdec.
  pose proof (Memory_at_Num _ _ _ Hop) as Hpc.
  next_tick Hclk.
  rewrite (tick_read m (with_currentCyclePulseCount 1%nat (cpu m)) (pcRegister (cpu m)))
    by first [apply Cpu_pulse_Fetch_first; assumption | assumption].
  next_tick Hclk.
  erewrite (tick_cpu _ _ (pcRegister (cpu m)) op);
    [|rewrite (Cpu_pulse_Fetch_second _ op) by side; reflexivity|side..].
  next_tick Hclk.
  erewrite (tick_cpu _ _ (pcRegister (cpu m)) op);
    [|rewrite (Cpu_pulse_Decode_to _ n i f) by side; reflexivity|side..].
  unfold cpu_tick, read_tick. cbn -[Memory_at]. rewrite Hop.
  destruct m as [[] me u s ic ck lg]. cbn in *. subst. reflexivity.
Qed.

Lemma array_get_set (arr : list Z) (i : nat) (v : Z) :
  array_get (array_set arr i v) i = Num v.
Proof.
  unfold array_get, array_set.
  destruct (Nat.ltb_spec i (length arr)) as [Hi|Hi].
  - rewrite list_lookup_insert_eq by exact Hi. reflexivity.
  - rewrite lookup_app_r by exact Hi.
    rewrite lookup_app_r by (rewrite length_replicate; lia).
    rewrite length_replicate, Nat.sub_diag. reflexivity.
Qed.

Lemma array_get_set_below (arr : list Z) (i j : nat) (v : Z) :
  (i < j)%nat -> (i < length arr)%nat ->
  array_get (array_set arr j v) i = array_get arr i.
Proof.
  intros Hij Hi. unfold array_get, array_set.
  destruct (Nat.ltb_spec j (length arr)) as [Hj|Hj].
  - rewrite list_lookup_insert_ne by lia. reflexivity.
  - rewrite lookup_app_l by exact Hi. reflexivity.
Qed.

Lemma length_array_set (arr : list Z) (i : nat) (v : Z) :
  (i < length (array_set arr i v))%nat.
Proof.
  unfold array_set. destruct (Nat.ltb_spec i (length arr)) as [Hi|Hi].
  - rewrite length_insert. exact Hi.
  - rewrite !length_app, length_replicate. cbn. lia.
Qed.

(** The two pulses of the last operand fetch. *)
Lemma ticks_operand_last (m : Machine) (b : Z) :
  running (system m) = true ->
  isRunning (clock m) = true ->
  _isLoading (mmu m) = false ->
  currentCyclePulseCount (cpu m) = 0%nat ->
  fetchCount (cpu m) = S (currentFetch (cpu m)) ->
  isWritePending (memory m) = false ->
  waiting m = [] ->
  Memory_at (MEMORY (memory m)) (Some (pcRegister (cpu m))) = Num b ->
  ticks 2 m =
  Ret tt (with_memory
    {| MEMORY := MEMORY (memory m); MAR := Some (pcRegister (cpu m)); MDR := Num b;
       isReadPending := false; isWritePending := false |}
    (upd_cpu (fun c =>
       with_currentFetch 0%nat
         (with_fetchCount 0%nat
            (with_pcRegister (pcRegister c + 1)
               (with_operand (array_set (operand c) (currentFetch c) b) c)))) m)).
Proof.
  intros Hrun Hclk Hload Hcount Hfetch Hw Hq Hb.
  pose proof (Memory_at_Num _ _ _ Hb) as Hpc.
  next_tick Hclk.
  erewrite (tick_read m _ (pcRegister (cpu m)));
    [|rewrite Cpu_pulse_operand_first by (assumption || lia); reflexivity|assumption..].
  next_tick Hclk.
  erewrite (tick_cpu _ _ (pcRegister (cpu m)) b);
    [|rewrite (Cpu_pulse_operand_last _ b) by (side || (cbn; lia)); reflexivity|side..].
  unfold cpu_tick, read_tick. cbn -[Memory_at]. rewrite Hb.
  destruct m as [[] me u s ic ck lg]. cbn -[Memory_at] in *. subst. reflexivity.
Qed.

(** The two pulses of an operand fetch that is not the last. *)
Lemma ticks_operand_more (m : Machine) (b : Z) :
  running (system m) = true ->
  isRunning (clock m) = true ->
  _isLoading (mmu m) = false ->
  currentCyclePulseCount (cpu m) = 0%nat ->
  (S (currentFetch (cpu m)) < fetchCount (cpu m))%nat ->
  isWritePending (memory m) = false ->
  waiting m = [] ->
  Memory_at (MEMORY (memory m)) (Some (pcRegister (cpu m))) = Num b ->
  ticks 2 m =
  Ret tt (with_memory
    {| MEMORY := MEMORY (memory m); MAR := Some (pcRegister (cpu m)); MDR := Num b;
       isReadPending := false; isWritePending := false |}
    (upd_cpu (fun c =>
       with_currentFetch (S (currentFetch c))
         (with_pcRegister (pcRegister c + 1)
            (with_operand (array_set (operand c) (currentFetch c) b) c))) m)).
Proof.
  intros Hrun Hclk Hload Hcount Hfetch Hw Hq Hb.
  pose proof (Memory_at_Num _ _ _ Hb) as Hpc.
  next_tick Hclk.
  erewrite (tick_read m _ (pcRegister (cpu m)));
    [|rewrite Cpu_pulse_operand_first by (assumption || lia); reflexivity|assumption..].
  next_tick Hclk.
  erewrite (tick_cpu _ _ (pcRegister (cpu m)) b);
    [|rewrite (Cpu_pulse_operand_second _ b) by (side || (cbn; lia)); reflexivity|side..].
  unfold cpu_tick, read_tick. cbn -[Memory_at]. rewrite Hb.
  destruct m as [[] me u s ic ck lg]. cbn -[Memory_at] in *. subst. reflexivity.
Qed.

Lemma cells_at_cons (cells : list Z) (a b : Z) (bytes : list Z) :
  cells_at cells a (b :: bytes) ->
  Memory_at cells (Some a) = Num b /\ cells_at cells (a + 1) bytes.
Proof.
  intros H. split.
  - specialize (H 0%nat b eq_refl). rewrite Z.add_0_r in H. exact H.
  - intros k c Hk. specialize (H (S k) c Hk).
    replace (a + 1 + Z.of_nat k) with (a + Z.of_nat (S k)) by lia. exact H.
Qed.

Lemma ticks_operands (bytes : list Z) : forall (m : Machine),
  bytes <> [] ->
  running (system m) = true ->
  isRunning (clock m) = true ->
  _isLoading (mmu m) = false ->
  currentCyclePulseCount (cpu m) = 0%nat ->
  fetchCount (cpu m) = (currentFetch (cpu m) + length bytes)%nat ->
  isWritePending (memory m) = false ->
  waiting m = [] ->
  cells_at (MEMORY (memory m)) (pcRegister (cpu m)) bytes ->
  ticks (2 * length bytes) m =
  Ret tt (with_memory
    {| MEMORY := MEMORY (memory m);
       MAR := Some (pcRegister (cpu m) + Z.of_nat (length bytes) - 1);
       MDR := Num (List.last bytes 0);
       isReadPending := false; isWritePending := false |}
    (upd_cpu (fun c =>
       with_currentFetch 0%nat
         (with_fetchCount 0%nat
            (with_pcRegister (pcRegister c + Z.of_nat (length bytes))
               (with_operand (store_operands (operand c) (currentFetch c) bytes) c)))) m)).
Proof.
  induction bytes as [|b rest IH]; intros m Hne Hrun Hclk Hload Hcount Hfetch Hw Hq Hcells;
    [congruence|].
  apply cells_at_cons in Hcells as [Hb Hrest].
  destruct rest as [|b' rest].
  - clear IH. cbn [length Nat.mul Nat.add].
    rewrite (ticks_operand_last m b) by (assumption || (cbn in Hfetch; lia)).
    destruct m as [[] me u s ic ck lg]. cbn. repeat f_equal; lia.
  - replace (2 * length (b :: b' :: rest))%nat with (2 + 2 * length (b' :: rest))%nat
      by (cbn [length]; lia).
    rewrite ticks_add.
    rewrite (ticks_operand_more m b) by (assumption || (cbn in Hfetch; lia)).
    rewrite IH; try (cbn; first [assumption | discriminate | reflexivity]).
    + replace (Z.of_nat (length (b :: b' :: rest)))
        with (1 + Z.of_nat (length (b' :: rest))) by (cbn [length]; lia).
      destruct m as [[] me u s ic ck lg]. unfold upd_cpu, with_memory, with_cpu.
      cbn -[last Z.of_nat length Z.add Z.sub store_operands array_set].
      rewrite !Z.add_assoc. reflexivity.
    + cbn [cpu upd_cpu with_memory with_cpu fetchCount currentFetch with_currentFetch
           with_pcRegister with_operand]. cbn [length] in *. lia.
Qed.

Lemma last_cons_default (b : Z) (l : list Z) (d d' : Z) :
  List.last (b :: l) d = List.last (b :: l) d'.
Proof.
  revert b. induction l as [|x l IH]; intros b; [reflexivity|].
  change (List.last (x :: l) d = List.last (x :: l) d'). apply IH.
Qed.

Lemma ticks_prologue (m : Machine) (op : Z) (i : Instruction.t) (f : ExecuteFn)
    (bytes : list Z) :
  running (system m) = true ->
  isRunning (clock m) = true ->
  _isLoading (mmu m) = false ->
  step (cpu m) = PipelineStep.Fetch ->
  currentCyclePulseCount (cpu m) = 0%nat ->
  fetchCount (cpu m) = 0%nat ->
  currentFetch (cpu m) = 0%nat ->
  isWritePending (memory m) = false ->
  waiting m = [] ->
  Memory_at (MEMORY (memory m)) (Some (pcRegister (cpu m))) = Num op ->
  decodes_to op (xRegister (cpu m)) (length bytes) i f ->
  cells_at (MEMORY (memory m)) (pcRegister (cpu m) + 1) bytes ->
  ticks (3 + 2 * length bytes) m =
  Ret tt (with_memory
    {| MEMORY := MEMORY (memory m);
       MAR := Some (pcRegister (cpu m) + Z.of_nat (length bytes));
       MDR := Num (List.last bytes op);
       isReadPending := false; isWritePending := false |}
    (with_cpu (Cpu_at_Execute (cpu m) op i f bytes) m)).
Proof.
  intros Hrun Hclk Hload Hstep Hcount Hfetch Hcf Hw Hq Hop Hdec Hcells.
  rewrite ticks_add, (ticks_decode m op (length bytes) i f) by assumption.
  destruct bytes as [|b rest].
  - cbn [length Nat.mul ticks]. unfold skip. mred.
    destruct m as [[] me u s ic ck lg]. cbn in *. subst.
    unfold Cpu_at_Execute. cbn. rewrite !Z.add_0_r. reflexivity.
  - rewrite ticks_operands; try (cbn -[Memory_at]; first [assumption | discriminate | reflexivity]).
    + destruct m as [[] me u s ic ck lg]. cbn -[Memory_at last length Z.of_nat] in *. subst.
      unfold Cpu_at_Execute, upd_cpu, with_memory, with_cpu.
      cbn -[last Z.of_nat length Z.add Z.sub store_operands array_set].
      repeat f_equal; [lia|].
      destruct rest as [|b' rest]; [reflexivity|apply last_cons_default].
    + cbn. rewrite Hcf. reflexivity.
Qed.

(** *** The instructions *)

Lemma Cpu_pulse_load_immediate (m : Machine) (f : ExecuteFn) (v : Z) :
  running (system m) = true ->
  _isLoading (mmu m) = false ->
  fetchCount (cpu m) = 0%nat ->
  step (cpu m) = PipelineStep.Execute ->
  executeFunction (cpu m) = Some f ->
  is_load f = true ->
  opcode (cpu m) = immediate_opcode f ->
  array_get (operand (cpu m)) 0 = Num v ->
  Cpu_pulse m =
  Ret tt (upd_cpu (fun c =>
            with_step (if truthy (writeAddress c) && truthy (writeValue c)
                       then PipelineStep.Writeback else PipelineStep.InterruptCheck)
              (with_currentCyclePulseCount 0%nat (load_setter f v c))) m).
Proof.
  intros Hrun Hload Hfetch Hstep Hfn Hf Hop Hv.
  destruct m as [c me u s ic ck lg]; destruct c, s, u, me; cbn -[array_get] in *; subst.
  unfold Cpu_pulse, try_catch, Cpu_pulse_body, Cpu_pulse_Execute.
  destruct f; try discriminate;
    unfold call, Cpu_LDA, Cpu_LDX, Cpu_LDY, Cpu_loadCaseHelper, rethrow_logged, try_catch,
      upd_cpu; mred; cbn -[array_get]; rewrite Hv; reflexivity.
Qed.

Lemma decodes_to_plain (op x : Z) (n : nat) (i : Instruction.t) (f : ExecuteFn) :
  InstructionSet_decodeMapper op = Some (Cpu_setupDecode n i f) ->
  decodes_to op x n i f.
Proof. intros H. exists (Cpu_setupDecode n i f). auto. Qed.

Lemma cells_at_1 (cells : list Z) (a b : Z) :
  Memory_at cells (Some a) = Num b -> cells_at cells a [b].
Proof.
  intros H [|k] c Hk; [|destruct k; discriminate].
  cbn in Hk. injection Hk as <-. rewrite Z.add_0_r. exact H.
Qed.

Lemma cells_at_2 (cells : list Z) (a b1 b2 : Z) :
  Memory_at cells (Some a) = Num b1 ->
  Memory_at cells (Some (a + 1)) = Num b2 ->
  cells_at cells a [b1; b2].
Proof.
  intros H1 H2 [|[|k]] c Hk; cbn in Hk; try discriminate; injection Hk as <-.
  - rewrite Z.add_0_r. exact H1.
  - exact H2.
Qed.

Ltac side' :=
  cbn -[Memory_at array_get array_set Z.add Z.of_nat];
  first [ assumption | reflexivity | lia | apply array_get_set | eassumption
        | match goal with H : truthy _ && truthy _ = false |- _ => rewrite H; reflexivity end ].

(** X1.  LDA, LDX and LDY with an immediate operand.  From one instruction
    boundary the machine reaches the next one in 7 ticks; the register of
    the opcode holds the operand byte, the program counter is 2 further,
    and the other registers, the flags, the cells and the System are as
    before. *)
Theorem load_immediate_sets_register (m : Machine) (op v : Z)
    (Hboundary : between_instructions m = true)
    (Hop : Memory_at (MEMORY (memory m)) (Some (pcRegister (cpu m))) = Num op)
    (Himm : op = 0xA9 \/ op = 0xA2 \/ op = 0xA0)
    (Hv : Memory_at (MEMORY (memory m)) (Some (pcRegister (cpu m) + 1)) = Num v) :
  exists m', ticks 7 m = Ret tt m' /\
    between_instructions m' = true /\
    pcRegister (cpu m') = pcRegister (cpu m) + 2 /\
    aRegister (cpu m') = (if op =? 0xA9 then Z.land v 0xFF else aRegister (cpu m)) /\
    xRegister (cpu m') = (if op =? 0xA2 then Z.land v 0xFF else xRegister (cpu m)) /\
    yRegister (cpu m') = (if op =? 0xA0 then Z.land v 0xFF else yRegister (cpu m)) /\
    zRegister (cpu m') = zRegister (cpu m) /\
    cRegister (cpu m') = cRegister (cpu m) /\
    MEMORY (memory m') = MEMORY (memory m) /\
    system m' = system m.
Proof.
  apply between_instructions_spec in Hboundary
    as (Hrun & Hclk & Hload & Hstep & Hcount & Hfetch & Hcf & Hr & Hw & Hlatch & Hp & Hq).
  unfold pending in Hp.
  assert (exists i f, decodes_to op (xRegister (cpu m)) 1 i f /\
            is_load f = true /\ immediate_opcode f = op) as (i & f & Hdec & Hf & Hfop).
  { destruct Himm as [->|[->| ->]]; do 2 eexists;
      (split; [apply decodes_to_plain; reflexivity|split; reflexivity]). }
  change 7%nat with ((3 + 2 * length [v]) + (1 + 1))%nat.
  rewrite ticks_add, (ticks_prologue m op i f [v])
    by first [assumption | apply cells_at_1; assumption].
  next_tick Hclk.
  erewrite (tick_cpu _ _ (pcRegister (cpu m) + 1) v);
    [|rewrite (Cpu_pulse_load_immediate _ f v) by side'; reflexivity|side'..].
  next_tick Hclk.
  destruct f; try discriminate; cbn in Hfop; subst op.
  all: erewrite (tick_cpu _ _ (pcRegister (cpu m) + 1) v);
    [|rewrite Cpu_pulse_InterruptCheck_none; [reflexivity|side'..]|side'..].
  all: eexists; split; [reflexivity|].
  all: split; [apply between_instructions_spec; cbn; rewrite Hlatch; auto 20|].
  all: cbn; repeat apply conj;
    first [reflexivity | lia | (destruct m as [? ? ? [] ? ? ?]; reflexivity)].
Qed.

Ltac unfold_pulse :=
  unfold Cpu_pulse, try_catch, Cpu_pulse_body, Cpu_pulse_Execute, call,
    Cpu_LDA, Cpu_LDX, Cpu_LDY, Cpu_loadCaseHelper, Cpu_STA, Cpu_TXA, Cpu_TYA, Cpu_TAX,
    Cpu_TAY, Cpu_NOP, Cpu_CPX, Cpu_BNE, Cpu_INC, Cpu_SYS, Cpu_SYS_print,
    rethrow_logged, try_catch, MMU_triggerRead, MMU_writeImmediate, MMU_getMDR,
    Memory_setMAR, Memory_setMDR, Memory_getMDR, Memory_read, Memory_write, hexLog,
    hexLog_opt, System_appendProgramOutput, encodeAscii, upd_cpu, upd_memory, upd_system;
  mred.

Lemma Cpu_pulse_load_absolute_first (m : Machine) (f : ExecuteFn) :
  running (system m) = true ->
  _isLoading (mmu m) = false ->
  fetchCount (cpu m) = 0%nat ->
  step (cpu m) = PipelineStep.Execute ->
  currentCyclePulseCount (cpu m) = 0%nat ->
  executeFunction (cpu m) = Some f ->
  is_load f = true ->
  opcode (cpu m) <> immediate_opcode f ->
  Cpu_pulse m =
  Ret tt (upd_memory (with_isReadPending true)
           (upd_memory (with_MAR (Some (operand_address (cpu m))))
             (upd_cpu (with_currentCyclePulseCount 1%nat) m))).
Proof.
  intros Hrun Hload Hfetch Hstep Hcount Hfn Hf Hop.
  destruct m as [c me u s ic ck lg]; destruct c, s, u, me; cbn -[operand_address] in *; subst.
  destruct f; try discriminate; unfold_pulse; cbn -[operand_address] in *;
    (match goal with |- context [?o =? ?b] =>
       destruct (Z.eqb_spec o b) as [E|_]; [contradiction|] end); reflexivity.
Qed.

Lemma Cpu_pulse_load_absolute_second (m : Machine) (f : ExecuteFn) (v : Z) :
  running (system m) = true ->
  _isLoading (mmu m) = false ->
  fetchCount (cpu m) = 0%nat ->
  step (cpu m) = PipelineStep.Execute ->
  currentCyclePulseCount (cpu m) = 1%nat ->
  executeFunction (cpu m) = Some f ->
  is_load f = true ->
  opcode (cpu m) <> immediate_opcode f ->
  MDR (memory m) = Num v ->
  Cpu_pulse m =
  Ret tt (upd_cpu (fun c =>
            with_step (if truthy (writeAddress c) && truthy (writeValue c)
                       then PipelineStep.Writeback else PipelineStep.InterruptCheck)
              (with_currentCyclePulseCount 0%nat (load_setter f v c))) m).
Proof.
  intros Hrun Hload Hfetch Hstep Hcount Hfn Hf Hop Hmdr.
  destruct m as [c me u s ic ck lg]; destruct c, s, u, me; cbn in *; subst.
  destruct f; try discriminate; unfold_pulse; cbn in *;
    (match goal with |- context [?o =? ?b] =>
       destruct (Z.eqb_spec o b) as [E|_]; [contradiction|] end); reflexivity.
Qed.

Lemma Cpu_pulse_STA_first (m : Machine) :
  running (system m) = true ->
  _isLoading (mmu m) = false ->
  fetchCount (cpu m) = 0%nat ->
  step (cpu m) = PipelineStep.Execute ->
  currentCyclePulseCount (cpu m) = 0%nat ->
  executeFunction (cpu m) = Some fn_STA ->
  Cpu_pulse m =
  Ret tt (with_cpu (with_currentCyclePulseCount 1%nat (cpu m))
           (upd_memory (fun me =>
              with_isWritePending true
                (with_MDR (Num (aRegister (cpu m)))
                   (with_MAR (Some (operand_address (cpu m))) me))) m)).
Proof.
  intros. destruct m as [c me u s ic ck lg]; destruct c, s, u, me; cbn in *; subst.
  reflexivity.
Qed.

Lemma Cpu_pulse_STA_second (m : Machine) :
  running (system m) = true ->
  _isLoading (mmu m) = false ->
  fetchCount (cpu m) = 0%nat ->
  step (cpu m) = PipelineStep.Execute ->
  currentCyclePulseCount (cpu m) = 1%nat ->
  executeFunction (cpu m) = Some fn_STA ->
  Cpu_pulse m =
  Ret tt (upd_cpu (fun c =>
            with_step (if truthy (writeAddress c) && truthy (writeValue c)
                       then PipelineStep.Writeback else PipelineStep.InterruptCheck)
              (with_currentCyclePulseCount 0%nat c)) m).
Proof.
  intros. destruct m as [c me u s ic ck lg]; destruct c, s, u, me; cbn in *; subst.
  reflexivity.
Qed.

Lemma Cpu_pulse_register_only (m : Machine) (f : ExecuteFn) :
  running (system m) = true ->
  _isLoading (mmu m) = false ->
  fetchCount (cpu m) = 0%nat ->
  step (cpu m) = PipelineStep.Execute ->
  executeFunction (cpu m) = Some f ->
  is_register_only f = true ->
  Cpu_pulse m =
  Ret tt (upd_cpu (fun c =>
            with_step (if truthy (writeAddress c) && truthy (writeValue c)
                       then PipelineStep.Writeback else PipelineStep.InterruptCheck)
              (with_currentCyclePulseCount 0%nat (register_effect f c))) m).
Proof.
  intros Hrun Hload Hfetch Hstep Hfn Hf.
  destruct m as [c me u s ic ck lg]; destruct c, s, u, me; cbn in *; subst.
  destruct f; try discriminate; reflexivity.
Qed.

Lemma Cpu_pulse_read_first (m : Machine) (f : ExecuteFn) :
  running (system m) = true ->
  _isLoading (mmu m) = false ->
  fetchCount (cpu m) = 0%nat ->
  step (cpu m) = PipelineStep.Execute ->
  currentCyclePulseCount (cpu m) = 0%nat ->
  executeFunction (cpu m) = Some f ->
  f = fn_CPX \/ f = fn_INC \/ f = fn_ADC ->
  Cpu_pulse m =
  Ret tt (upd_memory (with_isReadPending true)
           (upd_memory (with_MAR (Some (operand_address (cpu m))))
             (upd_cpu (with_currentCyclePulseCount 1%nat) m))).
Proof.
  intros Hrun Hload Hfetch Hstep Hcount Hfn Hf.
  destruct m as [c me u s ic ck lg]; destruct c, s, u, me; cbn in *; subst.
  destruct Hf as [->|[->| ->]]; reflexivity.
Qed.

Lemma Cpu_pulse_CPX_second (m : Machine) (v : Z) :
  running (system m) = true ->
  _isLoading (mmu m) = false ->
  fetchCount (cpu m) = 0%nat ->
  step (cpu m) = PipelineStep.Execute ->
  currentCyclePulseCount (cpu m) = 1%nat ->
  executeFunction (cpu m) = Some fn_CPX ->
  MDR (memory m) = Num v ->
  Cpu_pulse m =
  Ret tt (upd_cpu (fun c =>
            with_step (if truthy (writeAddress c) && truthy (writeValue c)
                       then PipelineStep.Writeback else PipelineStep.InterruptCheck)
              (with_currentCyclePulseCount 0%nat
                 (with_cRegister (v <=? xRegister c)
                    (with_zRegister (Z.land (xRegister c - v) 0xFF =? 0) c)))) m).
Proof.
  intros. destruct m as [c me u s ic ck lg]; destruct c, s, u, me; cbn in *; subst.
  reflexivity.
Qed.

Lemma Cpu_pulse_BNE_eq (m : Machine) (offset : Z) :
  running (system m) = true ->
  _isLoading (mmu m) = false ->
  fetchCount (cpu m) = 0%nat ->
  step (cpu m) = PipelineStep.Execute ->
  executeFunction (cpu m) = Some fn_BNE ->
  array_get (operand (cpu m)) 0 = Num offset ->
  Cpu_pulse m =
  Ret tt (upd_cpu (fun c =>
            with_step (if truthy (writeAddress c) && truthy (writeValue c)
                       then PipelineStep.Writeback else PipelineStep.InterruptCheck)
              (with_currentCyclePulseCount 0%nat
                 (if zRegister c then c
                  else with_pcRegister
                         (Z.land (pcRegister c +
                                  (if offset <? 0x80 then offset else offset - 0x100)) 0xFFFF)
                         c))) m).
Proof.
  intros Hrun Hload Hfetch Hstep Hfn Hoff.
  destruct m as [c me u s ic ck lg]; destruct c, s, u, me; cbn -[array_get] in *; subst.
  unfold_pulse. cbn -[array_get]. rewrite Hoff.
  match goal with |- context [if ?b then _ else _] => is_var b; destruct b end; reflexivity.
Qed.

Lemma Cpu_pulse_SYS_integer (m : Machine) :
  running (system m) = true ->
  _isLoading (mmu m) = false ->
  fetchCount (cpu m) = 0%nat ->
  step (cpu m) = PipelineStep.Execute ->
  executeFunction (cpu m) = Some fn_SYS ->
  xRegister (cpu m) = 0x01 ->
  Cpu_pulse m =
  Ret tt (upd_cpu (fun c =>
            with_step (if truthy (writeAddress c) && truthy (writeValue c)
                       then PipelineStep.Writeback else PipelineStep.InterruptCheck)
              (with_currentCyclePulseCount 0%nat c))
           (upd_system (fun s =>
              with_programOutput (programOutput s +:+ pretty (yRegister (cpu m))) s) m)).
Proof.
  intros. destruct m as [c me u s ic ck lg]; destruct c, s, u, me; cbn in *; subst.
  reflexivity.
Qed.

Lemma Cpu_pulse_SYS_unknown (m : Machine) :
  running (system m) = true ->
  _isLoading (mmu m) = false ->
  fetchCount (cpu m) = 0%nat ->
  step (cpu m) = PipelineStep.Execute ->
  executeFunction (cpu m) = Some fn_SYS ->
  xRegister (cpu m) <> 0x01 -> xRegister (cpu m) <> 0x02 -> xRegister (cpu m) <> 0x03 ->
  Cpu_pulse m =
  Ret tt (upd_cpu (fun c =>
            with_step (if truthy (writeAddress c) && truthy (writeValue c)
                       then PipelineStep.Writeback else PipelineStep.InterruptCheck)
              (with_currentCyclePulseCount 0%nat c)) m).
Proof.
  intros Hrun Hload Hfetch Hstep Hfn H1 H2 H3.
  destruct m as [c me u s ic ck lg]; destruct c, s, u, me; cbn in *; subst.
  unfold_pulse. cbn.
  repeat match goal with
         | |- context [?x =? ?k] => destruct (Z.eqb_spec x k); [contradiction|]
         end.
  reflexivity.
Qed.

Lemma operand_address_stored (c : Cpu) (arr : list Z) (lo hi : Z) :
  operand c = store_operands arr 0 [lo; hi] ->
  operand_address c = Z.lor (Z.shiftl hi 8) lo.
Proof.
  intros H. unfold operand_address. rewrite H. cbn [store_operands].
  rewrite array_get_set.
  rewrite array_get_set_below by first [lia | apply length_array_set].
  rewrite array_get_set. reflexivity.
Qed.

Ltac side' ::=
  cbn -[Memory_at array_get array_set Z.add Z.of_nat operand_address store_operands];
  first [ assumption | reflexivity | lia | apply array_get_set | eassumption
        | match goal with H : truthy _ && truthy _ = false |- _ => rewrite H; reflexivity end ].

Ltac boundary_goal :=
  apply between_instructions_spec; repeat apply conj;
  cbn -[operand_address Memory_at];
  first [ assumption | reflexivity
        | match goal with H : truthy _ && truthy _ = false |- _ => rewrite H; reflexivity end ].

Ltac start_instruction H :=
  apply between_instructions_spec in H
    as (Hrun & Hclk & Hload & Hstep & Hcount & Hfetch & Hcf & Hr & Hw & Hlatch & Hp & Hq);
  unfold pending in Hp.

(** X2.  LDA, LDX and LDY with an absolute operand.  In 10 ticks the
    register of the opcode receives the cell at [(hi << 8) | lo]; the
    program counter is 3 further and nothing else of the registers, the
    flags, the cells and the System changes. *)
Theorem load_absolute_reads_memory (m : Machine) (op lo hi v : Z)
    (Hboundary : between_instructions m = true)
    (Hop : Memory_at (MEMORY (memory m)) (Some (pcRegister (cpu m))) = Num op)
    (Habs : op = 0xAD \/ op = 0xAE \/ op = 0xAC)
    (Hlo : Memory_at (MEMORY (memory m)) (Some (pcRegister (cpu m) + 1)) = Num lo)
    (Hhi : Memory_at (MEMORY (memory m)) (Some (pcRegister (cpu m) + 2)) = Num hi)
    (Hv : Memory_at (MEMORY (memory m)) (Some (Z.lor (Z.shiftl hi 8) lo)) = Num v) :
  exists m', ticks 10 m = Ret tt m' /\
    between_instructions m' = true /\
    pcRegister (cpu m') = pcRegister (cpu m) + 3 /\
    aRegister (cpu m') = (if op =? 0xAD then Z.land v 0xFF else aRegister (cpu m)) /\
    xRegister (cpu m') = (if op =? 0xAE then Z.land v 0xFF else xRegister (cpu m)) /\
    yRegister (cpu m') = (if op =? 0xAC then Z.land v 0xFF else yRegister (cpu m)) /\
    zRegister (cpu m') = zRegister (cpu m) /\
    cRegister (cpu m') = cRegister (cpu m) /\
    MEMORY (memory m') = MEMORY (memory m) /\
    system m' = system m.
Proof.
  start_instruction Hboundary.
  pose proof (Memory_at_Num _ _ _ Hv) as Haddr.
  assert (Hcells : cells_at (MEMORY (memory m)) (pcRegister (cpu m) + 1) [lo; hi]).
  { apply cells_at_2; [|replace (pcRegister (cpu m) + 1 + 1)
                          with (pcRegister (cpu m) + 2) by lia]; assumption. }
  assert (Ha : forall op i f, operand_address (Cpu_at_Execute (cpu m) op i f [lo; hi]) =
                              Z.lor (Z.shiftl hi 8) lo)
    by (intros; apply (operand_address_stored _ (operand (cpu m))); reflexivity).
  change 10%nat with ((3 + 2 * length [lo; hi]) + (1 + (1 + 1)))%nat.
  rewrite ticks_add.
  assert (exists i f, decodes_to op (xRegister (cpu m)) 2 i f /\
            is_load f = true /\
            op = match f with fn_LDA => 0xAD | fn_LDX => 0xAE | _ => 0xAC end)
    as (i & f & Hdec & Hf & Hfop).
  { destruct Habs as [->|[->| ->]]; do 2 eexists;
      (split; [apply decodes_to_plain; reflexivity|]); split; reflexivity. }
  rewrite (ticks_prologue m op i f [lo; hi]) by assumption.
  specialize (Ha op i f).
  set (c1 := Cpu_at_Execute (cpu m) op i f [lo; hi]) in *.
  assert (Hnimm : op <> immediate_opcode f)
    by (subst op; destruct f; discriminate).
  next_tick Hclk.
  erewrite (tick_read _ _ (operand_address c1));
    [|rewrite (Cpu_pulse_load_absolute_first _ f) by side'; reflexivity|side'..].
  next_tick Hclk.
  erewrite (tick_cpu _ _ (operand_address c1) v);
    [|rewrite (Cpu_pulse_load_absolute_second _ f v)
        by first [side' | (cbn -[Memory_at operand_address]; rewrite Ha; exact Hv)];
      reflexivity
     |first [side' | (cbn -[Memory_at operand_address]; rewrite Ha; exact Hv)]..].
  next_tick Hclk.
  destruct f; try discriminate; cbn in Hfop; subst op.
  all: erewrite (tick_cpu _ _ (operand_address c1) v);
    [|rewrite Cpu_pulse_InterruptCheck_none; [reflexivity|side'..]
     |first [side' | (cbn -[Memory_at operand_address]; rewrite Ha; exact Hv)]..].
  all: eexists; split; [reflexivity|].
  all: split; [boundary_goal|].
  all: cbn -[operand_address Memory_at]; repeat apply conj;
    first [assumption | reflexivity | lia | (destruct m as [? ? ? [] ? ? ?]; reflexivity)].
Qed.

Ltac finish_fields :=
  cbn -[operand_address Memory_at]; repeat apply conj;
  first [ assumption | reflexivity | lia
        | match goal with |- system _ = system ?m =>
            destruct m as [? ? ? [] ? ? ?]; reflexivity end ].

(** X3.  STA.  In 10 ticks the accumulator is written to the cell at
    [(hi << 8) | lo] and to no other cell; the registers, the flags and
    the System are as before and the program counter is 3 further. *)
Theorem STA_stores_accumulator (m : Machine) (lo hi : Z)
    (Hboundary : between_instructions m = true)
    (Hop : Memory_at (MEMORY (memory m)) (Some (pcRegister (cpu m))) = Num 0x8D)
    (Hlo : Memory_at (MEMORY (memory m)) (Some (pcRegister (cpu m) + 1)) = Num lo)
    (Hhi : Memory_at (MEMORY (memory m)) (Some (pcRegister (cpu m) + 2)) = Num hi)
    (Haddr : 0 <= Z.lor (Z.shiftl hi 8) lo < Z.of_nat (length (MEMORY (memory m)))) :
  exists m', ticks 10 m = Ret tt m' /\
    between_instructions m' = true /\
    MEMORY (memory m') =
      <[Z.to_nat (Z.lor (Z.shiftl hi 8) lo) := aRegister (cpu m) mod 256]> (MEMORY (memory m)) /\
    pcRegister (cpu m') = pcRegister (cpu m) + 3 /\
    aRegister (cpu m') = aRegister (cpu m) /\
    xRegister (cpu m') = xRegister (cpu m) /\
    yRegister (cpu m') = yRegister (cpu m) /\
    zRegister (cpu m') = zRegister (cpu m) /\
    cRegister (cpu m') = cRegister (cpu m) /\
    system m' = system m.
Proof.
  start_instruction Hboundary.
  assert (Hcells : cells_at (MEMORY (memory m)) (pcRegister (cpu m) + 1) [lo; hi]).
  { apply cells_at_2; [|replace (pcRegister (cpu m) + 1 + 1)
                          with (pcRegister (cpu m) + 2) by lia]; assumption. }
  change 10%nat with ((3 + 2 * length [lo; hi]) + (1 + (1 + 1)))%nat.
  rewrite ticks_add.
  rewrite (ticks_prologue m 0x8D Instruction.STA fn_STA [lo; hi])
    by first [assumption | apply decodes_to_plain; reflexivity].
  set (c1 := Cpu_at_Execute (cpu m) 0x8D Instruction.STA fn_STA [lo; hi]) in *.
  assert (Ha : operand_address c1 = Z.lor (Z.shiftl hi 8) lo)
    by (apply (operand_address_stored _ (operand (cpu m))); reflexivity).
  next_tick Hclk.
  erewrite (tick_write _ _ (operand_address c1) (aRegister (cpu m)));
    [|rewrite Cpu_pulse_STA_first by side'; reflexivity|side'..].
  next_tick Hclk.
  erewrite (tick_cpu _ _ (operand_address c1) (aRegister (cpu m)));
    [|rewrite Cpu_pulse_STA_second by side'; reflexivity|side'..].
  next_tick Hclk.
  erewrite (tick_cpu _ _ (operand_address c1) (aRegister (cpu m)));
    [|rewrite Cpu_pulse_InterruptCheck_none; [reflexivity|side'..]|side'..].
  eexists; split; [reflexivity|].
  split; [boundary_goal|].
  split; [cbn -[operand_address Memory_at]; rewrite Ha; reflexivity|].
  finish_fields.
Qed.

(** X4.  TXA, TYA, TAX, TAY and NOP.  In 5 ticks the target holds the
    source register, the program counter is 1 further, and the flags, the
    System and the cells are as before. *)
Theorem transfer_copies_register (m : Machine) (op : Z)
    (Hboundary : between_instructions m = true)
    (Hop : Memory_at (MEMORY (memory m)) (Some (pcRegister (cpu m))) = Num op)
    (Hreg : op = 0x8A \/ op = 0x98 \/ op = 0xAA \/ op = 0xA8 \/ op = 0xEA) :
  exists m', ticks 5 m = Ret tt m' /\
    between_instructions m' = true /\
    pcRegister (cpu m') = pcRegister (cpu m) + 1 /\
    aRegister (cpu m') =
      (if op =? 0x8A then Z.land (xRegister (cpu m)) 0xFF
       else if op =? 0x98 then Z.land (yRegister (cpu m)) 0xFF
       else aRegister (cpu m)) /\
    xRegister (cpu m') =
      (if op =? 0xAA then Z.land (aRegister (cpu m)) 0xFF else xRegister (cpu m)) /\
    yRegister (cpu m') =
      (if op =? 0xA8 then Z.land (aRegister (cpu m)) 0xFF else yRegister (cpu m)) /\
    zRegister (cpu m') = zRegister (cpu m) /\
    cRegister (cpu m') = cRegister (cpu m) /\
    memory m' = with_MDR (Num op) (with_MAR (Some (pcRegister (cpu m))) (memory m)) /\
    system m' = system m.
Proof.
  start_instruction Hboundary.
  assert (exists i f, decodes_to op (xRegister (cpu m)) 0 i f /\
            is_register_only f = true /\
            op = match f with
                 | fn_TXA => 0x8A | fn_TYA => 0x98 | fn_TAX => 0xAA | fn_TAY => 0xA8
                 | _ => 0xEA
                 end)
    as (i & f & Hdec & Hf & Hfop).
  { destruct Hreg as [->|[->|[->|[->| ->]]]]; do 2 eexists;
      (split; [apply decodes_to_plain; reflexivity|]); split; reflexivity. }
  change 5%nat with ((3 + 2 * length (@nil Z)) + (1 + 1))%nat.
  rewrite ticks_add.
  rewrite (ticks_prologue m op i f [])
    by first [assumption | (intros k b Hk; discriminate)].
  next_tick Hclk.
  erewrite (tick_cpu _ _ _ _);
    [|rewrite (Cpu_pulse_register_only _ f) by side'; reflexivity|side'..].
  next_tick Hclk.
  destruct f; try discriminate; cbn in Hfop; subst op.
  all: erewrite (tick_cpu _ _ _ _);
    [|rewrite Cpu_pulse_InterruptCheck_none; [reflexivity|side'..]|side'..].
  all: eexists; split; [reflexivity|].
  all: split; [boundary_goal|].
  all: cbn -[operand_address Memory_at]; repeat apply conj;
    first [ assumption | reflexivity | lia
          | (destruct m as [? [] ? ? ? ? ?]; cbn in *; subst; rewrite ?Z.add_0_r; reflexivity) ].
Qed.

(** X6.  CPX.  In 10 ticks the zero flag tells whether X equals the
    addressed cell and the carry whether the cell is at most X; the
    registers, the cells and the System are as before. *)
Theorem CPX_compares_with_memory (m : Machine) (lo hi v : Z)
    (Hboundary : between_instructions m = true)
    (Hop : Memory_at (MEMORY (memory m)) (Some (pcRegister (cpu m))) = Num 0xEC)
    (Hlo : Memory_at (MEMORY (memory m)) (Some (pcRegister (cpu m) + 1)) = Num lo)
    (Hhi : Memory_at (MEMORY (memory m)) (Some (pcRegister (cpu m) + 2)) = Num hi)
    (Hv : Memory_at (MEMORY (memory m)) (Some (Z.lor (Z.shiftl hi 8) lo)) = Num v)
    (Hx : 0 <= xRegister (cpu m) < 256)
    (Hbyte : 0 <= v < 256) :
  exists m', ticks 10 m = Ret tt m' /\
    between_instructions m' = true /\
    (zRegister (cpu m') = true <-> xRegister (cpu m) = v) /\
    (cRegister (cpu m') = true <-> v <= xRegister (cpu m)) /\
    pcRegister (cpu m') = pcRegister (cpu m) + 3 /\
    aRegister (cpu m') = aRegister (cpu m) /\
    xRegister (cpu m') = xRegister (cpu m) /\
    yRegister (cpu m') = yRegister (cpu m) /\
    MEMORY (memory m') = MEMORY (memory m) /\
    system m' = system m.
Proof.
  start_instruction Hboundary.
  assert (Hcells : cells_at (MEMORY (memory m)) (pcRegister (cpu m) + 1) [lo; hi]).
  { apply cells_at_2; [|replace (pcRegister (cpu m) + 1 + 1)
                          with (pcRegister (cpu m) + 2) by lia]; assumption. }
  pose proof (Memory_at_Num _ _ _ Hv) as Haddr.
  change 10%nat with ((3 + 2 * length [lo; hi]) + (1 + (1 + 1)))%nat.
  rewrite ticks_add.
  rewrite (ticks_prologue m 0xEC Instruction.CPX fn_CPX [lo; hi])
    by first [assumption | apply decodes_to_plain; reflexivity].
  set (c1 := Cpu_at_Execute (cpu m) 0xEC Instruction.CPX fn_CPX [lo; hi]) in *.
  assert (Ha : operand_address c1 = Z.lor (Z.shiftl hi 8) lo)
    by (apply (operand_address_stored _ (operand (cpu m))); reflexivity).
  next_tick Hclk.
  erewrite (tick_read _ _ (operand_address c1));
    [|rewrite (Cpu_pulse_read_first _ fn_CPX) by first [side' | (left; reflexivity)];
      reflexivity|side'..].
  next_tick Hclk.
  erewrite (tick_cpu _ _ (operand_address c1) v);
    [|rewrite (Cpu_pulse_CPX_second _ v)
        by first [side' | (cbn -[Memory_at operand_address]; rewrite Ha; exact Hv)];
      reflexivity
     |first [side' | (cbn -[Memory_at operand_address]; rewrite Ha; exact Hv)]..].
  next_tick Hclk.
  erewrite (tick_cpu _ _ (operand_address c1) v);
    [|rewrite Cpu_pulse_InterruptCheck_none; [reflexivity|side'..]
     |first [side' | (cbn -[Memory_at operand_address]; rewrite Ha; exact Hv)]..].
  eexists; split; [reflexivity|].
  split; [boundary_goal|].
  split.
  { cbn -[operand_address Memory_at Z.land Z.sub].
    rewrite Z.eqb_eq. change 255 with (Z.ones 8). rewrite Z.land_ones by lia.
    change (2 ^ 8) with 256. split.
    - intros H. apply Z.mod_divide in H; [|lia].
      destruct H as [k Hk]. nia.
    - intros ->. rewrite Z.sub_diag. reflexivity. }
  split.
  { cbn -[operand_address Memory_at]. apply Z.leb_le. }
  finish_fields.
Qed.

(** X7.  BNE.  In 7 ticks the program counter is behind the instruction
    when Z is set, and moved by the signed offset and wrapped to 16 bits
    when Z is clear; nothing else changes. *)
Theorem BNE_branches_when_Z_clear (m : Machine) (offset : Z)
    (Hboundary : between_instructions m = true)
    (Hop : Memory_at (MEMORY (memory m)) (Some (pcRegister (cpu m))) = Num 0xD0)
    (Hoff : Memory_at (MEMORY (memory m)) (Some (pcRegister (cpu m) + 1)) = Num offset) :
  exists m', ticks 7 m = Ret tt m' /\
    between_instructions m' = true /\
    pcRegister (cpu m') =
      (if zRegister (cpu m) then pcRegister (cpu m) + 2
       else Z.land (pcRegister (cpu m) + 2 + (if offset <? 0x80 then offset else offset - 0x100))
              0xFFFF) /\
    (zRegister (cpu m) = false -> 0 <= pcRegister (cpu m') < 0x10000) /\
    aRegister (cpu m') = aRegister (cpu m) /\
    xRegister (cpu m') = xRegister (cpu m) /\
    yRegister (cpu m') = yRegister (cpu m) /\
    zRegister (cpu m') = zRegister (cpu m) /\
    cRegister (cpu m') = cRegister (cpu m) /\
    MEMORY (memory m') = MEMORY (memory m) /\
    system m' = system m.
Proof.
  start_instruction Hboundary.
  change 7%nat with ((3 + 2 * length [offset]) + (1 + 1))%nat.
  rewrite ticks_add.
  rewrite (ticks_prologue m 0xD0 Instruction.BNE fn_BNE [offset])
    by first [assumption | apply decodes_to_plain; reflexivity | apply cells_at_1; assumption].
  next_tick Hclk.
  erewrite (tick_cpu _ _ _ _);
    [|rewrite (Cpu_pulse_BNE_eq _ offset) by side'; reflexivity|side'..].
  next_tick Hclk.
  destruct (zRegister (cpu m)) eqn:Hz.
  all: erewrite (tick_cpu _ _ _ _);
    [|rewrite Cpu_pulse_InterruptCheck_none;
       [reflexivity|cbn -[Z.land]; rewrite ?Hz; side'..]
     |cbn -[Z.land]; rewrite ?Hz; side'..].
  all: eexists; split; [reflexivity|].
  all: split; [apply between_instructions_spec; repeat apply conj;
               cbn -[Z.land]; rewrite ?Hz; cbn -[Z.land];
               first [ assumption | reflexivity | (rewrite Hlatch; reflexivity) ]|].
  all: cbn -[Z.land]; rewrite ?Hz; cbn -[Z.land];
    replace (pcRegister (cpu m) + 1 + Z.of_nat 1) with (pcRegister (cpu m) + 2) by lia;
    repeat apply conj; first [ assumption | reflexivity | lia | discriminate | idtac ].
  intros _. change 65535 with (Z.ones 16). rewrite Z.land_ones by lia.
  apply Z.mod_pos_bound. lia.
Qed.

Lemma land_255_small (z : Z) : 0 <= z < 256 -> Z.land z 0xFF = z.
Proof.
  intros H. change 255 with (Z.ones 8). rewrite Z.land_ones by lia.
  apply Z.mod_small. exact H.
Qed.

Lemma Cpu_pulse_INC_writeback (m : Machine) (a v : Z) :
  running (system m) = true ->
  _isLoading (mmu m) = false ->
  fetchCount (cpu m) = 0%nat ->
  step (cpu m) = PipelineStep.Execute ->
  currentCyclePulseCount (cpu m) = 1%nat ->
  executeFunction (cpu m) = Some fn_INC ->
  MDR (memory m) = Num v ->
  operand_address (cpu m) = a ->
  a <> 0 ->
  Z.land (v + 1) 0xFF <> 0 ->
  Cpu_pulse m =
  Ret tt (upd_cpu (fun c =>
            with_step PipelineStep.Writeback
              (with_currentCyclePulseCount 0%nat
                 (with_writeAddress (Some a)
                    (with_writeValue (Some (Z.land (v + 1) 0xFF)) c)))) m).
Proof.
  intros Hrun Hload Hfetch Hstep Hcount Hfn Hmdr Ha Hnz Hv.
  rewrite (Cpu_pulse_INC_second m v) by assumption. cbv zeta.
  apply Z.eqb_neq in Hnz, Hv. rewrite Ha, Hnz, Hv. reflexivity.
Qed.

Lemma operand_address_count (n : nat) (c : Cpu) :
  operand_address (with_currentCyclePulseCount n c) = operand_address c.
Proof. reflexivity. Qed.

(** X8.  INC away from the two falsy latches.  In 11 ticks, the Writeback
    stage included, the addressed cell is one more and the latches are
    [null] again; the registers, the flags, the other cells and the System
    are as before. *)
Theorem INC_increments_memory (m : Machine) (lo hi v : Z)
    (Hboundary : between_instructions m = true)
    (Hop : Memory_at (MEMORY (memory m)) (Some (pcRegister (cpu m))) = Num 0xEE)
    (Hlo : Memory_at (MEMORY (memory m)) (Some (pcRegister (cpu m) + 1)) = Num lo)
    (Hhi : Memory_at (MEMORY (memory m)) (Some (pcRegister (cpu m) + 2)) = Num hi)
    (Hv : Memory_at (MEMORY (memory m)) (Some (Z.lor (Z.shiftl hi 8) lo)) = Num v)
    (Hnz : Z.lor (Z.shiftl hi 8) lo <> 0)
    (Hbyte : 0 <= v < 255) :
  exists m', ticks 11 m = Ret tt m' /\
    between_instructions m' = true /\
    MEMORY (memory m') =
      <[Z.to_nat (Z.lor (Z.shiftl hi 8) lo) := v + 1]> (MEMORY (memory m)) /\
    writeAddress (cpu m') = None /\
    writeValue (cpu m') = None /\
    pcRegister (cpu m') = pcRegister (cpu m) + 3 /\
    aRegister (cpu m') = aRegister (cpu m) /\
    xRegister (cpu m') = xRegister (cpu m) /\
    yRegister (cpu m') = yRegister (cpu m) /\
    zRegister (cpu m') = zRegister (cpu m) /\
    cRegister (cpu m') = cRegister (cpu m) /\
    system m' = system m.
Proof.
  start_instruction Hboundary.
  assert (Hcells : cells_at (MEMORY (memory m)) (pcRegister (cpu m) + 1) [lo; hi]).
  { apply cells_at_2; [|replace (pcRegister (cpu m) + 1 + 1)
                          with (pcRegister (cpu m) + 2) by lia]; assumption. }
  pose proof (Memory_at_Num _ _ _ Hv) as Haddr.
  assert (Hval : Z.land (v + 1) 0xFF = v + 1) by (apply land_255_small; lia).
  change 11%nat with ((3 + 2 * length [lo; hi]) + (1 + (1 + (1 + 1))))%nat.
  rewrite ticks_add.
  rewrite (ticks_prologue m 0xEE Instruction.INC fn_INC [lo; hi])
    by first [assumption | apply decodes_to_plain; reflexivity].
  set (c1 := Cpu_at_Execute (cpu m) 0xEE Instruction.INC fn_INC [lo; hi]) in *.
  assert (Ha : operand_address c1 = Z.lor (Z.shiftl hi 8) lo)
    by (apply (operand_address_stored _ (operand (cpu m))); reflexivity).
  assert (Hnz2 : Z.land (v + 1) 0xFF <> 0) by (rewrite Hval; lia).
  set (a := Z.lor (Z.shiftl hi 8) lo) in *.
  next_tick Hclk.
  erewrite (tick_read _ _ a);
    [|rewrite (Cpu_pulse_read_first _ fn_INC) by first [side' | (right; left; reflexivity)];
      cbn [cpu with_memory with_cpu]; rewrite Ha; reflexivity|side'..].
  next_tick Hclk.
  erewrite (tick_cpu _ _ a v);
    [|rewrite (Cpu_pulse_INC_writeback _ a v);
        [ reflexivity | side' | side' | side' | side' | side' | side'
        | exact Hv
        | cbn [cpu read_tick with_memory with_cpu]; rewrite operand_address_count; exact Ha
        | exact Hnz | exact Hnz2 ]
     |first [side' | exact Hv]..].
  next_tick Hclk.
  erewrite (tick_write _ _ a (Z.land (v + 1) 0xFF));
    [|rewrite (Cpu_pulse_Writeback_eq _ a (Z.land (v + 1) 0xFF))
        by (cbn -[Memory_at Z.land]; first [assumption | reflexivity]);
      reflexivity
     |cbn -[Memory_at Z.land]; first [assumption | reflexivity | lia]..].
  next_tick Hclk.
  erewrite (tick_cpu _ _ _ _);
    [|rewrite Cpu_pulse_InterruptCheck_none;
       [reflexivity|cbn -[Memory_at Z.land]; first [assumption|reflexivity]..]
     |cbn -[Memory_at Z.land]; first [assumption|reflexivity]..].
  eexists; split; [reflexivity|].
  split; [apply between_instructions_spec; repeat apply conj;
          cbn -[Memory_at Z.land]; first [assumption | reflexivity]|].
  split.
  { cbn -[Memory_at Z.land]. rewrite Hval.
    rewrite Z.mod_small by lia. reflexivity. }
  cbn -[Memory_at Z.land]; repeat apply conj;
    first [assumption | reflexivity | lia].
Qed.

Ltac next_tick Hclk ::=
  rewrite ticks_S;
  cbn [clock cpu_tick read_tick write_tick with_memory with_cpu with_system
       upd_cpu upd_system upd_memory];
  rewrite Hclk.

Lemma Cpu_pulse_BRK_eq (m : Machine) :
  running (system m) = true ->
  _isLoading (mmu m) = false ->
  fetchCount (cpu m) = 0%nat ->
  step (cpu m) = PipelineStep.Execute ->
  executeFunction (cpu m) = Some fn_BRK ->
  waiting m = [] ->
  Cpu_pulse m =
  Ret tt (with_clock {| isRunning := false |}
           (with_system (stopped_System (system m))
              (upd_cpu (fun c =>
                 with_step (if truthy (writeAddress c) && truthy (writeValue c)
                            then PipelineStep.Writeback else PipelineStep.InterruptCheck)
                   (with_currentCyclePulseCount 0%nat c)) m))).
Proof.
  unfold waiting. intros Hrun Hload Hfetch Hstep Hfn Hq.
  destruct m as [c me u s [q] ck lg]; destruct c, s, u, me; cbn in *; subst.
  match goal with p : option Program |- _ => destruct p end; reflexivity.
Qed.

(** X9.  BRK.  After 4 ticks the System is stopped, the clock is off and
    the current program is forgotten, and every later expiry of the timer
    finds the machine as it is; the registers, the flags and the cells
    are those of the stop. *)
Theorem BRK_stops_the_machine (m : Machine)
    (Hboundary : between_instructions m = true)
    (Hop : Memory_at (MEMORY (memory m)) (Some (pcRegister (cpu m))) = Num 0x00) :
  exists m', ticks 4 m = Ret tt m' /\
    (forall n, ticks (4 + n) m = Ret tt m') /\
    running (system m') = false /\
    isRunning (clock m') = false /\
    currentProgram (system m') = None /\
    programOutput (system m') =
      match currentProgram (system m) with Some _ => "" | None => programOutput (system m) end /\
    pcRegister (cpu m') = pcRegister (cpu m) + 1 /\
    aRegister (cpu m') = aRegister (cpu m) /\
    xRegister (cpu m') = xRegister (cpu m) /\
    yRegister (cpu m') = yRegister (cpu m) /\
    zRegister (cpu m') = zRegister (cpu m) /\
    cRegister (cpu m') = cRegister (cpu m) /\
    MEMORY (memory m') = MEMORY (memory m).
Proof.
  start_instruction Hboundary.
  assert (Hticks : exists m', ticks 4 m = Ret tt m' /\
            isRunning (clock m') = false /\
            system m' = stopped_System (system m) /\
            pcRegister (cpu m') = pcRegister (cpu m) + 1 /\
            aRegister (cpu m') = aRegister (cpu m) /\
            xRegister (cpu m') = xRegister (cpu m) /\
            yRegister (cpu m') = yRegister (cpu m) /\
            zRegister (cpu m') = zRegister (cpu m) /\
            cRegister (cpu m') = cRegister (cpu m) /\
            MEMORY (memory m') = MEMORY (memory m)).
  { change 4%nat with ((3 + 2 * length (@nil Z)) + 1)%nat.
    rewrite ticks_add.
    rewrite (ticks_prologue m 0x00 Instruction.BRK fn_BRK [])
      by first [assumption | apply decodes_to_plain; reflexivity
               | (intros k b Hk; discriminate)].
    next_tick Hclk.
    erewrite (Clock_pulse_quiet _ _ _ _);
      [|rewrite Cpu_pulse_BRK_eq by side'; reflexivity|side'..].
    eexists; split; [reflexivity|].
    cbn; repeat apply conj; first [reflexivity | lia]. }
  destruct Hticks as (m' & E & Hstop & Hsys & Hrest).
  exists m'. split; [exact E|]. split.
  { intros n. rewrite ticks_add, E. apply ticks_stopped. exact Hstop. }
  rewrite Hsys. cbn. repeat apply conj; first [reflexivity | assumption | apply Hrest].
Qed.

(** X10.  SYS with X = 1.  In 5 ticks the output grows by Y in decimal
    and nothing else but the program counter changes. *)
Theorem SYS_1_prints_Y_in_decimal (m : Machine)
    (Hboundary : between_instructions m = true)
    (Hop : Memory_at (MEMORY (memory m)) (Some (pcRegister (cpu m))) = Num 0xFF)
    (Hx : xRegister (cpu m) = 0x01) :
  exists m', ticks 5 m = Ret tt m' /\
    between_instructions m' = true /\
    programOutput (system m') = (programOutput (system m) +:+ pretty (yRegister (cpu m))) /\
    pcRegister (cpu m') = pcRegister (cpu m) + 1 /\
    aRegister (cpu m') = aRegister (cpu m) /\
    xRegister (cpu m') = xRegister (cpu m) /\
    yRegister (cpu m') = yRegister (cpu m) /\
    zRegister (cpu m') = zRegister (cpu m) /\
    cRegister (cpu m') = cRegister (cpu m) /\
    MEMORY (memory m') = MEMORY (memory m).
Proof.
  start_instruction Hboundary.
  assert (Hdec : decodes_to 0xFF (xRegister (cpu m)) 0 Instruction.SYS fn_SYS).
  { eexists. split; [reflexivity|]. intros m0 Hm0. mred. rewrite Hm0, Hx. reflexivity. }
  change 5%nat with ((3 + 2 * length (@nil Z)) + (1 + 1))%nat.
  rewrite ticks_add.
  rewrite (ticks_prologue m 0xFF Instruction.SYS fn_SYS [])
    by first [assumption | (intros k b Hk; discriminate)].
  next_tick Hclk.
  erewrite (Clock_pulse_quiet _ _ _ _);
    [|rewrite Cpu_pulse_SYS_integer by side'; reflexivity|side'..].
  next_tick Hclk.
  erewrite (Clock_pulse_quiet _ _ _ _);
    [|rewrite Cpu_pulse_InterruptCheck_none; [reflexivity|side'..]|side'..].
  eexists; split; [reflexivity|].
  split; [boundary_goal|].
  cbn -[pretty]; repeat apply conj; first [reflexivity | lia].
Qed.

(** X13.  SYS with any other X.  The call takes 5 ticks and has no effect
    but the step of the program counter. *)
Theorem SYS_with_other_X_does_nothing (m : Machine)
    (Hboundary : between_instructions m = true)
    (Hop : Memory_at (MEMORY (memory m)) (Some (pcRegister (cpu m))) = Num 0xFF)
    (Hx1 : xRegister (cpu m) <> 0x01)
    (Hx2 : xRegister (cpu m) <> 0x02)
    (Hx3 : xRegister (cpu m) <> 0x03) :
  exists m', ticks 5 m = Ret tt m' /\
    between_instructions m' = true /\
    system m' = system m /\
    pcRegister (cpu m') = pcRegister (cpu m) + 1 /\
    aRegister (cpu m') = aRegister (cpu m) /\
    xRegister (cpu m') = xRegister (cpu m) /\
    yRegister (cpu m') = yRegister (cpu m) /\
    zRegister (cpu m') = zRegister (cpu m) /\
    cRegister (cpu m') = cRegister (cpu m) /\
    MEMORY (memory m') = MEMORY (memory m).
Proof.
  start_instruction Hboundary.
  assert (Hdec : decodes_to 0xFF (xRegister (cpu m)) 0 Instruction.SYS fn_SYS).
  { eexists. split; [reflexivity|]. intros m0 Hm0. mred. rewrite Hm0.
    destruct (Z.eqb_spec (xRegister (cpu m)) 3); [contradiction|reflexivity]. }
  change 5%nat with ((3 + 2 * length (@nil Z)) + (1 + 1))%nat.
  rewrite ticks_add.
  rewrite (ticks_prologue m 0xFF Instruction.SYS fn_SYS [])
    by first [assumption | (intros k b Hk; discriminate)].
  next_tick Hclk.
  erewrite (tick_cpu _ _ _ _);
    [|rewrite Cpu_pulse_SYS_unknown by side'; reflexivity|side'..].
  next_tick Hclk.
  erewrite (tick_cpu _ _ _ _);
    [|rewrite Cpu_pulse_InterruptCheck_none; [reflexivity|side'..]|side'..].
  eexists; split; [reflexivity|].
  split; [boundary_goal|].
  cbn; repeat apply conj; first [reflexivity | lia].
Qed.

Lemma string_app_assoc (a b c : string) : (a +:+ b) +:+ c = a +:+ (b +:+ c).
Proof.
  induction a as [|x a IH]; [reflexivity|].
  change (String x ((a +:+ b) +:+ c) = String x (a +:+ (b +:+ c))). rewrite IH. reflexivity.
Qed.

Lemma string_app_nil_r (a : string) : a +:+ "" = a.
Proof.
  induction a as [|x a IH]; [reflexivity|].
  change (String x (a +:+ "") = String x a). rewrite IH. reflexivity.
Qed.

Lemma Cpu_pulse_SYS_print_first (m : Machine) (start : Z) :
  running (system m) = true ->
  _isLoading (mmu m) = false ->
  fetchCount (cpu m) = 0%nat ->
  step (cpu m) = PipelineStep.Execute ->
  currentCyclePulseCount (cpu m) = 0%nat ->
  executeFunction (cpu m) = Some fn_SYS ->
  (xRegister (cpu m) = 0x02 /\ start = Z.lor (Z.shiftl 0x00 8) (yRegister (cpu m))) \/
  (xRegister (cpu m) = 0x03 /\ start = operand_address (cpu m)) ->
  Cpu_pulse m =
  Ret tt (upd_memory (with_isReadPending true)
           (upd_memory (with_MAR (Some start))
             (upd_cpu (fun c => with_writeAddress (Some start)
                                  (with_currentCyclePulseCount 1%nat c)) m))).
Proof.
  intros Hrun Hload Hfetch Hstep Hcount Hfn Hx.
  destruct m as [c me u s ic ck lg]; destruct c, s, u, me;
    cbn -[operand_address Z.lor Z.shiftl] in *; subst.
  destruct Hx as [[-> ->]|[-> ->]]; reflexivity.
Qed.

Lemma Cpu_pulse_SYS_print_char (m : Machine) (n : nat) (cursor ch : Z) :
  running (system m) = true ->
  _isLoading (mmu m) = false ->
  fetchCount (cpu m) = 0%nat ->
  step (cpu m) = PipelineStep.Execute ->
  currentCyclePulseCount (cpu m) = S n ->
  executeFunction (cpu m) = Some fn_SYS ->
  xRegister (cpu m) = 0x02 \/ xRegister (cpu m) = 0x03 ->
  writeAddress (cpu m) = Some cursor ->
  MDR (memory m) = Num ch ->
  printable ch ->
  Cpu_pulse m =
  Ret tt (upd_memory (with_isReadPending true)
           (upd_memory (with_MAR (Some (cursor + 1)))
             (upd_cpu (fun c => with_writeAddress (Some (cursor + 1))
                                  (with_currentCyclePulseCount (S (S n)) c))
                (upd_system (fun s =>
                   with_programOutput (programOutput s +:+ printed_char ch) s) m)))).
Proof.
  intros Hrun Hload Hfetch Hstep Hcount Hfn Hx Hwa Hmdr [Hnz Hbyte].
  assert (E0 : (ch =? 0) = false) by (apply Z.eqb_neq; exact Hnz).
  assert (E1 : (ch <? 0) = false) by (apply Z.ltb_ge; lia).
  assert (E2 : (255 <? ch) = false) by (apply Z.ltb_ge; lia).
  destruct m as [c me u s ic ck lg]; destruct c, s, u, me; cbn in *; subst.
  unfold printed_char.
  destruct ch as [|p|p]; [contradiction| |lia].
  destruct Hx as [-> | ->]; unfold_pulse; cbn -[AsciiMap_has Z.ltb];
    rewrite E1, E2; cbn -[AsciiMap_has];
    destruct (AsciiMap_has (Z.pos p)); reflexivity.
Qed.

Lemma cells_at_head (cells : list Z) (a b : Z) (bytes : list Z) :
  cells_at cells a (b :: bytes) -> Memory_at cells (Some a) = Num b.
Proof. intros H. apply cells_at_cons in H. apply H. Qed.

Lemma cells_at_terminated (cells : list Z) (a : Z) (bytes : list Z) :
  cells_at cells a (bytes ++ [0]) -> exists b, Memory_at cells (Some a) = Num b.
Proof.
  intros H. destruct bytes as [|b bytes]; eexists; eapply cells_at_head; exact H.
Qed.

(** The pulses of a string print from the first character read to the
    terminator. *)
Lemma ticks_print_loop (chars : list Z) : forall (m : Machine) (n : nat) (cursor : Z),
  running (system m) = true ->
  isRunning (clock m) = true ->
  _isLoading (mmu m) = false ->
  fetchCount (cpu m) = 0%nat ->
  step (cpu m) = PipelineStep.Execute ->
  currentCyclePulseCount (cpu m) = S n ->
  executeFunction (cpu m) = Some fn_SYS ->
  xRegister (cpu m) = 0x02 \/ xRegister (cpu m) = 0x03 ->
  writeAddress (cpu m) = Some cursor ->
  truthy (writeValue (cpu m)) = false ->
  MAR (memory m) = Some cursor ->
  MDR (memory m) = Memory_at (MEMORY (memory m)) (Some cursor) ->
  isReadPending (memory m) = false ->
  isWritePending (memory m) = false ->
  waiting m = [] ->
  Forall printable chars ->
  cells_at (MEMORY (memory m)) cursor (chars ++ [0]) ->
  ticks (length chars + 1) m =
  Ret tt (with_memory
    {| MEMORY := MEMORY (memory m);
       MAR := Some (cursor + Z.of_nat (length chars));
       MDR := Num 0;
       isReadPending := false; isWritePending := false |}
    (with_system (with_programOutput (programOutput (system m) +:+ printed chars) (system m))
       (with_cpu
          (with_step PipelineStep.InterruptCheck
             (with_currentCyclePulseCount 0%nat
                (with_writeAddress (Some (cursor + Z.of_nat (length chars))) (cpu m))))
          m))).
Proof.
  induction chars as [|ch rest IH];
    intros m n cursor Hrun Hclk Hload Hfetch Hstep Hcount Hfn Hx Hwa Hwv Hmar Hmdr Hr Hw Hq
      Hchars Hcells.
  - pose proof (cells_at_head _ _ _ _ Hcells) as H0. rewrite H0 in Hmdr.
    cbn [length Nat.add]. next_tick Hclk.
    erewrite (Clock_pulse_quiet _ _ cursor 0);
      [|rewrite (Cpu_pulse_SYS_print_done m n cursor) by assumption; reflexivity
       |cbn; assumption..].
    cbn [ticks]. unfold skip. mred.
    destruct m as [[] [] u [] ic ck lg]. cbn -[truthy] in *. subst.
    cbv -[Z.add Z.of_nat String.append printed length truthy andb].
    rewrite Hwv, andb_false_r, Z.add_0_r, string_app_nil_r. reflexivity.
  - pose proof (cells_at_head _ _ _ _ Hcells) as Hch. rewrite Hch in Hmdr.
    apply cells_at_cons in Hcells as [_ Hrest].
    apply Forall_cons in Hchars as [Hp Hchars].
    destruct (cells_at_terminated _ _ _ Hrest) as [b Hnext].
    pose proof (Memory_at_Num _ _ _ Hnext) as Hrange.
    cbn [length Nat.add]. next_tick Hclk.
    erewrite (Clock_pulse_read _ _ (cursor + 1));
      [|rewrite (Cpu_pulse_SYS_print_char m n cursor ch) by assumption; reflexivity
       |cbn; first [assumption | reflexivity]..].
    rewrite (IH _ (S n) (cursor + 1));
      [|cbn [system clock mmu cpu memory with_memory upd_memory upd_cpu upd_system
             with_cpu with_system running isRunning fetchCount step currentCyclePulseCount
             executeFunction xRegister writeAddress writeValue with_writeAddress
             with_currentCyclePulseCount MAR MDR MEMORY isReadPending isWritePending
             with_isReadPending with_MAR waiting interruptController];
        first [assumption | reflexivity]..].
    clear IH.
    destruct m as [[] [] u [] ic ck lg]. cbn -[Z.of_nat] in *. subst.
    cbv -[Z.add Z.of_nat String.append printed printed_char length].
    rewrite string_app_assoc.
    replace (cursor + 1 + Z.of_nat (length rest)) with (cursor + Z.of_nat (S (length rest)))
      by lia.
    reflexivity.
Qed.

Ltac machine_fields :=
  cbn [system clock mmu cpu memory interruptController console
       with_memory upd_memory upd_cpu upd_system with_cpu with_system
       cpu_tick read_tick write_tick waiting
       running isRunning _isLoading
       fetchCount step currentCyclePulseCount currentFetch executeFunction
       aRegister xRegister yRegister zRegister cRegister pcRegister opcode operand
       writeAddress writeValue pendingInterrupt
       with_writeAddress with_currentCyclePulseCount with_step Cpu_at_Execute
       with_currentFetch with_fetchCount with_executeFunction with_iRegister with_operand
       with_pcRegister with_opcode
       MAR MDR MEMORY isReadPending isWritePending with_isReadPending with_MAR
       programOutput with_programOutput].

(** X12.  SYS with X = 3.  The string at the operand address is printed up
    to its terminator in 10 ticks plus one per character; the program
    counter is 3 further and the registers, the flags and the cells are
    as before. *)
Theorem SYS_3_prints_string_at_operand (m : Machine) (lo hi : Z) (chars : list Z)
    (Hboundary : between_instructions m = true)
    (Hop : Memory_at (MEMORY (memory m)) (Some (pcRegister (cpu m))) = Num 0xFF)
    (Hx : xRegister (cpu m) = 0x03)
    (Hlo : Memory_at (MEMORY (memory m)) (Some (pcRegister (cpu m) + 1)) = Num lo)
    (Hhi : Memory_at (MEMORY (memory m)) (Some (pcRegister (cpu m) + 2)) = Num hi)
    (Hwv : truthy (writeValue (cpu m)) = false)
    (Hchars : Forall printable chars)
    (Hcells : cells_at (MEMORY (memory m)) (Z.lor (Z.shiftl hi 8) lo) (chars ++ [0])) :
  exists m', ticks (10 + length chars) m = Ret tt m' /\
    between_instructions m' = true /\
    programOutput (system m') = (programOutput (system m) +:+ printed chars) /\
    writeAddress (cpu m') = Some (Z.lor (Z.shiftl hi 8) lo + Z.of_nat (length chars)) /\
    pcRegister (cpu m') = pcRegister (cpu m) + 3 /\
    aRegister (cpu m') = aRegister (cpu m) /\
    xRegister (cpu m') = xRegister (cpu m) /\
    yRegister (cpu m') = yRegister (cpu m) /\
    zRegister (cpu m') = zRegister (cpu m) /\
    cRegister (cpu m') = cRegister (cpu m) /\
    MEMORY (memory m') = MEMORY (memory m).
Proof.
  start_instruction Hboundary.
  assert (Hbytes : cells_at (MEMORY (memory m)) (pcRegister (cpu m) + 1) [lo; hi]).
  { apply cells_at_2; [|replace (pcRegister (cpu m) + 1 + 1)
                          with (pcRegister (cpu m) + 2) by lia]; assumption. }
  assert (Hdec : decodes_to 0xFF (xRegister (cpu m)) 2 Instruction.SYS fn_SYS).
  { eexists. split; [reflexivity|]. intros m0 Hm0. mred. rewrite Hm0, Hx. reflexivity. }
  destruct (cells_at_terminated _ _ _ Hcells) as [b0 Hb0].
  pose proof (Memory_at_Num _ _ _ Hb0) as Hrange.
  replace (10 + length chars)%nat
    with ((3 + 2 * length [lo; hi]) + (1 + ((length chars + 1) + 1)))%nat
    by (cbn [length]; lia).
  rewrite ticks_add.
  rewrite (ticks_prologue m 0xFF Instruction.SYS fn_SYS [lo; hi]) by assumption.
  set (c1 := Cpu_at_Execute (cpu m) 0xFF Instruction.SYS fn_SYS [lo; hi]) in *.
  assert (Ha : operand_address c1 = Z.lor (Z.shiftl hi 8) lo)
    by (apply (operand_address_stored _ (operand (cpu m))); reflexivity).
  set (a := Z.lor (Z.shiftl hi 8) lo) in *.
  next_tick Hclk.
  erewrite (tick_read _ _ a);
    [|rewrite (Cpu_pulse_SYS_print_first _ a);
        [reflexivity|side'|side'|side'|side'|side'|side'
        |right; split; [exact Hx|symmetry; exact Ha]]
     |side'..].
  rewrite ticks_add.
  rewrite (ticks_print_loop chars _ 0 a)
    by (unfold c1; machine_fields; first [assumption | reflexivity | (right; exact Hx)]).
  next_tick Hclk.
  erewrite (Clock_pulse_quiet _ _ _ _);
    [|rewrite Cpu_pulse_InterruptCheck_none;
        [reflexivity|unfold c1; machine_fields; first [assumption | reflexivity]..]
     |unfold c1; machine_fields; first [assumption | reflexivity]..].
  eexists; split; [reflexivity|].
  split.
  { apply between_instructions_spec; repeat apply conj;
      unfold c1; machine_fields; first [assumption | reflexivity | idtac].
    rewrite Hwv. apply andb_false_r. }
  unfold c1; machine_fields. repeat apply conj; first [reflexivity | (cbn [length]; lia)].
Qed.

(** X11.  SYS with X = 2.  The string that starts at address Y is printed
    one byte per tick up to its terminator, in 6 ticks plus one per
    character; a byte outside the table prints as undefined.  The
    registers, the flags and the cells are as before. *)
Theorem SYS_2_prints_string_at_Y (m : Machine) (chars : list Z)
    (Hboundary : between_instructions m = true)
    (Hop : Memory_at (MEMORY (memory m)) (Some (pcRegister (cpu m))) = Num 0xFF)
    (Hx : xRegister (cpu m) = 0x02)
    (Hwv : truthy (writeValue (cpu m)) = false)
    (Hchars : Forall printable chars)
    (Hcells : cells_at (MEMORY (memory m)) (yRegister (cpu m)) (chars ++ [0])) :
  exists m', ticks (6 + length chars) m = Ret tt m' /\
    between_instructions m' = true /\
    programOutput (system m') = (programOutput (system m) +:+ printed chars) /\
    writeAddress (cpu m') = Some (yRegister (cpu m) + Z.of_nat (length chars)) /\
    pcRegister (cpu m') = pcRegister (cpu m) + 1 /\
    aRegister (cpu m') = aRegister (cpu m) /\
    xRegister (cpu m') = xRegister (cpu m) /\
    yRegister (cpu m') = yRegister (cpu m) /\
    zRegister (cpu m') = zRegister (cpu m) /\
    cRegister (cpu m') = cRegister (cpu m) /\
    MEMORY (memory m') = MEMORY (memory m).
Proof.
  start_instruction Hboundary.
  assert (Hdec : decodes_to 0xFF (xRegister (cpu m)) 0 Instruction.SYS fn_SYS).
  { eexists. split; [reflexivity|]. intros m0 Hm0. mred. rewrite Hm0, Hx. reflexivity. }
  destruct (cells_at_terminated _ _ _ Hcells) as [b0 Hb0].
  pose proof (Memory_at_Num _ _ _ Hb0) as Hrange.
  replace (6 + length chars)%nat
    with ((3 + 2 * length (@nil Z)) + (1 + ((length chars + 1) + 1)))%nat
    by (cbn [length]; lia).
  rewrite ticks_add.
  rewrite (ticks_prologue m 0xFF Instruction.SYS fn_SYS [])
    by first [assumption | (intros k b Hk; discriminate)].
  set (c1 := Cpu_at_Execute (cpu m) 0xFF Instruction.SYS fn_SYS []) in *.
  set (a := yRegister (cpu m)) in *.
  next_tick Hclk.
  erewrite (tick_read _ _ a);
    [|rewrite (Cpu_pulse_SYS_print_first _ a);
        [reflexivity|side'|side'|side'|side'|side'|side'
        |left; split; [exact Hx|reflexivity]]
     |side'..].
  rewrite ticks_add.
  rewrite (ticks_print_loop chars _ 0 a)
    by (unfold c1; machine_fields; first [assumption | reflexivity | (left; exact Hx)]).
  next_tick Hclk.
  erewrite (Clock_pulse_quiet _ _ _ _);
    [|rewrite Cpu_pulse_InterruptCheck_none;
        [reflexivity|unfold c1; machine_fields; first [assumption | reflexivity]..]
     |unfold c1; machine_fields; first [assumption | reflexivity]..].
  eexists; split; [reflexivity|].
  split.
  { apply between_instructions_spec; repeat apply conj;
      unfold c1; machine_fields; first [assumption | reflexivity | idtac].
    rewrite Hwv. apply andb_false_r. }
  unfold c1; machine_fields. repeat apply conj; first [reflexivity | (cbn [length]; lia)].
Qed.

(** ** Bytes stay bytes *)

#[global] Instance bytes_kept_preorder : PreOrder bytes_kept.
Proof.
  split.
  - intros m. split; auto.
  - intros m1 m2 m3 [H1 H2] [H3 H4]. split; auto.
Qed.

Lemma land_is_byte (z : Z) : is_byte (Z.land z 0xFF).
Proof.
  unfold is_byte. change 255 with (Z.ones 8). rewrite Z.land_ones by lia.
  apply Z.mod_pos_bound. lia.
Qed.

Lemma Memory_store_bytes (cells : list Z) (mar : option Z) (v : jsnum) :
  Forall is_byte cells -> Forall is_byte (Memory_store cells mar v).
Proof.
  intros H. unfold Memory_store. destruct mar as [a|]; [|exact H].
  destruct (0 <=? a); [|exact H].
  apply Forall_insert; [exact H|].
  unfold is_byte, ToUint8. destruct v; [apply Z.mod_pos_bound|..]; lia.
Qed.

Ltac bytes_close H :=
  first [ exact H
        | apply Memory_store_bytes; exact H
        | destruct H as (? & ? & ?);
          refine (conj _ (conj _ _)); first [assumption | apply land_is_byte] ].

Ltac bytes_assign :=
  unfold bytes_kept, registers_are_bytes, cells_are_bytes;
  let H := fresh in
  split; intros H; cbn -[Z.land Memory_store];
  first [ bytes_close H
        | match goal with
          | |- context [if ?b then _ else _] =>
              destruct b; cbn -[Z.land Memory_store]; bytes_close H
          end ].

Ltac bytes_step :=
  first
    [ match goal with |- PreOrder _ => apply _ end
    | apply keeps_bind; [idtac..|intros ?]
    | apply keeps_try_catch; [idtac..|intros ?]
    | apply keeps_ret
    | apply keeps_mret
    | apply keeps_skip
    | apply keeps_get
    | apply keeps_throw
    | apply keeps_hexLog
    | apply keeps_hexLog_opt
    | apply keeps_modify; intros ?; bytes_assign
    | progress cbv zeta
    | match goal with
      | |- keeps _ (if ?b then _ else _) => destruct b
      | |- keeps _ (match ?x with _ => _ end) => destruct x
      end ].

Ltac bytes_auto := repeat bytes_step.

Lemma call_bytes (f : ExecuteFn) : keeps bytes_kept (call f).
Proof. destruct f; unfold_methods; bytes_auto. Qed.

Lemma InstructionSet_decodeMapper_bytes (op : Z) (decodeFunction : M unit) :
  InstructionSet_decodeMapper op = Some decodeFunction ->
  keeps bytes_kept decodeFunction.
Proof.
  unfold InstructionSet_decodeMapper. intros H.
  repeat case_match; simplify_eq; unfold_methods; bytes_auto.
Qed.

Lemma Cpu_pulse_bytes : keeps bytes_kept Cpu_pulse.
Proof.
  unfold Cpu_pulse, Cpu_pulse_body.
  apply keeps_try_catch; [apply _| |intros e; unfold_methods; bytes_auto].
  kbind; [bytes_auto|intros m].
  destruct (negb (running (system m))); [bytes_auto|].
  destruct (_isLoading (mmu m)); [bytes_auto|].
  destruct (0 <? fetchCount (cpu m))%nat; [unfold_methods; bytes_auto|].
  kbind; [bytes_auto|intros _].
  destruct (step (cpu m)); try (unfold_methods; bytes_auto; fail).
  - unfold Cpu_pulse_Decode. kbind; [bytes_auto|intros m1].
    kbind; [|intros ?; bytes_auto].
    destruct (InstructionSet_decodeMapper (opcode (cpu m1))) eqn:E; [|bytes_auto].
    eapply InstructionSet_decodeMapper_bytes, E.
  - unfold Cpu_pulse_Execute. kbind; [bytes_auto|intros m1].
    destruct (executeFunction (cpu m1)); [|bytes_auto].
    kbind; [apply call_bytes|intros again; bytes_auto].
Qed.

Lemma Memory_pulse_bytes : keeps bytes_kept Memory_pulse.
Proof. unfold_methods. bytes_auto. Qed.

Lemma InterruptController_pulse_bytes : keeps bytes_kept InterruptController_pulse.
Proof. unfold InterruptController_pulse. unfold_methods. bytes_auto. Qed.

Lemma Clock_pulse_bytes : keeps bytes_kept Clock_pulse.
Proof.
  unfold Clock_pulse.
  kbind; [apply Cpu_pulse_bytes|intros _].
  kbind; [apply Memory_pulse_bytes|intros _].
  apply InterruptController_pulse_bytes.
Qed.

Lemma ticks_bytes (n : nat) : keeps bytes_kept (ticks n).
Proof.
  induction n as [|n IH]; [bytes_auto|].
  cbn [ticks]. kbind; [|intros _; exact IH].
  unfold Clock_interval. kbind; [bytes_auto|intros m].
  destruct (isRunning (clock m)); [apply Clock_pulse_bytes|bytes_auto].
Qed.

(** X14.  The registers A, X and Y and the cells of the memory are bytes
    after every tick, once they are bytes; this holds for the machine an
    exception has left as well. *)
Theorem registers_and_cells_stay_bytes (n : nat) (m : Machine)
    (Hregisters : registers_are_bytes m)
    (Hcells : cells_are_bytes m) :
  registers_are_bytes (machine_of (ticks n m)) /\
  cells_are_bytes (machine_of (ticks n m)).
Proof.
  destruct (ticks_bytes n m) as [H1 H2]. split; auto.
Qed.

(** ** The instructions on the programs of the menu *)

Ltac by_run := vm_compute; reflexivity.

Lemma load_immediate_sets_register_witness :
  exists m', ticks 7 (run 7 prog_basic) = Ret tt m' /\
    aRegister (cpu m') = 5 /\ pcRegister (cpu m') = 2.
Proof.
  destruct (load_immediate_sets_register (run 7 prog_basic) 0xA9 5)
    as (m' & E & _ & Hpc & Ha & _).
  - by_run.
  - by_run.
  - left. reflexivity.
  - by_run.
  - exists m'. split; [exact E|]. rewrite Ha, Hpc. split; by_run.
Defined.

Lemma load_absolute_reads_memory_witness :
  exists m', ticks 10 (run 29 prog_print_integer) = Ret tt m' /\
    yRegister (cpu m') = 0x2A /\ aRegister (cpu m') = 0x2A.
Proof.
  destruct (load_absolute_reads_memory (run 29 prog_print_integer) 0xAC 0x40 0 0x2A)
    as (m' & E & _ & _ & Ha & _ & Hy & _).
  - by_run.
  - by_run.
  - right. right. reflexivity.
  - by_run.
  - by_run.
  - by_run.
  - exists m'. split; [exact E|]. rewrite Ha, Hy. split; by_run.
Defined.

Lemma STA_stores_accumulator_witness :
  exists m', ticks 10 (run 18 prog_adc_carry) = Ret tt m' /\
    MEMORY (memory m') !! 16%nat = Some 0xFF.
Proof.
  destruct (STA_stores_accumulator (run 18 prog_adc_carry) 0x10 0)
    as (m' & E & _ & Hcells & _).
  - by_run.
  - by_run.
  - by_run.
  - by_run.
  - vm_compute. split; [discriminate|reflexivity].
  - exists m'. split; [exact E|]. rewrite Hcells. by_run.
Defined.

Lemma transfer_copies_register_witness :
  exists m', ticks 5 (run 14 prog_basic) = Ret tt m' /\
    xRegister (cpu m') = 5 /\ aRegister (cpu m') = 5.
Proof.
  destruct (transfer_copies_register (run 14 prog_basic) 0xAA)
    as (m' & E & _ & _ & Ha & Hx & _).
  - by_run.
  - by_run.
  - right. right. left. reflexivity.
  - exists m'. split; [exact E|]. rewrite Ha, Hx. split; by_run.
Defined.

Lemma CPX_compares_with_memory_witness :
  exists m', ticks 10 (run 17 prog_branch_taken) = Ret tt m' /\
    zRegister (cpu m') <> true /\ cRegister (cpu m') = true.
Proof.
  destruct (CPX_compares_with_memory (run 17 prog_branch_taken) 0x20 0 0)
    as (m' & E & _ & Hz & Hc & _).
  - by_run.
  - by_run.
  - by_run.
  - by_run.
  - by_run.
  - vm_compute. split; [discriminate|reflexivity].
  - lia.
  - exists m'. split; [exact E|]. split.
    + intros H. apply Hz in H. vm_compute in H. discriminate H.
    + apply Hc. vm_compute. discriminate.
Defined.

Lemma BNE_branches_when_Z_clear_witness :
  exists m', ticks 7 (run 27 prog_branch_taken) = Ret tt m' /\
    pcRegister (cpu m') = 9.
Proof.
  destruct (BNE_branches_when_Z_clear (run 27 prog_branch_taken) 2)
    as (m' & E & _ & Hpc & _).
  - by_run.
  - by_run.
  - by_run.
  - exists m'. split; [exact E|]. rewrite Hpc. by_run.
Defined.

Lemma INC_increments_memory_witness :
  exists m', ticks 11 (run 4 (prog_inc_times 1 0x0400)) = Ret tt m' /\
    MEMORY (memory m') !! 1024%nat = Some 1.
Proof.
  destruct (INC_increments_memory (run 4 (prog_inc_times 1 0x0400)) 0 4 0)
    as (m' & E & _ & Hcells & _).
  - by_run.
  - by_run.
  - by_run.
  - by_run.
  - by_run.
  - vm_compute. discriminate.
  - lia.
  - exists m'. split; [exact E|]. rewrite Hcells. by_run.
Defined.

Lemma BRK_stops_the_machine_witness :
  exists m', ticks 100 (run 31 prog_basic) = Ret tt m' /\
    running (system m') = false /\ isRunning (clock m') = false.
Proof.
  destruct (BRK_stops_the_machine (run 31 prog_basic))
    as (m' & _ & E & Hrun & Hclk & _).
  - by_run.
  - by_run.
  - exists m'. split; [exact (E 96%nat)|]. split; assumption.
Defined.

Lemma SYS_1_prints_Y_in_decimal_witness :
  exists m', ticks 5 (run 46 prog_print_integer) = Ret tt m' /\
    programOutput (system m') = "42".
Proof.
  destruct (SYS_1_prints_Y_in_decimal (run 46 prog_print_integer))
    as (m' & E & _ & Hout & _).
  - by_run.
  - by_run.
  - by_run.
  - exists m'. split; [exact E|]. rewrite Hout. by_run.
Defined.

Lemma SYS_with_other_X_does_nothing_witness :
  exists m', ticks 5 (run 2 prog_sys_idle) = Ret tt m' /\
    programOutput (system m') = "".
Proof.
  destruct (SYS_with_other_X_does_nothing (run 2 prog_sys_idle))
    as (m' & E & _ & Hsys & _).
  - by_run.
  - by_run.
  - vm_compute. discriminate.
  - vm_compute. discriminate.
  - vm_compute. discriminate.
  - exists m'. split; [exact E|]. rewrite Hsys. by_run.
Defined.

Lemma printable_check (chars : list Z) :
  forallb (fun b => negb (b =? 0) && (0 <=? b) && (b <=? 255)) chars = true ->
  Forall printable chars.
Proof.
  intros H. apply Forall_forall. intros b Hb.
  apply list_elem_of_In in Hb. apply (proj1 (forallb_forall _ _) H) in Hb.
  apply andb_prop in Hb as [Hb H2]. apply andb_prop in Hb as [H0 H1].
  unfold printable. apply negb_true_iff, Z.eqb_neq in H0. lia.
Qed.

Ltac cell_by_run Hk k :=
  destruct k as [|k]; [injection Hk as <-; vm_compute; reflexivity|].

Lemma SYS_3_prints_string_at_operand_witness :
  exists m', ticks 16 (run 20 prog_hello) = Ret tt m' /\
    programOutput (system m') = "Hello!".
Proof.
  destruct (SYS_3_prints_string_at_operand (run 20 prog_hello) 6 0
              [0x48; 0x65; 0x6C; 0x6C; 0x6F; 0x21])
    as (m' & E & _ & Hout & _).
  - by_run.
  - by_run.
  - by_run.
  - by_run.
  - by_run.
  - by_run.
  - apply printable_check. by_run.
  - intros k b Hk. do 7 (cell_by_run Hk k). discriminate Hk.
  - exists m'. split; [exact E|]. rewrite Hout. by_run.
Defined.

Lemma SYS_2_prints_string_at_Y_witness :
  exists m', ticks 8 (run 24 prog_print_at_Y) = Ret tt m' /\
    programOutput (system m') = "OK".
Proof.
  destruct (SYS_2_prints_string_at_Y (run 24 prog_print_at_Y) [0x4F; 0x4B])
    as (m' & E & _ & Hout & _).
  - by_run.
  - by_run.
  - by_run.
  - by_run.
  - apply printable_check. by_run.
  - intros k b Hk. do 3 (cell_by_run Hk k). discriminate Hk.
  - exists m'. split; [exact E|]. rewrite Hout. by_run.
Defined.

Lemma bytes_check (cells : list Z) :
  forallb (fun z => (0 <=? z) && (z <? 256)) cells = true -> Forall is_byte cells.
Proof.
  intros H. apply Forall_forall. intros b Hb.
  apply list_elem_of_In in Hb. apply (proj1 (forallb_forall _ _) H) in Hb.
  apply andb_prop in Hb as [H0 H1]. unfold is_byte. lia.
Qed.

Lemma registers_and_cells_stay_bytes_witness :
  registers_are_bytes (machine_of (ticks 35 (boot true false (anonymous prog_basic)))) /\
  cells_are_bytes (machine_of (ticks 35 (boot true false (anonymous prog_basic)))).
Proof.
  apply registers_and_cells_stay_bytes.
  - vm_compute. repeat split; discriminate.
  - apply bytes_check. by_run.
Defined.

(** ** The InterruptCheck stage *)

(** A tick in which the Memory has nothing to do: the controller hands
    its selection to the Cpu and empties its queue. *)
Lemma Clock_pulse_idle (m m1 : Machine) (a v : Z) :
  Cpu_pulse m = Ret tt m1 ->
  isWritePending (memory m1) = false ->
  isReadPending (memory m1) = false ->
  MAR (memory m1) = Some a ->
  MDR (memory m1) = Num v ->
  Clock_pulse m =
  Ret tt (with_interruptController {| waitingInterrupts := [] |}
    (upd_cpu (with_pendingInterrupt
       (latch (snd (InterruptController_scan (waiting m1))) (pending m1))) m1)).
Proof.
  intros E Hw Hr Hmar Hmdr. unfold Clock_pulse. mred. rewrite E.
  destruct m1 as [c [cells mar mdr rp wp] u s [q] ck lg]. cbn in *. subst.
  unfold Memory_pulse. mred. cbn. rewrite InterruptController_pulse_eq. reflexivity.
Qed.

Lemma Cpu_pulse_InterruptCheck_quit (m : Machine) (i : Interrupt) :
  running (system m) = true ->
  _isLoading (mmu m) = false ->
  fetchCount (cpu m) = 0%nat ->
  step (cpu m) = PipelineStep.InterruptCheck ->
  pending m = Some i ->
  is_quit i = true ->
  Cpu_pulse m =
  Ret tt (with_interruptController
           {| waitingInterrupts := queue_after_stop (system m) (waiting m) |}
           (with_clock {| isRunning := false |}
             (with_system (stopped_System (system m))
                (upd_cpu (fun c =>
                   with_pendingInterrupt None
                     (with_currentCyclePulseCount (S (currentCyclePulseCount c)) c)) m)))).
Proof.
  unfold pending, waiting, is_quit, queue_after_stop. intros Hrun Hload Hfetch Hstep Hp Hq.
  destruct m as [c me u s [q] ck lg]; destruct c, s, u, me; cbn in *; subst.
  unfold Cpu_pulse, try_catch, Cpu_pulse_body. mred. cbn.
  unfold Cpu_pulse_InterruptCheck. mred. cbn. rewrite Hq. cbn.
  match goal with p : option Program |- _ => destruct p end; reflexivity.
Qed.

Lemma Cpu_pulse_InterruptCheck_other (m : Machine) (i : Interrupt) :
  running (system m) = true ->
  _isLoading (mmu m) = false ->
  fetchCount (cpu m) = 0%nat ->
  step (cpu m) = PipelineStep.InterruptCheck ->
  pending m = Some i ->
  is_quit i = false ->
  Cpu_pulse m =
  Ret tt (upd_cpu (fun c =>
            with_step PipelineStep.Fetch
              (with_currentCyclePulseCount 0%nat (with_pendingInterrupt None c))) m).
Proof.
  unfold pending, is_quit. intros Hrun Hload Hfetch Hstep Hp Hq.
  destruct m as [c me u s [q] ck lg]; destruct c, s, u, me; cbn in *; subst.
  unfold Cpu_pulse, try_catch, Cpu_pulse_body. mred. cbn.
  unfold Cpu_pulse_InterruptCheck. mred. cbn. rewrite Hq. reflexivity.
Qed.

(** X15.  The InterruptCheck stage with an interrupt pending, whatever
    waits in the queue of the controller.  The key q of the keyboard, in
    either case, stops the System for good; any other pending interrupt is
    dropped and the Cpu goes on with the next fetch.  The registers, the
    flags and the Memory are as before in both cases.  The controller
    pulses after the Cpu in the same tick: it empties its queue and the
    Cpu then holds what the loop of the controller selects from the queue,
    which is the queue from before the tick unless [stopSystem] emptied
    it, as it does when a program is current; nothing is pending after
    the tick when the queue was empty. *)
Theorem quit_key_stops_other_interrupts_are_dropped (m : Machine) (i : Interrupt) (a v : Z)
    (Hrun : running (system m) = true)
    (Hclk : isRunning (clock m) = true)
    (Hload : _isLoading (mmu m) = false)
    (Hfetch : fetchCount (cpu m) = 0%nat)
    (Hstep : step (cpu m) = PipelineStep.InterruptCheck)
    (Hpending : pending m = Some i)
    (Hmar : MAR (memory m) = Some a)
    (Hmdr : MDR (memory m) = Num v)
    (Hread : isReadPending (memory m) = false)
    (Hwrite : isWritePending (memory m) = false) :
  exists m', ticks 1 m = Ret tt m' /\
    waiting m' = [] /\
    memory m' = memory m /\
    actualRegisters m' = actualRegisters m /\
    pcRegister (cpu m') = pcRegister (cpu m) /\
    (waiting m = [] -> pending m' = None) /\
    if is_quit i
    then (forall n, ticks (S n) m = Ret tt m') /\
         isRunning (clock m') = false /\
         system m' = stopped_System (system m) /\
         pending m' =
           snd (InterruptController_scan (queue_after_stop (system m) (waiting m)))
    else step (cpu m') = PipelineStep.Fetch /\
         currentCyclePulseCount (cpu m') = 0%nat /\
         isRunning (clock m') = true /\
         system m' = system m /\
         pending m' = snd (InterruptController_scan (waiting m)).
Proof.
  assert (Hlatch : forall x : option Interrupt, latch x None = x) by (intros []; reflexivity).
  destruct (is_quit i) eqn:Hq.
  - pose proof (Cpu_pulse_InterruptCheck_quit m i Hrun Hload Hfetch Hstep Hpending Hq) as E1.
    pose proof (Clock_pulse_idle _ _ a v E1) as E.
    destruct m as [c me u s [q] ck lg]. cbn in Hclk, Hmar, Hmdr, Hread, Hwrite.
    specialize (E Hwrite Hread Hmar Hmdr).
    change (pending _) with (@None Interrupt) in E at 1.
    rewrite Hlatch in E.
    eexists. split; [rewrite ticks_S; cbn [clock]; rewrite Hclk, E; reflexivity|].
    repeat apply conj; try (destruct c; reflexivity).
    { cbn. intros ->. destruct c, s as [r [p|] o]; reflexivity. }
    intros n. rewrite ticks_S. cbn [clock]. rewrite Hclk, E. apply ticks_stopped. reflexivity.
  - pose proof (Cpu_pulse_InterruptCheck_other m i Hrun Hload Hfetch Hstep Hpending Hq) as E1.
    pose proof (Clock_pulse_idle _ _ a v E1) as E.
    destruct m as [c me u s [q] ck lg]. cbn in Hclk, Hmar, Hmdr, Hread, Hwrite.
    specialize (E Hwrite Hread Hmar Hmdr).
    change (pending _) with (@None Interrupt) in E at 1.
    rewrite Hlatch in E.
    eexists. split; [rewrite ticks_S; cbn [clock]; rewrite Hclk, E; reflexivity|].
    repeat apply conj; try (destruct c; cbn in *; assumption || reflexivity).
    cbn. intros ->. destruct c; reflexivity.
Qed.

Lemma quit_key_stops_other_interrupts_are_dropped_witness :
  exists m',
    ticks 50 machine_two_keys = Ret tt m' /\
    isRunning (clock m') = false /\ aRegister (cpu m') = 5 /\
    pending m' = None /\ waiting m' = [].
Proof.
  destruct (quit_key_stops_other_interrupts_are_dropped machine_two_keys
              (key_interrupt 113) 1 5)
    as (m' & _ & Hw & _ & Hregs & _ & _ & Hquit).
  - by_run.
  - by_run.
  - by_run.
  - by_run.
  - by_run.
  - by_run.
  - by_run.
  - by_run.
  - by_run.
  - by_run.
  - change (is_quit (key_interrupt 113)) with true in Hquit.
    destruct Hquit as (E & Hclk & _ & Hp).
    exists m'. split; [exact (E 49%nat)|]. split; [exact Hclk|].
    split; [|split; [rewrite Hp; by_run|exact Hw]].
    apply (f_equal (fun r => fst (fst (fst (fst r))))) in Hregs.
    cbn [actualRegisters fst] in Hregs. rewrite Hregs. by_run.
Defined.

(** ** The start of a program *)

(** A tick of the load leaves the System and the console alone, and of the
    Cpu it changes the pending interrupt only, which the controller sets. *)
Lemma Clock_pulse_loading_handover (m m' : Machine) :
  _isLoading (mmu m) = true ->
  Clock_pulse m = Ret tt m' ->
  cpu m' = with_pendingInterrupt
             (latch (snd (InterruptController_scan (waiting m))) (pending m)) (cpu m) /\
  system m' = system m /\
  waiting m' = [] /\
  console m' = console m.
Proof.
  intros Hload. unfold Clock_pulse. mred.
  rewrite (Cpu_pulse_loading m Hload).
  pose proof (Memory_pulse_frame m) as (Hc & Hs & Hic & _ & Hlg & _).
  destruct (Memory_pulse m) as [[] m1|e m1]; cbn [machine_of] in *; [|discriminate].
  rewrite InterruptController_pulse_eq. intros [= <-].
  unfold waiting, pending in *. cbn. rewrite Hc, Hs, Hic, Hlg. auto.
Qed.

Lemma ticks_loading_handover (size : nat) (program : list Z) (j k : nat) (m : Machine) :
  (length program <= size)%nat ->
  loading_at size program j m ->
  (j + k < length program)%nat ->
  exists m', ticks k m = Ret tt m' /\
    loading_at size program (j + k) m' /\
    latch (snd (InterruptController_scan (waiting m'))) (pending m') =
      latch (snd (InterruptController_scan (waiting m))) (pending m) /\
    cpu m' = with_pendingInterrupt (pending m') (cpu m) /\
    system m' = system m /\ console m' = console m.
Proof.
  intros Hfit. revert j m. induction k as [|k IH]; intros j m Hm Hk.
  - exists m. rewrite Nat.add_0_r. unfold pending. destruct (cpu m); auto 10.
  - pose proof Hm as (_ & _ & Hload & _ & _ & _ & _ & _ & Hclk).
    rewrite ticks_S, Hclk.
    destruct (Clock_pulse_loading size program j m) as (m1 & E & Hm1); [lia|exact Hm|].
    pose proof (Clock_pulse_loading_handover m m1 Hload E) as (Hc & Hs & Hq1 & Hlg).
    rewrite E.
    replace (S j <? length program)%nat with true in Hm1
      by (symmetry; apply Nat.ltb_lt; lia).
    destruct (IH (S j) m1 Hm1) as (m2 & E2 & Hm2 & Hp2 & Hc2 & Hs2 & Hlg2); [lia|].
    exists m2. replace (j + S k)%nat with (S j + k)%nat by lia.
    split; [exact E2|]. split; [exact Hm2|].
    repeat apply conj; try congruence.
    + rewrite Hp2, Hq1. unfold pending in *. rewrite Hc. destruct (cpu m); reflexivity.
    + unfold pending in *. rewrite Hc2, Hc. destruct (cpu m); reflexivity.
Qed.

Lemma System_runProgram_start (program : Program) (m0 : Machine) :
  isReadPending (memory m0) = false ->
  let size := length (MEMORY (memory m0)) in
  exists m1, System_runProgram program m0 = Ret tt m1 /\
    cpu m1 = cpu (machine_of (Cpu_reset m0)) /\
    system m1 = {| running := true; currentProgram := Some program;
                   programOutput := programOutput (system m0) |} /\
    waiting m1 = [] /\
    console m1 = console m0 /\
    isRunning (clock m1) = true /\
    isReadPending (memory m1) = false /\
    match code program with
    | [] => _isLoading (mmu m1) = false /\
            isWritePending (memory m1) = isWritePending (memory m0) /\
            MEMORY (memory m1) = replicate size 0
    | _ :: _ => loading_at size (code program) 0 m1
    end.
Proof.
  intros Hr size. subst size.
  destruct m0 as [c [cells mar mdr rp wp] [queue la loading] s ic ck lg].
  cbn in Hr. subst rp.
  unfold System_runProgram, Cpu_reset, InterruptController_clearInterrupts, Clock_startClock,
    MMU_setProgram, MMU_reset, Memory_reset, Memory_init, MMU_loadProgram,
    MMU_writeImmediate, Memory_setMAR, Memory_setMDR, Memory_write. mred.
  cbn -[replicate].
  destruct (code program) as [|b rest] eqn:Hcode; cbn -[replicate].
  - eexists. split; [reflexivity|]. cbn -[replicate].
    rewrite !length_replicate. destruct s. repeat apply conj; reflexivity.
  - eexists. split; [reflexivity|]. unfold loading_at, loaded_cells. cbn -[replicate].
    rewrite !length_replicate, Nat.sub_0_r, drop_0. destruct s.
    repeat apply conj; try reflexivity. exists b. auto.
Qed.

(** The machine when the two listeners have returned. *)
Lemma stdin_data_selects_start (silentMode : bool) (key : Z) (program : Program)
    (m0 : Machine) :
  isReadPending (memory m0) = false ->
  let size := length (MEMORY (memory m0)) in
  exists m1, stdin_data_selects silentMode key program m0 = Ret tt m1 /\
    cpu m1 = cpu (machine_of (Cpu_reset m0)) /\
    system m1 = {| running := true; currentProgram := Some program;
                   programOutput := programOutput (system m0) |} /\
    waiting m1 = [key_interrupt key] /\
    console m1 = console m0 /\
    match code program with
    | [] => True
    | _ :: _ => loading_at size (code program) 0 m1
    end.
Proof.
  intros Hr size. subst size.
  set (m0' := if silentMode then m0
              else machine_of (InterruptController_acceptInterrupt (key_interrupt key) m0)).
  assert (H0 : cpu m0' = cpu m0 /\ memory m0' = memory m0 /\ system m0' = system m0 /\
               console m0' = console m0)
    by (subst m0'; destruct silentMode; auto).
  destruct H0 as (Hc0 & Hme0 & Hs0 & Hlg0).
  assert (E0 : stdin_data_selects silentMode key program m0 =
               (System_runProgram program;;
                InterruptController_acceptInterrupt (key_interrupt key)) m0')
    by (subst m0'; destruct silentMode; reflexivity).
  destruct (System_runProgram_start program m0')
    as (m1 & E1 & Hc1 & Hs1 & Hq1 & Hlg1 & Hclk1 & Hr1 & Hm1); [rewrite Hme0; exact Hr|].
  rewrite E0. mred. rewrite E1.
  unfold InterruptController_acceptInterrupt. mred.
  eexists. split; [reflexivity|].
  unfold waiting in *. cbn. rewrite Hq1, Hc1, Hs1, Hlg1, Hs0, Hlg0.
  repeat apply conj; try reflexivity.
  - destruct m0, m0'. cbn in Hc0 |- *. rewrite Hc0. reflexivity.
  - rewrite Hme0 in Hm1. destruct (code program); [exact I|].
    destruct m1 as [c me u s ic ck lg]. exact Hm1.
Qed.

(** X16.  The start of a program by a key of the menu.  The handler of
    the menu resets the machine, starts the load and empties the queue of
    the controller; the keyboard of the ProgramMenu, whose listener comes
    after it, then queues the key.  One tick per byte later the program is
    in the memory from address 0, the rest of the memory is zero, the
    registers are reset and the Cpu is about to fetch at address 0, with
    the key of the selection as its pending interrupt and nothing else
    pending or waiting.  The output, the error lines of the console and
    the latched write value are left from before. *)
Theorem program_start_hands_over_to_the_Cpu (silentMode : bool) (key : Z)
    (program : Program) (m0 : Machine)
    (Hread : isReadPending (memory m0) = false)
    (Hcode : code program <> [])
    (Hfit : (length (code program) <= length (MEMORY (memory m0)))%nat) :
  exists m,
    (stdin_data_selects silentMode key program;; ticks (length (code program))) m0
      = Ret tt m /\
    pending m = Some (key_interrupt key) /\
    waiting m = [] /\
    between_instructions (upd_cpu (with_pendingInterrupt None) m) = true /\
    MEMORY (memory m) =
      loaded_cells (length (MEMORY (memory m0))) (code program) (length (code program)) /\
    pcRegister (cpu m) = 0 /\
    actualRegisters m = (0, 0, 0, false, false) /\
    writeValue (cpu m) = writeValue (cpu m0) /\
    system m = {| running := true; currentProgram := Some program;
                  programOutput := programOutput (system m0) |} /\
    console m = console m0.
Proof.
  destruct (stdin_data_selects_start silentMode key program m0 Hread)
    as (m1 & E1 & Hc1 & Hs1 & Hq1 & Hlg1 & Hm1).
  mred. rewrite E1. cbv beta iota.
  destruct (code program) as [|b0 rest] eqn:Hprog; [contradiction|].
  rewrite <- Hprog in *. clear Hcode.
  set (size := length (MEMORY (memory m0))) in *.
  assert (Hlen : (0 < length (code program))%nat) by (rewrite Hprog; cbn; lia).
  destruct (ticks_loading_handover size (code program) 0 (length (code program) - 1) m1)
    as (m2 & E2 & Hm2 & Hp2 & Hc2 & Hs2 & Hlg2); [exact Hfit|exact Hm1|lia|].
  cbn [Nat.add] in Hm2.
  replace (ticks (length (code program)) m1)
    with (ticks ((length (code program) - 1) + 1) m1) by (f_equal; lia).
  rewrite ticks_add, E2.
  destruct Hm2 as (Hq & Hla & Hload & Hmar & (b & Hb & Hmdr) & Hw & Hr & Hcells & Hclk).
  rewrite ticks_S, Hclk. unfold Clock_pulse. mred.
  rewrite (Cpu_pulse_loading m2 Hload).
  rewrite (Memory_pulse_loading m2 (Z.of_nat (length (code program) - 1)) b);
    try assumption; [|rewrite Hcells, loaded_cells_length by lia; lia].
  rewrite Nat2Z.id, Hcells, loaded_cells_insert, Hq by (assumption || lia).
  replace (S (length (code program) - 1)) with (length (code program)) by lia.
  rewrite drop_ge by lia.
  rewrite InterruptController_pulse_eq. cbn [ticks skip].
  eexists. split; [reflexivity|].
  assert (Hkey : latch (snd (InterruptController_scan (waiting m2))) (pending m2) =
                 Some (key_interrupt key)).
  { rewrite Hp2, Hq1. unfold pending. rewrite Hc1. reflexivity. }
  assert (Hsys : system m2 = {| running := true; currentProgram := Some program;
                                programOutput := programOutput (system m0) |}) by congruence.
  rewrite Hc1 in Hc2.
  clear E1 E2 Hm1 Hp2.
  destruct m0 as [c0 me0 u0 s0 ic0 ck0 lg0].
  destruct m2 as [c2 me2 u2 s2 [q2] ck2 lg2].
  unfold waiting, pending, actualRegisters in *.
  cbn in Hc2, Hsys, Hkey, Hclk, Hlg2, Hlg1 |- *.
  rewrite Hkey. subst s2. rewrite Hc2. cbn.
  split; [reflexivity|]. split; [reflexivity|].
  split; [apply between_instructions_spec; cbn; rewrite Hclk; repeat apply conj; reflexivity|].
  repeat apply conj; try reflexivity. congruence.
Qed.

Lemma program_start_hands_over_to_the_Cpu_witness :
  exists m,
    (stdin_data_selects true 50 (anonymous prog_hello);; ticks 13) (run 35 prog_basic)
      = Ret tt m /\
    pending m = Some (key_interrupt 50) /\
    actualRegisters m = (0, 0, 0, false, false).
Proof.
  destruct (program_start_hands_over_to_the_Cpu true 50 (anonymous prog_hello)
              (run 35 prog_basic))
    as (m & E & Hp & _ & _ & _ & _ & Hregs & _).
  - by_run.
  - discriminate.
  - apply Nat.leb_le. by_run.
  - exists m. split; [exact E|]. split; assumption.
Defined.

(** ** ADC from boundary to boundary *)

(** X5.  ADC as a whole instruction.  In 10 ticks the accumulator and the
    carry together hold the sum of the accumulator, the addressed cell and
    the carry that is added in carry mode; the zero flag, X, Y, the cells
    and the System are as before. *)
Theorem ADC_instruction_adds_memory (m : Machine) (lo hi v : Z)
    (Hboundary : between_instructions m = true)
    (Hop : Memory_at (MEMORY (memory m)) (Some (pcRegister (cpu m))) = Num 0x6D)
    (Hlo : Memory_at (MEMORY (memory m)) (Some (pcRegister (cpu m) + 1)) = Num lo)
    (Hhi : Memory_at (MEMORY (memory m)) (Some (pcRegister (cpu m) + 2)) = Num hi)
    (Hv : Memory_at (MEMORY (memory m)) (Some (Z.lor (Z.shiftl hi 8) lo)) = Num v)
    (Ha : 0 <= aRegister (cpu m) < 256)
    (Hbyte : 0 <= v < 256) :
  let carry := if useCarry (cpu m) && cRegister (cpu m) then 1 else 0 in
  let sum := aRegister (cpu m) + v + carry in
  exists m', ticks 10 m = Ret tt m' /\
    between_instructions m' = true /\
    aRegister (cpu m') = sum mod 256 /\
    (cRegister (cpu m') = true <-> 256 <= sum) /\
    aRegister (cpu m') + (if cRegister (cpu m') then 256 else 0) = sum /\
    zRegister (cpu m') = zRegister (cpu m) /\
    pcRegister (cpu m') = pcRegister (cpu m) + 3 /\
    xRegister (cpu m') = xRegister (cpu m) /\
    yRegister (cpu m') = yRegister (cpu m) /\
    MEMORY (memory m') = MEMORY (memory m) /\
    system m' = system m.
Proof.
  intros carry sum.
  start_instruction Hboundary.
  assert (Hcells : cells_at (MEMORY (memory m)) (pcRegister (cpu m) + 1) [lo; hi]).
  { apply cells_at_2; [|replace (pcRegister (cpu m) + 1 + 1)
                          with (pcRegister (cpu m) + 2) by lia]; assumption. }
  pose proof (Memory_at_Num _ _ _ Hv) as Haddr.
  change 10%nat with ((3 + 2 * length [lo; hi]) + (1 + (1 + 1)))%nat.
  rewrite ticks_add.
  rewrite (ticks_prologue m 0x6D Instruction.ADC fn_ADC [lo; hi])
    by first [assumption | apply decodes_to_plain; reflexivity].
  set (c1 := Cpu_at_Execute (cpu m) 0x6D Instruction.ADC fn_ADC [lo; hi]) in *.
  assert (Hc1 : operand_address c1 = Z.lor (Z.shiftl hi 8) lo)
    by (apply (operand_address_stored _ (operand (cpu m))); reflexivity).
  next_tick Hclk.
  erewrite (tick_read _ _ (operand_address c1));
    [|rewrite (Cpu_pulse_read_first _ fn_ADC) by first [side' | (right; right; reflexivity)];
      reflexivity|side'..].
  next_tick Hclk.
  erewrite (tick_cpu _ _ (operand_address c1) v);
    [|rewrite (Cpu_pulse_ADC_second _ v)
        by first [side' | (cbn -[Memory_at operand_address]; rewrite Hc1; exact Hv)];
      reflexivity
     |first [side' | (cbn -[Memory_at operand_address]; rewrite Hc1; exact Hv)]..].
  next_tick Hclk.
  erewrite (tick_cpu _ _ (operand_address c1) v);
    [|rewrite Cpu_pulse_InterruptCheck_none; [reflexivity|side'..]
     |first [side' | (cbn -[Memory_at operand_address]; rewrite Hc1; exact Hv)]..].
  eexists; split; [reflexivity|].
  split; [boundary_goal|].
  assert (Hsum : 0 <= sum < 512)
    by (subst sum carry; destruct (useCarry (cpu m) && cRegister (cpu m)); lia).
  split.
  { cbn -[operand_address Memory_at Z.land]. fold carry. fold sum.
    change 255 with (Z.ones 8). rewrite Z.land_ones by lia. reflexivity. }
  split.
  { cbn -[operand_address Memory_at Z.land]. fold carry. fold sum.
    rewrite Z.ltb_lt. lia. }
  split.
  { cbn -[operand_address Memory_at Z.land]. fold carry. fold sum.
    change (Z.land sum 255) with (Z.land sum (Z.ones 8)).
    rewrite Z.land_ones by lia. change (2 ^ 8) with 256.
    destruct (Z.ltb_spec 255 sum).
    - assert (Hdiv : sum / 256 = 1)
        by (symmetry; apply (Z.div_unique_pos sum 256 1 (sum - 256)); lia).
      rewrite Z.mod_eq, Hdiv by lia. lia.
    - rewrite Z.mod_small by lia. lia. }
  finish_fields.
Qed.

Lemma ADC_instruction_adds_memory_witness :
  exists m', ticks 10 (run 35 prog_adc_carry) = Ret tt m' /\
    aRegister (cpu m') = 1 /\ cRegister (cpu m') = true.
Proof.
  destruct (ADC_instruction_adds_memory (run 35 prog_adc_carry) 0x10 0 0xFF)
    as (m' & E & _ & Ha & Hc & _).
  - by_run.
  - by_run.
  - by_run.
  - by_run.
  - by_run.
  - vm_compute. split; [discriminate|reflexivity].
  - lia.
  - exists m'. split; [exact E|]. rewrite Ha. split; [by_run|].
    apply Hc. vm_compute. discriminate.
Defined.

(** ** The table of Ascii.ts *)

Lemma forallb_bytes (f : Z -> bool) :
  forallb f (seqZ 0 256) = true -> forall b, 0 <= b <= 255 -> f b = true.
Proof.
  intros H b Hb. apply (proj1 (forallb_forall _ _) H).
  apply list_elem_of_In, elem_of_seqZ. lia.
Qed.

Lemma AsciiMap_table_bytes (byte : Z) :
  0 <= byte <= 255 ->
  obj_get AsciiMap (AsciiMap_key byte) = if AsciiMap_has byte then Some [byte] else None.
Proof.
  intros Hb.
  assert (H : (fun t => forallb (fun byte => bool_decide
            (obj_get t (AsciiMap_key byte) =
             if AsciiMap_has byte then Some [byte] else None)) (seqZ 0 256)) AsciiMap = true)
    by (vm_compute; reflexivity).
  cbv beta in H. apply forallb_bytes with (b := byte) in H; [|exact Hb].
  apply bool_decide_eq_true_1 in H. exact H.
Qed.

Lemma decodeAscii_bytes (c : Z) :
  0 <= c <= 255 ->
  decodeAscii [c] = inr (if AsciiMap_has c then Some c else None).
Proof.
  intros Hc.
  unfold decodeAscii. cbn [length Nat.eqb negb]. apply (f_equal (@inr AsciiError (option Z))).
  assert (H : (fun t => forallb (fun c => bool_decide
            (match obj_get t [c] with Some hex => parseInt hex 0 | None => None end =
             if AsciiMap_has c then Some c else None)) (seqZ 0 256)) AsciiMap = true)
    by (vm_compute; reflexivity).
  cbv beta in H. apply forallb_bytes with (b := c) in H; [|exact Hc].
  apply bool_decide_eq_true_1 in H. exact H.
Qed.

(** The keys of one code unit are below 256. *)
Lemma AsciiMap_single_keys :
  Forall (fun kv : jsstring * jsstring =>
            match fst kv with [c] => 0 <= c <= 255 | _ => True end) AsciiMap.
Proof.
  apply Forall_forall. intros kv Hkv. apply list_elem_of_In in Hkv.
  assert (H : forallb (fun kv : jsstring * jsstring =>
                match fst kv with [c] => (0 <=? c) && (c <=? 255) | _ => true end)
                AsciiMap = true) by (vm_compute; reflexivity).
  apply (proj1 (forallb_forall _ _) H) in Hkv.
  destruct (fst kv) as [|c [|? ?]]; [exact I| |exact I].
  apply andb_prop in Hkv. lia.
Qed.

Lemma obj_get_None (o : JsObject) (k : jsstring) :
  Forall (fun kv : jsstring * jsstring => fst kv <> k) o -> obj_get o k = None.
Proof.
  induction 1 as [|[k' v] o Hk _ IH]; [reflexivity|].
  cbn in *. destruct (decide (k' = k)); [contradiction|exact IH].
Qed.

(** X20.  The table of Ascii.ts, entry by entry.  The key built for a
    byte is in the table exactly for 9..13 and 32..126, with the character
    of that code as its entry, and this is what [encodeAscii] returns. *)
Theorem encodeAscii_reads_the_table (byte : Z) (m : Machine)
    (Hbyte : 0 <= byte <= 255) :
  obj_get AsciiMap (AsciiMap_key byte) = (if AsciiMap_has byte then Some [byte] else None) /\
  encodeAscii byte m = Ret (string_of_units <$> obj_get AsciiMap (AsciiMap_key byte)) m.
Proof.
  pose proof (AsciiMap_table_bytes byte Hbyte) as H.
  split; [exact H|]. rewrite H. unfold encodeAscii.
  replace ((byte <? 0) || (255 <? byte)) with false
    by (symmetry; apply orb_false_iff; split; apply Z.ltb_ge; lia).
  destruct (AsciiMap_has byte); reflexivity.
Qed.

Lemma encodeAscii_reads_the_table_witness :
  obj_get AsciiMap (js "0x48") = Some (js "H") /\
  encodeAscii 0x48 machine_clock_started = Ret (Some "H") machine_clock_started.
Proof.
  destruct (encodeAscii_reads_the_table 0x48 machine_clock_started) as [H1 H2]; [lia|].
  split; [exact H1|]. rewrite H2, H1. reflexivity.
Defined.

(** X21.  decodeAscii on a string of one code unit: the code for the
    characters of the table, NaN for every other one, and no exception. *)
Theorem decodeAscii_of_one_code_unit (c : Z) :
  decodeAscii [c] = inr (if AsciiMap_has c then Some c else None).
Proof.
  destruct (decide (0 <= c <= 255)) as [Hc|Hc].
  - exact (decodeAscii_bytes c Hc).
  - unfold decodeAscii. cbn [length Nat.eqb negb].
    rewrite obj_get_None.
    + replace (AsciiMap_has c) with false; [reflexivity|].
      symmetry. unfold AsciiMap_has. apply orb_false_iff.
      split; apply andb_false_iff; rewrite !Z.leb_gt; lia.
    + eapply Forall_impl; [exact AsciiMap_single_keys|].
      intros [k v] Hk Heq. cbn in *. subst k. lia.
Qed.

(** X22.  Decoding what the table encodes gives the byte back. *)
Theorem decodeAscii_inverts_encodeAscii (byte : Z) (char : jsstring)
    (Hbyte : 0 <= byte <= 255)
    (Hchar : obj_get AsciiMap (AsciiMap_key byte) = Some char) :
  decodeAscii char = inr (Some byte).
Proof.
  pose proof (AsciiMap_table_bytes byte Hbyte) as H.
  rewrite H in Hchar. clear H. destruct (AsciiMap_has byte) eqn:Hhas; [|discriminate Hchar].
  injection Hchar as <-.
  pose proof (decodeAscii_bytes byte Hbyte) as Hd.
  rewrite Hhas in Hd. exact Hd.
Qed.

Lemma decodeAscii_inverts_encodeAscii_witness :
  decodeAscii (js "A") = inr (Some 0x41).
Proof.
  apply (decodeAscii_inverts_encodeAscii 0x41 (js "A")); [lia|].
  vm_compute. reflexivity.
Defined.

(** ** Hardware.hexLog *)

Lemma parse_digits_hex (s : jsstring) (acc : option Z) :
  Forall is_hex_digit s -> s <> [] ->
  parse_digits 16 s acc = Some (hex_value s (default 0 acc)).
Proof.
  intros Hs. revert acc. induction Hs as [|c s (d & Hd & Hr) Hs IH]; intros acc Hne.
  - contradiction.
  - cbn [parse_digits]. rewrite Hd.
    replace (d <? 16) with true by (symmetry; apply Z.ltb_lt; lia).
    destruct s as [|c' s'].
    + cbn. rewrite Hd. reflexivity.
    + rewrite IH by discriminate. cbn [hex_value fold_left default]. rewrite Hd. reflexivity.
Qed.

Lemma hex_value_app (s t : jsstring) (acc : Z) :
  hex_value (s ++ t) acc = hex_value t (hex_value s acc).
Proof. unfold hex_value. apply fold_left_app. Qed.

Lemma upper_digit (d : Z) :
  0 <= d < 16 ->
  let c := radix_digit d in
  digit_value (if (97 <=? c) && (c <=? 122) then c - 32 else c) = Some d.
Proof.
  intros Hd.
  assert (H : forallb (fun d =>
            let c := radix_digit d in
            bool_decide (digit_value (if (97 <=? c) && (c <=? 122) then c - 32 else c)
                         = Some d)) (seqZ 0 16) = true) by (vm_compute; reflexivity).
  pose proof (proj1 (forallb_forall _ _) H d) as H1.
  apply bool_decide_eq_true_1 in H1; [exact H1|].
  apply list_elem_of_In, elem_of_seqZ. lia.
Qed.

(** The digits [toString(16)] writes, in upper case, before [acc]. *)
Lemma radix_digits_spec (fuel : nat) (n : Z) (acc : jsstring) :
  0 <= n < 16 ^ Z.of_nat (S fuel) ->
  exists ds,
    String_toUpperCase (radix_digits (S fuel) 16 n acc) = ds ++ String_toUpperCase acc /\
    Forall is_hex_digit ds /\ ds <> [] /\ hex_value ds 0 = n.
Proof.
  revert n acc. induction fuel as [|fuel IH]; intros n acc Hn;
    change (radix_digits (S ?f) 16 n acc)
      with (if n / 16 =? 0 then radix_digit (n mod 16) :: acc
            else radix_digits f 16 (n / 16) (radix_digit (n mod 16) :: acc));
    assert (Hd : 0 <= n mod 16 < 16) by (apply Z.mod_pos_bound; lia);
    pose proof (upper_digit (n mod 16) Hd) as Hu; cbv zeta in Hu;
    pose proof (Z.div_mod n 16 ltac:(lia)) as Hdm;
    destruct (Z.eqb_spec (n / 16) 0) as [Hq|Hq].
  - eexists [_]. split; [reflexivity|].
    split; [repeat constructor; eexists; split; [exact Hu|exact Hd]|].
    split; [discriminate|]. cbn. rewrite Hu. cbn. lia.
  - exfalso. apply Hq. apply Z.div_small. change (16 ^ Z.of_nat 1) with 16 in Hn. lia.
  - eexists [_]. split; [reflexivity|].
    split; [repeat constructor; eexists; split; [exact Hu|exact Hd]|].
    split; [discriminate|]. cbn. rewrite Hu. cbn. lia.
  - destruct (IH (n / 16) (radix_digit (n mod 16) :: acc)) as (ds & E & Hds & Hne & Hv).
    { rewrite (Nat2Z.inj_succ (S fuel)), Z.pow_succ_r in Hn by lia.
      split; [apply Z.div_pos; lia|apply Z.div_lt_upper_bound; lia]. }
    exists (ds ++ [if (97 <=? radix_digit (n mod 16)) && (radix_digit (n mod 16) <=? 122)
                   then radix_digit (n mod 16) - 32 else radix_digit (n mod 16)]).
    split; [rewrite E, <- app_assoc; reflexivity|].
    split; [apply Forall_app; split; [exact Hds|]; repeat constructor;
            eexists; split; [exact Hu|exact Hd]|].
    split; [intros H; apply app_eq_nil in H as [_ H]; discriminate H|].
    rewrite hex_value_app, Hv. cbn. rewrite Hu. cbn. lia.
Qed.

Lemma radix_digits_length (fuel : nat) (n : Z) (acc : jsstring) (k : nat) :
  0 <= n < 16 ^ Z.of_nat k -> (1 <= k)%nat ->
  (length (radix_digits fuel 16 n acc) <= k + length acc)%nat.
Proof.
  revert n acc k. induction fuel as [|fuel IH]; intros n acc k Hn Hk; [cbn; lia|].
  cbn [radix_digits]. destruct (Z.eqb_spec (n / 16) 0) as [Hq|Hq]; [cbn; lia|].
  destruct k as [|[|k]]; [lia| |].
  - exfalso. apply Hq. apply Z.div_small. change (16 ^ Z.of_nat 1) with 16 in Hn. lia.
  - specialize (IH (n / 16) (radix_digit (n mod 16) :: acc) (S k)).
    cbn [length] in IH. etransitivity; [apply IH|]; [|lia|lia].
    rewrite (Nat2Z.inj_succ (S k)), Z.pow_succ_r in Hn by lia.
    split; [apply Z.div_pos; lia|apply Z.div_lt_upper_bound; lia].
Qed.

Lemma log2_fuel (n : Z) : 0 <= n -> n < 16 ^ Z.of_nat (S (Z.to_nat (Z.log2 n))).
Proof.
  intros Hn. rewrite Nat2Z.inj_succ, Z2Nat.id by apply Z.log2_nonneg.
  destruct (Z.eq_dec n 0) as [->|Hz]; [reflexivity|].
  pose proof (Z.log2_spec n ltac:(lia)) as [_ H].
  eapply Z.lt_le_trans; [exact H|].
  apply Z.pow_le_mono_l. pose proof (Z.log2_nonneg n). lia.
Qed.

Lemma padStart_zeros (s : jsstring) (n : nat) :
  String_padStart s n (js "0") = replicate (n - length s) 48 ++ s.
Proof.
  unfold String_padStart. cbv zeta. change (js "0") with [48].
  assert (H : forall k, concat (replicate k [48]) = replicate k 48).
  { induction k as [|k IH]; [reflexivity|]. cbn. rewrite IH. reflexivity. }
  rewrite H, take_ge by (rewrite length_replicate; lia). reflexivity.
Qed.

Lemma toUpperCase_app (s t : jsstring) :
  String_toUpperCase (s ++ t) = String_toUpperCase s ++ String_toUpperCase t.
Proof. unfold String_toUpperCase. apply fmap_app. Qed.

Lemma toUpperCase_zeros (k : nat) : String_toUpperCase (replicate k 48) = replicate k 48.
Proof. induction k as [|k IH]; [reflexivity|]. cbn. f_equal. exact IH. Qed.

Lemma hex_value_zeros (k : nat) : hex_value (replicate k 48) 0 = 0.
Proof. induction k as [|k IH]; [reflexivity|]. exact IH. Qed.

Lemma zeros_hex (k : nat) : Forall is_hex_digit (replicate k 48).
Proof. apply Forall_replicate. exists 0. split; [reflexivity|lia]. Qed.

Lemma length_toUpperCase (s : jsstring) : length (String_toUpperCase s) = length s.
Proof. apply length_fmap. Qed.

Lemma parseInt_0x (body : jsstring) (radix : Z) :
  radix = 16 \/ radix = 0 ->
  parseInt (js "0x" ++ body) radix = (fun v => 1 * v) <$> parse_digits 16 body None.
Proof. intros [-> | ->]; reflexivity. Qed.

(** X23.  Hardware.hexLog of an integer from 0 to 2^53 - 1, the integers
    that a Number holds exactly, is a hexadecimal literal of that number,
    of the requested number of digits when the number fits them. *)
Theorem hexLog_writes_a_hex_literal_of_the_number (num : Z) (width : nat)
    (Hrange : 0 <= num < 2 ^ 53) :
  parseInt (Hardware_hexLog num width) 16 = Some num /\
  parseInt (Hardware_hexLog num width) 0 = Some num /\
  (2 + width <= length (Hardware_hexLog num width))%nat /\
  ((1 <= width)%nat -> num < 16 ^ Z.of_nat width ->
   length (Hardware_hexLog num width) = (2 + width)%nat).
Proof.
  pose proof (proj1 Hrange) as Hnum.
  unfold Hardware_hexLog, Number_toString_16.
  replace (num <? 0) with false by (symmetry; apply Z.ltb_ge; exact Hnum).
  set (fuel := Z.to_nat (Z.log2 num)).
  destruct (radix_digits_spec fuel num []) as (ds & E & Hds & Hne & Hv);
    [split; [exact Hnum|apply log2_fuel; exact Hnum]|].
  rewrite app_nil_r in E.
  rewrite padStart_zeros, toUpperCase_app, toUpperCase_zeros.
  assert (Hbody : parse_digits 16
            (replicate (width - length (radix_digits (S fuel) 16 num [])) 48 ++
             String_toUpperCase (radix_digits (S fuel) 16 num [])) None = Some num).
  { rewrite E, parse_digits_hex.
    - rewrite hex_value_app, hex_value_zeros. cbn [default]. rewrite Hv. reflexivity.
    - apply Forall_app. split; [apply zeros_hex|exact Hds].
    - intros H. apply app_eq_nil in H as [_ H]. contradiction. }
  assert (Hparse : forall radix, radix = 16 \/ radix = 0 ->
            parseInt (js "0x" ++
              replicate (width - length (radix_digits (S fuel) 16 num [])) 48 ++
              String_toUpperCase (radix_digits (S fuel) 16 num [])) radix = Some num).
  { intros radix Hr. rewrite parseInt_0x, Hbody by exact Hr.
    cbn [fmap option_fmap option_map]. rewrite Z.mul_1_l. reflexivity. }
  split; [apply Hparse; left; reflexivity|].
  split; [apply Hparse; right; reflexivity|].
  rewrite !length_app, length_replicate, length_toUpperCase.
  change (length (js "0x")) with 2%nat.
  split; [lia|].
  intros Hw Hfit.
  pose proof (radix_digits_length (S fuel) num [] width (conj Hnum Hfit) Hw) as Hlen.
  cbn [length] in Hlen. lia.
Qed.

Lemma hexLog_writes_a_hex_literal_of_the_number_witness :
  Hardware_hexLog 0x2A 4 = js "0x002A" /\ parseInt (js "0x002A") 16 = Some 0x2A.
Proof.
  destruct (hexLog_writes_a_hex_literal_of_the_number 0x2A 4) as (H & _);
    [split; [lia|reflexivity]|].
  split; [vm_compute; reflexivity|exact H].
Defined.

(** ** The custom programs of the menu *)

Lemma is_hex_char_in (c : Z) : is_hex_char c = true -> In c hex_chars.
Proof.
  intros H. apply filter_In. split; [|exact H].
  apply list_elem_of_In, elem_of_seqZ. unfold is_hex_char in H.
  rewrite !orb_true_iff, !andb_true_iff, !Z.leb_le in H. lia.
Qed.

Lemma parses_to_byte_spec (t : jsstring) :
  parses_to_byte t = true -> exists b, parseInt t 16 = Some b /\ 0 <= b <= 255.
Proof.
  unfold parses_to_byte. destruct (parseInt t 16) as [v|]; [|discriminate].
  intros H. apply andb_prop in H. exists v. split; [reflexivity|lia].
Qed.

Lemma isValidHexByte_parses (t : jsstring) :
  isValidHexByte t = true -> exists b, parseInt t 16 = Some b /\ 0 <= b <= 255.
Proof.
  intros H. apply parses_to_byte_spec.
  destruct t as [|a [|b [|c t]]]; try discriminate H; cbn [isValidHexByte] in H.
  - apply is_hex_char_in in H.
    assert (Hall : forallb (fun a => parses_to_byte [a]) hex_chars = true)
      by (vm_compute; reflexivity).
    exact (proj1 (forallb_forall _ _) Hall a H).
  - apply andb_prop in H as [Ha Hb].
    apply is_hex_char_in in Ha. apply is_hex_char_in in Hb.
    assert (Hall : forallb (fun a => forallb (fun b => parses_to_byte [a; b]) hex_chars)
                     hex_chars = true) by (vm_compute; reflexivity).
    pose proof (proj1 (forallb_forall _ _) Hall a Ha) as H1. cbv beta in H1.
    exact (proj1 (forallb_forall _ _) H1 b Hb).
Qed.

Lemma String_split_nonempty (sep : Z) (s : jsstring) : String_split sep s <> [].
Proof.
  destruct s as [|c s]; [discriminate|]. cbn [String_split].
  destruct (c =? sep); [discriminate|]. destruct (String_split sep s); discriminate.
Qed.

Lemma filter_nil_forall {A : Type} (f : A -> bool) (l : list A) :
  List.filter f l = [] -> Forall (fun x => f x = false) l.
Proof.
  induction l as [|x l IH]; [constructor|]. cbn.
  destruct (f x) eqn:E; [discriminate|]. intros H. constructor; auto.
Qed.

(** X24.  The line of bytes of a custom program.  A line that is accepted
    is not blank, and its code is one byte per piece of the line. *)
Theorem accepted_bytes_line_is_a_program_of_bytes (inputBuffer : jsstring)
    (code : list (option Z))
    (Haccepted : ProgramMenu_enterBytes inputBuffer = Code code) :
  code <> [] /\
  String_trim inputBuffer <> [] /\
  length code = length (String_split 32 (String_trim inputBuffer)) /\
  Forall (fun x => exists b, x = Some b /\ 0 <= b <= 255) code.
Proof.
  unfold ProgramMenu_enterBytes in Haccepted. cbv zeta in Haccepted.
  set (bytes := String_split 32 (String_trim inputBuffer)) in *.
  destruct (List.filter (fun byte => negb (isValidHexByte byte)) bytes) as [|bad rest] eqn:Hf;
    [|discriminate Haccepted].
  cbn in Haccepted. injection Haccepted as <-.
  apply filter_nil_forall in Hf.
  assert (Hne : bytes <> []) by apply String_split_nonempty.
  split; [intros H; apply fmap_nil_inv in H; contradiction|].
  split.
  { intros Hblank. subst bytes. rewrite Hblank in Hf. cbn in Hf.
    apply Forall_inv in Hf. discriminate Hf. }
  split; [apply length_fmap|].
  apply Forall_fmap. eapply Forall_impl; [exact Hf|].
  intros t Ht. cbn. apply negb_false_iff in Ht.
  destruct (isValidHexByte_parses t Ht) as (b & E & Hb). exists b. auto.
Qed.

Lemma accepted_bytes_line_is_a_program_of_bytes_witness :
  ProgramMenu_enterBytes (js "A9 05 aa ") = Code [Some 0xA9; Some 0x05; Some 0xAA] /\
  Forall (fun x => exists b, x = Some b /\ 0 <= b <= 255) [Some 0xA9; Some 0x05; Some 0xAA].
Proof.
  assert (H : ProgramMenu_enterBytes (js "A9 05 aa ")
              = Code [Some 0xA9; Some 0x05; Some 0xAA]) by (vm_compute; reflexivity).
  split; [exact H|].
  exact (proj2 (proj2 (proj2
    (accepted_bytes_line_is_a_program_of_bytes (js "A9 05 aa ") _ H)))).
Defined.

Lemma hex_byte_spec (b : Z) :
  0 <= b <= 255 ->
  two_hex_digits (hex_byte b) /\ parseInt (hex_byte b) 16 = Some b.
Proof.
  intros Hb.
  assert (H : forallb (fun b =>
            match hex_byte b with
            | [a; c] => is_hex_char a && is_hex_char c &&
                        bool_decide (parseInt [a; c] 16 = Some b)
            | _ => false
            end) (seqZ 0 256) = true) by (vm_compute; reflexivity).
  apply forallb_bytes with (b := b) in H; [|exact Hb].
  destruct (hex_byte b) as [|a [|c [|? ?]]]; try discriminate H.
  apply andb_prop in H as [H H3]. apply andb_prop in H as [H1 H2].
  apply bool_decide_eq_true_1 in H3.
  split; [exists a, c; auto|exact H3].
Qed.

Lemma hex_char_not_space (c : Z) :
  is_hex_char c = true -> is_white_space c = false /\ (c =? 32) = false.
Proof.
  intros H. apply is_hex_char_in in H.
  assert (Hall : forallb (fun c => negb (is_white_space c) && negb (c =? 32)) hex_chars = true)
    by (vm_compute; reflexivity).
  pose proof (proj1 (forallb_forall _ _) Hall c H) as H1. cbv beta in H1.
  apply andb_prop in H1 as [H1 H2].
  split; apply negb_true_iff; assumption.
Qed.

Lemma String_split_token (a c : Z) (rest : jsstring) :
  is_hex_char a = true -> is_hex_char c = true ->
  String_split 32 (a :: c :: 32 :: rest) = [a; c] :: String_split 32 rest.
Proof.
  intros Ha Hc.
  apply hex_char_not_space in Ha as [_ Ha]. apply hex_char_not_space in Hc as [_ Hc].
  cbn [String_split]. rewrite Ha, Hc. reflexivity.
Qed.

Lemma String_split_last_token (a c : Z) :
  is_hex_char a = true -> is_hex_char c = true ->
  String_split 32 [a; c] = [[a; c]].
Proof.
  intros Ha Hc.
  apply hex_char_not_space in Ha as [_ Ha]. apply hex_char_not_space in Hc as [_ Hc].
  cbn [String_split]. rewrite Ha, Hc. reflexivity.
Qed.

Lemma String_split_join (tokens : list jsstring) :
  tokens <> [] -> Forall two_hex_digits tokens ->
  String_split 32 (Array_join 32 tokens) = tokens.
Proof.
  intros Hne H. induction H as [|t tokens (a & c & -> & Ha & Hc) Hrest IH]; [contradiction|].
  destruct tokens as [|t' tokens].
  - apply String_split_last_token; assumption.
  - change (Array_join 32 ([a; c] :: t' :: tokens))
      with (a :: c :: 32 :: Array_join 32 (t' :: tokens)).
    rewrite String_split_token by assumption. rewrite IH by discriminate. reflexivity.
Qed.

(** A line of such tokens starts and ends with a digit. *)
Lemma Array_join_ends (tokens : list jsstring) :
  tokens <> [] -> Forall two_hex_digits tokens ->
  exists a s d s',
    Array_join 32 tokens = a :: s /\ is_hex_char a = true /\
    Array_join 32 tokens = s' ++ [d] /\ is_hex_char d = true.
Proof.
  intros Hne H. induction H as [|t tokens (a & c & -> & Ha & Hc) Hrest IH]; [contradiction|].
  destruct tokens as [|t' tokens].
  - exists a, [c], c, [a]. auto.
  - destruct IH as (a' & s & d & s' & _ & _ & E & Hd); [discriminate|].
    change (Array_join 32 ([a; c] :: t' :: tokens))
      with (a :: c :: 32 :: Array_join 32 (t' :: tokens)).
    rewrite E. exists a, (c :: 32 :: s' ++ [d]), d, (a :: c :: 32 :: s'). auto.
Qed.

Lemma String_trim_id (s s' : jsstring) (a d : Z) (t : jsstring) :
  s = a :: t -> is_white_space a = false ->
  s = s' ++ [d] -> is_white_space d = false ->
  String_trim s = s.
Proof.
  intros E1 Ha E2 Hd. unfold String_trim.
  assert (H1 : trim_start s = s) by (rewrite E1; cbn; rewrite Ha; reflexivity).
  rewrite H1. rewrite E2 at 1. rewrite reverse_app. cbn [reverse rev_append app].
  change (reverse [d]) with [d]. cbn [app trim_start]. rewrite Hd.
  change (d :: reverse s') with (reverse [d] ++ reverse s').
  rewrite <- reverse_app, reverse_involutive. symmetry. exact E2.
Qed.

Lemma ProgramMenu_enterBytes_hex_line (bs : list Z)
    (Hne : bs <> [])
    (Hbytes : Forall (fun b => 0 <= b <= 255) bs) :
  ProgramMenu_enterBytes (Array_join 32 (hex_byte <$> bs)) = Code (Some <$> bs).
Proof.
  assert (Htokens : Forall two_hex_digits (hex_byte <$> bs)).
  { apply Forall_fmap. eapply Forall_impl; [exact Hbytes|].
    intros b Hb. apply hex_byte_spec, Hb. }
  assert (Hne' : hex_byte <$> bs <> [])
    by (intros H; apply fmap_nil_inv in H; contradiction).
  destruct (Array_join_ends _ Hne' Htokens) as (a & s & d & s' & E1 & Ha & E2 & Hd).
  unfold ProgramMenu_enterBytes. cbv zeta.
  rewrite (String_trim_id _ s' a d s E1 (proj1 (hex_char_not_space a Ha))
             E2 (proj1 (hex_char_not_space d Hd))).
  rewrite String_split_join by assumption.
  assert (Hvalid : List.filter (fun byte => negb (isValidHexByte byte)) (hex_byte <$> bs) = []).
  { clear -Htokens. induction Htokens as [|t l (a & c & -> & Ha & Hc) _ IH]; [reflexivity|].
    cbn. rewrite Ha, Hc. exact IH. }
  rewrite Hvalid. cbn [length Nat.ltb Nat.leb]. f_equal.
  clear -Hbytes. induction Hbytes as [|b bs Hb _ IH]; [reflexivity|].
  cbn [fmap list_fmap]. cbn [fmap list_fmap] in IH. rewrite IH.
  rewrite (proj2 (hex_byte_spec b Hb)). reflexivity.
Qed.

(** ** The selection of the menu and the restart *)

(** X18.  A selection that is no entry of the menu.  No program is loaded
    and neither the clock nor the running flag changes, but the Cpu, the
    MMU and the memory have been reset. *)
Theorem selection_outside_the_menu_resets_without_starting
    (programs : list Program) (selection : Z) (m : Machine)
    (Hout : selection < 0 \/ Z.of_nat (length programs) < selection) :
  exists m', System_selectProgram programs selection m = Ret tt m' /\
    clock m' = clock m /\
    running (system m') = running (system m) /\
    currentProgram (system m') = None /\
    _isLoading (mmu m') = false /\
    MEMORY (memory m') = replicate (length (MEMORY (memory m))) 0 /\
    pcRegister (cpu m') = 0 /\
    actualRegisters m' = (0, 0, 0, false, false) /\
    waiting m' = waiting m.
Proof.
  unfold System_selectProgram, ProgramMenu_loadProgram. cbv zeta.
  replace ((selection - 1 <? 0) || (Z.of_nat (length programs) <=? selection - 1)) with true
    by (symmetry; apply orb_true_iff; rewrite Z.ltb_lt, Z.leb_le; lia).
  destruct m as [c [cells mar mdr rp wp] u [r cp po] ic ck lg].
  unfold Cpu_reset, MMU_reset, Memory_reset, Memory_init. mred. cbn -[replicate].
  eexists. split; [reflexivity|]. cbn -[replicate].
  rewrite !length_replicate. repeat apply conj; reflexivity.
Qed.

Lemma selection_outside_the_menu_resets_without_starting_witness :
  exists m',
    System_selectProgram [anonymous prog_basic; anonymous prog_hello] 3 (run 35 prog_basic)
      = Ret tt m' /\
    isRunning (clock m') = false /\ actualRegisters m' = (0, 0, 0, false, false).
Proof.
  destruct (selection_outside_the_menu_resets_without_starting
              [anonymous prog_basic; anonymous prog_hello] 3 (run 35 prog_basic))
    as (m' & E & Hclk & _ & _ & _ & _ & _ & Hregs & _).
  - right. cbn. lia.
  - exists m'. split; [exact E|]. rewrite Hclk. split; [by_run|exact Hregs].
Defined.

(** X17.  What a restart keeps.  Two machines that agree on the size of
    the memory, the debug flag, the carry mode, the latched write value,
    the pending read, the output and the console are the same machine
    once a program is started in them. *)
Theorem runProgram_forgets_the_previous_run (program : Program) (m1 m2 : Machine)
    (Hcode : code program <> [])
    (Hsize : length (MEMORY (memory m1)) = length (MEMORY (memory m2)))
    (Hdebug : debug (cpu m1) = debug (cpu m2))
    (Hcarry : useCarry (cpu m1) = useCarry (cpu m2))
    (Hlatch : writeValue (cpu m1) = writeValue (cpu m2))
    (Hread : isReadPending (memory m1) = isReadPending (memory m2))
    (Hout : programOutput (system m1) = programOutput (system m2))
    (Hconsole : console m1 = console m2) :
  System_runProgram program m1 = System_runProgram program m2.
Proof.
  destruct m1 as [c1 [cells1 mar1 mdr1 rp1 wp1] u1 [r1 cp1 po1] ic1 ck1 lg1].
  destruct m2 as [c2 [cells2 mar2 mdr2 rp2 wp2] u2 [r2 cp2 po2] ic2 ck2 lg2].
  destruct c1, c2.
  cbn in Hsize, Hdebug, Hcarry, Hlatch, Hread, Hout, Hconsole. subst.
  unfold System_runProgram, Cpu_reset, InterruptController_clearInterrupts, Clock_startClock,
    MMU_setProgram, MMU_reset, Memory_reset, Memory_init, MMU_loadProgram,
    MMU_writeImmediate, Memory_setMAR, Memory_setMDR, Memory_write. mred.
  cbn -[replicate].
  destruct (code program) as [|b rest]; [contradiction|].
  cbv -[replicate length]. rewrite ?length_replicate.
  rewrite Hsize. reflexivity.
Qed.

Lemma runProgram_forgets_the_previous_run_witness :
  System_runProgram (anonymous prog_hello) (run 35 prog_basic) =
  System_runProgram (anonymous prog_hello) (run 49 prog_adc_carry).
Proof.
  apply runProgram_forgets_the_previous_run.
  - discriminate.
  - apply Nat.eqb_eq. by_run.
  - by_run.
  - by_run.
  - by_run.
  - by_run.
  - by_run.
  - by_run.
Defined.

(** ** The two halves of MAR *)

Lemma ToInt32_small (z : Z) : - 2 ^ 31 <= z < 2 ^ 31 -> ToInt32 z = z.
Proof. intros H. unfold ToInt32. rewrite Z.mod_small; lia. Qed.

Lemma land_low_byte (x lo : Z) :
  0 <= lo <= 255 -> Z.land (Z.lor (Z.land x 0xFF00) lo) 0x00FF = lo.
Proof.
  intros Hlo. rewrite Z.land_lor_distr_l, <- Z.land_assoc.
  change (Z.land 0xFF00 0x00FF) with 0. rewrite Z.land_0_r, Z.lor_0_l.
  change 0x00FF with (Z.ones 8). rewrite Z.land_ones by lia.
  apply Z.mod_small. change (2 ^ 8) with 256. lia.
Qed.

Lemma land_high_byte (x hi : Z) :
  0 <= hi <= 255 ->
  Z.land (Z.lor (Z.land x 0x00FF) (Z.shiftl hi 8)) 0xFF00 = Z.shiftl hi 8.
Proof.
  intros Hhi. rewrite Z.land_lor_distr_l, <- Z.land_assoc.
  change (Z.land 0x00FF 0xFF00) with 0. rewrite Z.land_0_r, Z.lor_0_l.
  apply Z.bits_inj'. intros n Hn. rewrite Z.land_spec.
  destruct (Z.testbit (Z.shiftl hi 8) n) eqn:E; [|reflexivity].
  rewrite Z.shiftl_spec in E by lia.
  destruct (Z.lt_ge_cases n 8) as [Hlt|Hge].
  { rewrite Z.testbit_neg_r in E by lia. discriminate E. }
  destruct (Z.lt_ge_cases n 16) as [Hlt|Hge'].
  - assert (Hc : n = 8 \/ n = 9 \/ n = 10 \/ n = 11 \/ n = 12 \/ n = 13 \/ n = 14 \/ n = 15)
      by lia.
    destruct Hc as [->|[->|[->|[->|[->|[->|[->| ->]]]]]]]; reflexivity.
  - exfalso.
    assert (Hb : hi < 2 ^ (n - 8)).
    { apply Z.lt_le_trans with (2 ^ 8); [change (2 ^ 8) with 256; lia|].
      apply Z.pow_le_mono_r; lia. }
    destruct (Z.eq_dec hi 0) as [->|Hz]; [rewrite Z.testbit_0_l in E; discriminate E|].
    rewrite Z.bits_above_log2 in E; [discriminate E|lia|].
    apply Z.log2_lt_pow2; lia.
Qed.

Lemma shiftl_byte_range (hi : Z) : 0 <= hi <= 255 -> 0 <= Z.shiftl hi 8 <= 0xFF00.
Proof. intros H. rewrite Z.shiftl_mul_pow2 by lia. change (2 ^ 8) with 256. lia. Qed.

Lemma log2_below (z : Z) : 0 <= z < 0x10000 -> z = 0 \/ (0 < z /\ Z.log2 z < 16).
Proof.
  intros H. destruct (Z.eq_dec z 0) as [->|Hz]; [left; reflexivity|right].
  split; [lia|]. apply Z.log2_lt_pow2; [lia|]. change (2 ^ 16) with 0x10000. lia.
Qed.

Lemma lor_word_range (a b : Z) :
  0 <= a < 0x10000 -> 0 <= b < 0x10000 -> 0 <= Z.lor a b < 0x10000.
Proof.
  intros Ha Hb. split; [apply Z.lor_nonneg; lia|].
  destruct (log2_below a Ha) as [->|[Ha0 Hla]]; [rewrite Z.lor_0_l; lia|].
  assert (H0 : 0 < Z.lor a b).
  { assert (0 <= Z.lor a b) by (apply Z.lor_nonneg; lia).
    destruct (Z.eq_dec (Z.lor a b) 0) as [E|E]; [|lia].
    apply Z.lor_eq_0_iff in E. lia. }
  change 0x10000 with (2 ^ 16). apply Z.log2_lt_pow2; [exact H0|].
  rewrite Z.log2_lor by lia. apply Z.max_lub_lt; [exact Hla|].
  destruct (log2_below b Hb) as [->|[_ Hlb]]; [reflexivity|exact Hlb].
Qed.

Lemma land_word_range (x mask : Z) : 0 <= mask < 0x10000 -> 0 <= Z.land x mask < 0x10000.
Proof.
  intros Hm. split; [apply Z.land_nonneg; right; lia|].
  assert (E : Z.land x mask = Z.land (Z.land x (Z.ones 16)) mask).
  { rewrite <- Z.land_assoc. f_equal. rewrite Z.land_comm. symmetry.
    destruct (log2_below mask Hm) as [->|[_ Hl]]; [reflexivity|].
    apply Z.land_ones_low; lia. }
  rewrite E, Z.land_ones by lia.
  pose proof (Z.mod_pos_bound x (2 ^ 16) ltac:(lia)) as Hx.
  set (y := x mod 2 ^ 16) in *.
  assert (H0 : 0 <= Z.land y mask) by (apply Z.land_nonneg; left; lia).
  destruct (Z.eq_dec (Z.land y mask) 0) as [->|Hz]; [lia|].
  change 0x10000 with (2 ^ 16). apply Z.log2_lt_pow2; [lia|].
  pose proof (Z.log2_land y mask ltac:(lia) ltac:(lia)) as Hl.
  destruct (log2_below mask Hm) as [->|[_ Hlm]]; [rewrite Z.land_0_r in Hz; contradiction|].
  lia.
Qed.

(** X19.  The two halves of the address register.  Setting the low and the
    high byte, in either order, leaves [(hi << 8) | lo] in MAR whatever it
    held before. *)
Theorem low_and_high_byte_compose_the_address (m : Machine) (lo hi : Z)
    (Hlo : 0 <= lo <= 255)
    (Hhi : 0 <= hi <= 255) :
  (MMU_setLowOrderByte lo;; MMU_setHighOrderByte hi) m =
    Ret tt (upd_memory (with_MAR (Some (Z.lor (Z.shiftl hi 8) lo))) m) /\
  (MMU_setHighOrderByte hi;; MMU_setLowOrderByte lo) m =
    Ret tt (upd_memory (with_MAR (Some (Z.lor (Z.shiftl hi 8) lo))) m) /\
  0 <= Z.lor (Z.shiftl hi 8) lo < 0x10000.
Proof.
  pose proof (shiftl_byte_range hi Hhi) as Hs.
  assert (Hlo32 : ToInt32 lo = lo) by (apply ToInt32_small; lia).
  assert (Hhi32 : ToInt32 (Z.shiftl (ToInt32 hi) 8) = Z.shiftl hi 8).
  { rewrite (ToInt32_small hi) by lia. apply ToInt32_small. lia. }
  split; [|split; [|apply lor_word_range; lia]].
  - unfold MMU_setLowOrderByte, MMU_setHighOrderByte, Memory_setMAR, MAR_int32. mred.
    cbn -[Z.land Z.lor Z.shiftl ToInt32]. rewrite Hlo32, Hhi32.
    set (x := match MAR (memory m) with Some a => ToInt32 a | None => 0 end).
    pose proof (lor_word_range (Z.land x 0xFF00) lo (land_word_range x 0xFF00 ltac:(lia))
                  ltac:(lia)) as Hx.
    rewrite (ToInt32_small (Z.lor (Z.land x 0xFF00) lo)) by lia.
    rewrite land_low_byte by exact Hlo. rewrite Z.lor_comm.
    destruct m as [c [cells mar mdr rp wp] u s ic ck lg]. reflexivity.
  - unfold MMU_setLowOrderByte, MMU_setHighOrderByte, Memory_setMAR, MAR_int32. mred.
    cbn -[Z.land Z.lor Z.shiftl ToInt32]. rewrite Hlo32, Hhi32.
    set (x := match MAR (memory m) with Some a => ToInt32 a | None => 0 end).
    pose proof (lor_word_range (Z.land x 0x00FF) (Z.shiftl hi 8)
                  (land_word_range x 0x00FF ltac:(lia)) ltac:(lia)) as Hx.
    rewrite (ToInt32_small (Z.lor (Z.land x 0x00FF) (Z.shiftl hi 8))) by lia.
    rewrite land_high_byte by exact Hhi.
    destruct m as [c [cells mar mdr rp wp] u s ic ck lg]. reflexivity.
Qed.

Lemma low_and_high_byte_compose_the_address_witness :
  (MMU_setLowOrderByte 0x34;; MMU_setHighOrderByte 0x12) machine_clock_started =
  Ret tt (upd_memory (with_MAR (Some 0x1234)) machine_clock_started).
Proof.
  refine (proj1 (low_and_high_byte_compose_the_address machine_clock_started 0x34 0x12 _ _));
    lia.
Defined.

(** ** The session of addCustomProgram *)

Lemma ProgramMenu_enterBytes_Code (inputBuffer : jsstring) (code : list (option Z)) :
  ProgramMenu_enterBytes inputBuffer = Code code ->
  code = (fun byte => parseInt byte 16) <$> String_split 32 (String_trim inputBuffer) /\
  Forall (fun byte => isValidHexByte byte = true) (String_split 32 (String_trim inputBuffer)) /\
  code <> [] /\ Forall byte_number code.
Proof.
  unfold ProgramMenu_enterBytes. cbv zeta.
  set (bytes := String_split 32 (String_trim inputBuffer)).
  destruct (List.filter (fun byte => negb (isValidHexByte byte)) bytes) as [|bad rest] eqn:Hf;
    [|intros H; discriminate H].
  cbn. intros H. injection H as <-.
  apply filter_nil_forall in Hf.
  assert (Hvalid : Forall (fun byte => isValidHexByte byte = true) bytes).
  { eapply Forall_impl; [exact Hf|]. intros t Ht. apply negb_false_iff in Ht. exact Ht. }
  split; [reflexivity|]. split; [exact Hvalid|].
  split.
  - intros H. apply fmap_nil_inv in H. exact (String_split_nonempty _ _ H).
  - apply Forall_fmap. eapply Forall_impl; [exact Hvalid|].
    intros t Ht. cbn. destruct (isValidHexByte_parses t Ht) as (b & E & Hb).
    exists b. auto.
Qed.

Lemma edit_inputBuffer_frame (key : jsstring) (s : AddProgram) :
  add_state (edit_inputBuffer key s) = add_state s /\
  add_code (edit_inputBuffer key s) = add_code s /\
  add_registers (edit_inputBuffer key s) = add_registers s /\
  add_programs (edit_inputBuffer key s) = add_programs s.
Proof.
  unfold edit_inputBuffer.
  destruct (is_backspace key); [destruct (0 <? length (add_inputBuffer s))%nat|]; auto.
Qed.

Lemma edit_inputBuffer_ok (programs : list MenuProgram) (key : jsstring) (s : AddProgram) :
  session_ok programs s -> session_ok programs (edit_inputBuffer key s).
Proof.
  unfold session_ok. destruct (edit_inputBuffer_frame key s) as (-> & -> & -> & ->). auto.
Qed.

Lemma enter_register_ok (programs : list MenuProgram)
    (store : option Z -> MenuRegisters -> MenuRegisters) (next : InputState.t)
    (s : AddProgram) :
  (forall v r, byte_number v -> registers_ok r -> registers_ok (store v r)) ->
  registers_ok (add_registers s) ->
  add_programs s = programs /\ add_code s <> [] /\ Forall byte_number (add_code s) ->
  registers_ok (add_registers (enter_register store next s)) /\
  add_programs (enter_register store next s) = programs /\
  add_code (enter_register store next s) <> [] /\
  Forall byte_number (add_code (enter_register store next s)) /\
  (add_state (enter_register store next s) = add_state s \/
   add_state (enter_register store next s) = next).
Proof.
  intros Hstore Hr Hrest. unfold enter_register. cbv zeta.
  destruct (isValidHexByte (String_trim (add_inputBuffer s))) eqn:Hv; cbn.
  - destruct (isValidHexByte_parses _ Hv) as (b & E & Hb).
    split; [apply Hstore; [exists b; auto|exact Hr]|]. tauto.
  - tauto.
Qed.

Lemma handleInput_ok (programs : list MenuProgram) (key : jsstring) (s : AddProgram) :
  session_ok programs s -> session_ok programs (handleInput key s).
Proof.
  intros Hs. pose proof (edit_inputBuffer_ok programs key s Hs) as Hedit.
  unfold handleInput. destruct Hs as [Hr Hs].
  destruct (add_state s) eqn:Hst; try (destruct (is_enter key); [|exact Hedit]); clear Hedit.
  - split; [exact Hr|exact Hs].
  - destruct (ProgramMenu_enterBytes (add_inputBuffer s)) as [bad|code] eqn:E.
    + unfold session_ok. cbn. rewrite Hst. auto.
    + apply ProgramMenu_enterBytes_Code in E as (_ & _ & Hne & Hcode).
      split; [exact Hr|]. cbn. auto.
  - cbv zeta.
    destruct (bool_decide (String_toLowerCase (String_trim (add_inputBuffer s)) = js "y")).
    + split; [exact Hr|]. cbn. exact Hs.
    + split; [exact Hr|]. cbn. destruct Hs as (Hp & Hne & Hcode).
      eexists. split; [rewrite Hp; reflexivity|].
      unfold entry_ok. cbn. repeat split; try assumption; apply Hr.
  - edestruct (enter_register_ok programs) as (H1 & H2 & H3 & H4 & [H5|H5]);
      [|exact Hr|exact Hs|split; [exact H1|rewrite H5, Hst; auto]
       |split; [exact H1|rewrite H5; auto]].
    intros v r Hv (Ha & Hx & Hy). repeat split; assumption.
  - edestruct (enter_register_ok programs) as (H1 & H2 & H3 & H4 & [H5|H5]);
      [|exact Hr|exact Hs|split; [exact H1|rewrite H5, Hst; auto]
       |split; [exact H1|rewrite H5; auto]].
    intros v r Hv (Ha & Hx & Hy). repeat split; assumption.
  - edestruct (enter_register_ok programs) as (H1 & H2 & H3 & H4 & [H5|H5]);
      [|exact Hr|exact Hs|split; [exact H1|rewrite H5, Hst; auto]
       |split; [exact H1|rewrite H5; auto]].
    intros v r Hv (Ha & Hx & Hy). repeat split; assumption.
  - destruct (negb (is_flag (flag_value s))).
    + unfold session_ok. cbn. rewrite Hst. auto.
    + split; [exact Hr|]. cbn. exact Hs.
  - destruct (negb (is_flag (flag_value s))).
    + unfold session_ok. cbn. rewrite Hst. auto.
    + split; [exact Hr|]. cbn. destruct Hs as (Hp & Hne & Hcode).
      eexists. split; [rewrite Hp; reflexivity|].
      unfold entry_ok. cbn. repeat split; try assumption; apply Hr.
  - unfold session_ok. rewrite Hst. auto.
Qed.

(** X26.  An invariant of addCustomProgram over every sequence of keys.
    The menu grows by one program, at the end of the session, and that
    program is made of bytes: its code, which is not empty, and its
    expected registers. *)
Theorem added_program_is_made_of_bytes (programs : list MenuProgram) (keys : list jsstring) :
  let s := handleInputs keys (addCustomProgram programs) in
  match add_state s with
  | InputState.COMPLETE => exists e, add_programs s = programs ++ [e] /\ entry_ok e
  | _ => add_programs s = programs
  end.
Proof.
  cbv zeta.
  assert (H : session_ok programs (handleInputs keys (addCustomProgram programs))).
  { unfold handleInputs.
    assert (H0 : session_ok programs (addCustomProgram programs)).
    { split; [|reflexivity]. repeat split; exists 0; split; (reflexivity || lia). }
    revert H0. generalize (addCustomProgram programs).
    induction keys as [|key keys IH]; intros s Hs; [exact Hs|].
    cbn [fold_left]. apply IH, handleInput_ok, Hs. }
  destruct H as [_ H].
  destruct (add_state (handleInputs keys (addCustomProgram programs))); tauto.
Qed.

Lemma text_key (c : Z) : is_text c = true -> is_enter [c] = false /\ is_backspace [c] = false.
Proof.
  unfold is_text, is_enter, is_backspace. intros H.
  apply negb_true_iff in H. rewrite !orb_false_iff, !Z.eqb_neq in H.
  destruct H as (((H1 & H2) & H3) & H4).
  rewrite !bool_decide_eq_false_2; [auto|congruence..].
Qed.

Lemma handleInput_text (c : Z) (s : AddProgram) :
  is_text c = true -> add_state s <> InputState.COMPLETE ->
  handleInput [c] s = with_add_inputBuffer (add_inputBuffer s ++ [c]) s.
Proof.
  intros Hc Hst. destruct (text_key c Hc) as [He Hb].
  unfold handleInput, edit_inputBuffer. rewrite He, Hb.
  destruct (add_state s); try reflexivity. contradiction.
Qed.

Lemma handleInputs_typed (line : jsstring) (s : AddProgram) :
  forallb is_text line = true -> add_state s <> InputState.COMPLETE ->
  handleInputs (typed line) s = with_add_inputBuffer (add_inputBuffer s ++ line) s.
Proof.
  revert s. induction line as [|c line IH]; intros s Hline Hst.
  - cbn. rewrite app_nil_r. destruct s; reflexivity.
  - cbn in Hline. apply andb_prop in Hline as [Hc Hline].
    cbn [typed fmap list_fmap handleInputs fold_left].
    rewrite handleInput_text by assumption.
    change (fold_left (fun s key => handleInput key s) ((fun c => [c]) <$> line) ?x)
      with (handleInputs (typed line) x).
    rewrite IH by assumption. cbn. rewrite <- app_assoc. reflexivity.
Qed.

Lemma handleInputs_app (keys keys' : list jsstring) (s : AddProgram) :
  handleInputs (keys ++ keys') s = handleInputs keys' (handleInputs keys s).
Proof. unfold handleInputs. apply fold_left_app. Qed.

Lemma hex_line_is_text (tokens : list jsstring) :
  Forall two_hex_digits tokens -> forallb is_text (Array_join 32 tokens) = true.
Proof.
  assert (Hhex : forall c, is_hex_char c = true -> is_text c = true).
  { intros c Hc. apply is_hex_char_in in Hc.
    assert (Hall : forallb is_text hex_chars = true) by (vm_compute; reflexivity).
    exact (proj1 (forallb_forall _ _) Hall c Hc). }
  induction 1 as [|t tokens (a & c & -> & Ha & Hc) Hrest IH]; [reflexivity|].
  destruct tokens as [|t' tokens].
  - cbn. rewrite (Hhex a Ha), (Hhex c Hc). reflexivity.
  - change (Array_join 32 ([a; c] :: t' :: tokens))
      with (a :: c :: 32 :: Array_join 32 (t' :: tokens)).
    cbn [forallb]. rewrite (Hhex a Ha), (Hhex c Hc), IH. reflexivity.
Qed.

(** X25.  A whole session of addCustomProgram without expected registers.
    The program that is typed is the program that is appended to the menu;
    its expected registers are the initial ones, all zero, so it passes
    exactly when the run leaves every register zero and both flags false. *)
Theorem custom_program_session_adds_the_typed_program
    (programs : list MenuProgram) (nameLine : jsstring) (bs : list Z)
    (Hname : forallb is_text nameLine = true)
    (Hne : bs <> [])
    (Hbytes : Forall (fun b => 0 <= b <= 255) bs) :
  let keys :=
    typed nameLine ++ [[13]] ++
    typed (Array_join 32 (hex_byte <$> bs)) ++ [[13]] ++
    [js "n"; [13]] in
  let entry :=
    {| menu_name := String_trim nameLine;
       menu_code := Some <$> bs;
       menu_expectedRegisters :=
         Some {| expected_a := Some 0; expected_x := Some 0; expected_y := Some 0;
                 expected_z := false; expected_c := false |} |} in
  add_state (handleInputs keys (addCustomProgram programs)) = InputState.COMPLETE /\
  add_programs (handleInputs keys (addCustomProgram programs)) = programs ++ [entry] /\
  forall actual,
    validateProgramResults entry actual = true <->
    actual = {| reg_a := 0; reg_x := 0; reg_y := 0; reg_z := false; reg_c := false |}.
Proof.
  cbv zeta.
  assert (Htokens : Forall two_hex_digits (hex_byte <$> bs)).
  { apply Forall_fmap. eapply Forall_impl; [exact Hbytes|].
    intros b Hb. apply hex_byte_spec, Hb. }
  rewrite !handleInputs_app.
  set (registers := {| expected_a := Some 0; expected_x := Some 0; expected_y := Some 0;
                       expected_z := false; expected_c := false |}).
  rewrite (handleInputs_typed nameLine (addCustomProgram programs))
    by first [exact Hname | (cbn; discriminate)].
  set (s2 := {| add_state := InputState.BYTES; add_name := String_trim nameLine;
                add_inputBuffer := []; add_code := []; add_registers := registers;
                add_programs := programs |}).
  change (handleInputs [[13]] (with_add_inputBuffer _ (addCustomProgram programs))) with s2.
  rewrite (handleInputs_typed (Array_join 32 (hex_byte <$> bs)) s2)
    by first [apply hex_line_is_text, Htokens | (cbn; discriminate)].
  change (handleInputs [[13]] (with_add_inputBuffer _ s2))
    with (match ProgramMenu_enterBytes (Array_join 32 (hex_byte <$> bs)) with
          | InvalidBytes _ =>
              with_add_inputBuffer []
                (with_add_inputBuffer (Array_join 32 (hex_byte <$> bs)) s2)
          | Code code =>
              {| add_state := InputState.REGISTERS_QUESTION;
                 add_name := String_trim nameLine;
                 add_inputBuffer := []; add_code := code; add_registers := registers;
                 add_programs := programs |}
          end).
  rewrite (ProgramMenu_enterBytes_hex_line bs Hne Hbytes).
  split; [reflexivity|]. split; [reflexivity|].
  intros [a x y z c]. unfold validateProgramResults. cbn.
  rewrite !andb_true_iff, !Z.eqb_eq, !eqb_true_iff. split.
  - intros ((((-> & ->) & ->) & ->) & ->). reflexivity.
  - intros H. injection H as -> -> -> -> ->. auto.
Qed.

Lemma custom_program_session_adds_the_typed_program_witness :
  add_programs
    (handleInputs (typed (js " demo") ++ [[13]] ++ typed (js "A9 05 00") ++ [[13]] ++
                   [js "n"; [13]])
       (addCustomProgram [])) =
  [{| menu_name := js "demo"; menu_code := [Some 0xA9; Some 0x05; Some 0x00];
      menu_expectedRegisters :=
        Some {| expected_a := Some 0; expected_x := Some 0; expected_y := Some 0;
                expected_z := false; expected_c := false |} |}].
Proof.
  refine (proj1 (proj2 (custom_program_session_adds_the_typed_program
                          [] (js " demo") [0xA9; 0x05; 0x00] _ _ _))).
  - reflexivity.
  - discriminate.
  - repeat constructor; lia.
Defined.

(** X27.  Backspace undoes the key typed before it, and does nothing to an
    empty line. *)
Theorem backspace_removes_the_last_code_unit (c : Z) (s : AddProgram)
    (Htext : is_text c = true) :
  handleInput [127] (handleInput [c] s) = s /\
  handleInput [8] (handleInput [c] s) = s /\
  (add_inputBuffer s = [] -> handleInput [127] s = s).
Proof.
  assert (Hdel : forall k, k = 127 \/ k = 8 ->
            is_enter [k] = false /\ is_backspace [k] = true).
  { intros k [-> | ->]; split; reflexivity. }
  assert (Hback : forall k, k = 127 \/ k = 8 -> handleInput [k] (handleInput [c] s) = s).
  { intros k Hk. destruct (Hdel k Hk) as [He Hb].
    assert (Hcases : add_state s = InputState.COMPLETE \/ add_state s <> InputState.COMPLETE)
      by (destruct (add_state s); first [left; reflexivity | right; discriminate]).
    destruct Hcases as [Hst|Hst].
    - unfold handleInput. rewrite Hst. cbn. rewrite Hst. reflexivity.
    - rewrite (handleInput_text c s) by assumption.
      unfold handleInput, edit_inputBuffer. rewrite He, Hb.
      cbn [add_state add_inputBuffer with_add_inputBuffer].
      rewrite length_app. cbn [length].
      replace (0 <? length (add_inputBuffer s) + 1)%nat with true
        by (symmetry; apply Nat.ltb_lt; lia).
      replace (length (add_inputBuffer s) + 1 - 1)%nat with (length (add_inputBuffer s))
        by lia.
      rewrite take_app_length.
      destruct s as [st n b cd r ps]. destruct st; try reflexivity. contradiction. }
  split; [apply Hback; left; reflexivity|].
  split; [apply Hback; right; reflexivity|].
  intros Hempty. unfold handleInput, edit_inputBuffer.
  change (is_enter [127]) with false. change (is_backspace [127]) with true.
  rewrite Hempty. cbn. destruct (add_state s); reflexivity.
Qed.

Lemma backspace_removes_the_last_code_unit_witness :
  handleInput [127] (handleInput (js "x") (addCustomProgram [])) = addCustomProgram [].
Proof.
  refine (proj1 (backspace_removes_the_last_code_unit 120 (addCustomProgram []) _)).
  reflexivity.
Defined.
